(** * File upload, listing and deletion over an object store and a ledger

    A shallow embedding of [animeapi/views/oss_views.py] together with the
    collaborators it calls: [animeapi/services/oss_cloudflare.py] (the R2
    object store client), [animeapi/models.py] and [animeapi/utils/models.py]
    (the soft-deletable [UserFileRecord] ledger) and
    [animeapi/utils/api_response.py] (the response envelope).

    Python values are modelled as follows: [str] is [string] (the bytes of
    its UTF-8 encoding), a byte count is [N], a primary key is [Z],
    [None]-able values are [option], a [dict] used as configuration is an
    association list in insertion order, the bucket is a [gmap] from object
    keys to objects, and the ledger table is the list of its rows in
    insertion order.  Exceptions are values of [Exc]; state and exceptions
    are threaded by the monad [M].  Requests are served one at a time and
    every database statement is committed on its own; what the clock, the
    UUID generator, the store and the database decide is read from [Env]. *)

From Stdlib Require Import ZArith NArith Ascii String List Bool Lia.
From stdpp Require Import base strings list gmap pretty sorting.

Local Open Scope string_scope.
Local Open Scope Z_scope.

(** ** Python built-ins used by the views *)

Module Py.

(** Truthiness of an optional string: [None] and [''] are falsy. *)
Definition truthy (o : option string) : bool :=
  match o with
  | Some (String _ _) => true
  | _ => false
  end.

(** [a or b] on strings where [a] may be [None]. *)
Definition or_else (a : option string) (b : string) : string :=
  match a with
  | Some (String c s) => String c s
  | _ => b
  end.

(** [dict.get(key, default)]. *)
Definition get_default (a : option string) (d : string) : string :=
  match a with
  | Some s => s
  | None => d
  end.

(** *** [str.lower()]

    A [str] is held as the bytes of its UTF-8 encoding.  [lower] reads the
    code points, lower-cases each as CPython does, and writes the result
    back.  The tables are those of Unicode 14.0, the version of CPython
    3.11. *)

Definition byte (b : ascii) : Z := Z.of_N (N_of_ascii b).

Definition to_byte (z : Z) : ascii := ascii_of_N (Z.to_N z).

(** What a text is made of: code points, and bytes that belong to no code
    point (no [str] has any, they are carried along unchanged). *)
Inductive item :=
| CodePoint (cp : Z)
| Stray (b : ascii).

Definition continuation (b : ascii) : bool :=
  (128 <=? byte b) && (byte b <=? 191).

(** The item that starts with the byte [b0], which [s1] follows, and the
    number of bytes of [s1] that it takes. *)
Definition decode_head (b0 : ascii) (s1 : string) : item * nat :=
  let stray := (Stray b0, 0%nat) in
  if byte b0 <? 128 then (CodePoint (byte b0), 0%nat)
  else
    match s1 with
    | EmptyString => stray
    | String b1 s2 =>
        if (194 <=? byte b0) && (byte b0 <=? 223) && continuation b1 then
          (CodePoint ((byte b0 - 192) * 64 + (byte b1 - 128)), 1%nat)
        else
          match s2 with
          | EmptyString => stray
          | String b2 s3 =>
              let cp3 := (byte b0 - 224) * 4096 + (byte b1 - 128) * 64
                         + (byte b2 - 128) in
              if (224 <=? byte b0) && (byte b0 <=? 239) && continuation b1
                 && continuation b2 && (2048 <=? cp3) then
                (CodePoint cp3, 2%nat)
              else
                match s3 with
                | EmptyString => stray
                | String b3 _ =>
                    let cp4 := (byte b0 - 240) * 262144
                               + (byte b1 - 128) * 4096
                               + (byte b2 - 128) * 64 + (byte b3 - 128) in
                    if (240 <=? byte b0) && (byte b0 <=? 244)
                       && continuation b1 && continuation b2
                       && continuation b3
                       && (65536 <=? cp4) && (cp4 <? 1114112) then
                      (CodePoint cp4, 3%nat)
                    else stray
                end
          end
    end.

(** The items of a text; [skip] bytes at its head belong to the item
    before. *)
Fixpoint decode_from (skip : nat) (s : string) : list item :=
  match s with
  | EmptyString => []
  | String b0 s1 =>
      match skip with
      | S skip' => decode_from skip' s1
      | O => let '(x, taken) := decode_head b0 s1 in x :: decode_from taken s1
      end
  end.

Definition decode (s : string) : list item := decode_from 0 s.

Definition encode (x : item) : string :=
  match x with
  | Stray b => String b ""
  | CodePoint cp =>
      if cp <? 128 then String (to_byte cp) ""
      else if cp <? 2048 then
        String (to_byte (192 + cp / 64)) (String (to_byte (128 + cp mod 64)) "")
      else if cp <? 65536 then
        String (to_byte (224 + cp / 4096))
          (String (to_byte (128 + (cp / 64) mod 64))
             (String (to_byte (128 + cp mod 64)) ""))
      else
        String (to_byte (240 + cp / 262144))
          (String (to_byte (128 + (cp / 4096) mod 64))
             (String (to_byte (128 + (cp / 64) mod 64))
                (String (to_byte (128 + cp mod 64)) "")))
  end.

Fixpoint encode_all (l : list item) : string :=
  match l with
  | [] => ""
  | x :: l' => encode x ++ encode_all l'
  end.

(** The code points that have a lower-case form of one code point:
    [(first, last, step, delta)] stands for the code points [first],
    [first + step], ... up to [last], each of which becomes itself plus
    [delta]. *)
Definition lower_runs : list (Z * Z * Z * Z) :=
  [
   (65, 90, 1, 32); (192, 214, 1, 32); (216, 222, 1, 32); (256, 302, 2, 1);
   (306, 310, 2, 1); (313, 327, 2, 1); (330, 374, 2, 1);
   (376, 376, 1, -121); (377, 381, 2, 1); (385, 385, 1, 210);
   (386, 388, 2, 1); (390, 390, 1, 206); (391, 391, 1, 1);
   (393, 394, 1, 205); (395, 395, 1, 1); (398, 398, 1, 79);
   (399, 399, 1, 202); (400, 400, 1, 203); (401, 401, 1, 1);
   (403, 403, 1, 205); (404, 404, 1, 207); (406, 406, 1, 211);
   (407, 407, 1, 209); (408, 408, 1, 1); (412, 412, 1, 211);
   (413, 413, 1, 213); (415, 415, 1, 214); (416, 420, 2, 1);
   (422, 422, 1, 218); (423, 423, 1, 1); (425, 425, 1, 218);
   (428, 428, 1, 1); (430, 430, 1, 218); (431, 431, 1, 1);
   (433, 434, 1, 217); (435, 437, 2, 1); (439, 439, 1, 219);
   (440, 440, 1, 1); (444, 444, 1, 1); (452, 452, 1, 2); (453, 453, 1, 1);
   (455, 455, 1, 2); (456, 456, 1, 1); (458, 458, 1, 2); (459, 475, 2, 1);
   (478, 494, 2, 1); (497, 497, 1, 2); (498, 500, 2, 1); (502, 502, 1, -97);
   (503, 503, 1, -56); (504, 542, 2, 1); (544, 544, 1, -130);
   (546, 562, 2, 1); (570, 570, 1, 10795); (571, 571, 1, 1);
   (573, 573, 1, -163); (574, 574, 1, 10792); (577, 577, 1, 1);
   (579, 579, 1, -195); (580, 580, 1, 69); (581, 581, 1, 71);
   (582, 590, 2, 1); (880, 882, 2, 1); (886, 886, 1, 1); (895, 895, 1, 116);
   (902, 902, 1, 38); (904, 906, 1, 37); (908, 908, 1, 64);
   (910, 911, 1, 63); (913, 929, 1, 32); (931, 939, 1, 32);
   (975, 975, 1, 8); (984, 1006, 2, 1); (1012, 1012, 1, -60);
   (1015, 1015, 1, 1); (1017, 1017, 1, -7); (1018, 1018, 1, 1);
   (1021, 1023, 1, -130); (1024, 1039, 1, 80); (1040, 1071, 1, 32);
   (1120, 1152, 2, 1); (1162, 1214, 2, 1); (1216, 1216, 1, 15);
   (1217, 1229, 2, 1); (1232, 1326, 2, 1); (1329, 1366, 1, 48);
   (4256, 4293, 1, 7264); (4295, 4295, 1, 7264); (4301, 4301, 1, 7264);
   (5024, 5103, 1, 38864); (5104, 5109, 1, 8); (7312, 7354, 1, -3008);
   (7357, 7359, 1, -3008); (7680, 7828, 2, 1); (7838, 7838, 1, -7615);
   (7840, 7934, 2, 1); (7944, 7951, 1, -8); (7960, 7965, 1, -8);
   (7976, 7983, 1, -8); (7992, 7999, 1, -8); (8008, 8013, 1, -8);
   (8025, 8031, 2, -8); (8040, 8047, 1, -8); (8072, 8079, 1, -8);
   (8088, 8095, 1, -8); (8104, 8111, 1, -8); (8120, 8121, 1, -8);
   (8122, 8123, 1, -74); (8124, 8124, 1, -9); (8136, 8139, 1, -86);
   (8140, 8140, 1, -9); (8152, 8153, 1, -8); (8154, 8155, 1, -100);
   (8168, 8169, 1, -8); (8170, 8171, 1, -112); (8172, 8172, 1, -7);
   (8184, 8185, 1, -128); (8186, 8187, 1, -126); (8188, 8188, 1, -9);
   (8486, 8486, 1, -7517); (8490, 8490, 1, -8383); (8491, 8491, 1, -8262);
   (8498, 8498, 1, 28); (8544, 8559, 1, 16); (8579, 8579, 1, 1);
   (9398, 9423, 1, 26); (11264, 11311, 1, 48); (11360, 11360, 1, 1);
   (11362, 11362, 1, -10743); (11363, 11363, 1, -3814);
   (11364, 11364, 1, -10727); (11367, 11371, 2, 1);
   (11373, 11373, 1, -10780); (11374, 11374, 1, -10749);
   (11375, 11375, 1, -10783); (11376, 11376, 1, -10782);
   (11378, 11378, 1, 1); (11381, 11381, 1, 1); (11390, 11391, 1, -10815);
   (11392, 11490, 2, 1); (11499, 11501, 2, 1); (11506, 11506, 1, 1);
   (42560, 42604, 2, 1); (42624, 42650, 2, 1); (42786, 42798, 2, 1);
   (42802, 42862, 2, 1); (42873, 42875, 2, 1); (42877, 42877, 1, -35332);
   (42878, 42886, 2, 1); (42891, 42891, 1, 1); (42893, 42893, 1, -42280);
   (42896, 42898, 2, 1); (42902, 42920, 2, 1); (42922, 42922, 1, -42308);
   (42923, 42923, 1, -42319); (42924, 42924, 1, -42315);
   (42925, 42925, 1, -42305); (42926, 42926, 1, -42308);
   (42928, 42928, 1, -42258); (42929, 42929, 1, -42282);
   (42930, 42930, 1, -42261); (42931, 42931, 1, 928); (42932, 42946, 2, 1);
   (42948, 42948, 1, -48); (42949, 42949, 1, -42307);
   (42950, 42950, 1, -35384); (42951, 42953, 2, 1); (42960, 42960, 1, 1);
   (42966, 42968, 2, 1); (42997, 42997, 1, 1); (65313, 65338, 1, 32);
   (66560, 66599, 1, 40); (66736, 66771, 1, 40); (66928, 66938, 1, 39);
   (66940, 66954, 1, 39); (66956, 66962, 1, 39); (66964, 66965, 1, 39);
   (68736, 68786, 1, 64); (71840, 71871, 1, 32); (93760, 93791, 1, 32);
   (125184, 125217, 1, 34)
  ].

(** The cased code points, as ranges with both ends included. *)
Definition cased_ranges : list (Z * Z) :=
  [
   (65, 90); (97, 122); (170, 170); (181, 181); (186, 186); (192, 214);
   (216, 246); (248, 442); (444, 447); (452, 659); (661, 696); (704, 705);
   (736, 740); (837, 837); (880, 883); (886, 887); (890, 893); (895, 895);
   (902, 902); (904, 906); (908, 908); (910, 929); (931, 1013);
   (1015, 1153); (1162, 1327); (1329, 1366); (1376, 1416); (4256, 4293);
   (4295, 4295); (4301, 4301); (4304, 4346); (4349, 4351); (5024, 5109);
   (5112, 5117); (7296, 7304); (7312, 7354); (7357, 7359); (7424, 7615);
   (7680, 7957); (7960, 7965); (7968, 8005); (8008, 8013); (8016, 8023);
   (8025, 8025); (8027, 8027); (8029, 8029); (8031, 8061); (8064, 8116);
   (8118, 8124); (8126, 8126); (8130, 8132); (8134, 8140); (8144, 8147);
   (8150, 8155); (8160, 8172); (8178, 8180); (8182, 8188); (8305, 8305);
   (8319, 8319); (8336, 8348); (8450, 8450); (8455, 8455); (8458, 8467);
   (8469, 8469); (8473, 8477); (8484, 8484); (8486, 8486); (8488, 8488);
   (8490, 8493); (8495, 8500); (8505, 8505); (8508, 8511); (8517, 8521);
   (8526, 8526); (8544, 8575); (8579, 8580); (9398, 9449); (11264, 11492);
   (11499, 11502); (11506, 11507); (11520, 11557); (11559, 11559);
   (11565, 11565); (42560, 42605); (42624, 42653); (42786, 42887);
   (42891, 42894); (42896, 42954); (42960, 42961); (42963, 42963);
   (42965, 42969); (42997, 42998); (43000, 43002); (43824, 43866);
   (43868, 43880); (43888, 43967); (64256, 64262); (64275, 64279);
   (65313, 65338); (65345, 65370); (66560, 66639); (66736, 66771);
   (66776, 66811); (66928, 66938); (66940, 66954); (66956, 66962);
   (66964, 66965); (66967, 66977); (66979, 66993); (66995, 67001);
   (67003, 67004); (67456, 67456); (67459, 67461); (67463, 67504);
   (67506, 67514); (68736, 68786); (68800, 68850); (71840, 71903);
   (93760, 93823); (119808, 119892); (119894, 119964); (119966, 119967);
   (119970, 119970); (119973, 119974); (119977, 119980); (119982, 119993);
   (119995, 119995); (119997, 120003); (120005, 120069); (120071, 120074);
   (120077, 120084); (120086, 120092); (120094, 120121); (120123, 120126);
   (120128, 120132); (120134, 120134); (120138, 120144); (120146, 120485);
   (120488, 120512); (120514, 120538); (120540, 120570); (120572, 120596);
   (120598, 120628); (120630, 120654); (120656, 120686); (120688, 120712);
   (120714, 120744); (120746, 120770); (120772, 120779); (122624, 122633);
   (122635, 122654); (125184, 125251); (127280, 127305); (127312, 127337);
   (127344, 127369)
  ].

(** The case-ignorable code points, as ranges with both ends included. *)
Definition case_ignorable_ranges : list (Z * Z) :=
  [
   (39, 39); (46, 46); (58, 58); (94, 94); (96, 96); (168, 168); (173, 173);
   (175, 175); (180, 180); (183, 184); (688, 879); (884, 885); (890, 890);
   (900, 901); (903, 903); (1155, 1161); (1369, 1369); (1375, 1375);
   (1425, 1469); (1471, 1471); (1473, 1474); (1476, 1477); (1479, 1479);
   (1524, 1524); (1536, 1541); (1552, 1562); (1564, 1564); (1600, 1600);
   (1611, 1631); (1648, 1648); (1750, 1757); (1759, 1768); (1770, 1773);
   (1807, 1807); (1809, 1809); (1840, 1866); (1958, 1968); (2027, 2037);
   (2042, 2042); (2045, 2045); (2070, 2093); (2137, 2139); (2184, 2184);
   (2192, 2193); (2200, 2207); (2249, 2306); (2362, 2362); (2364, 2364);
   (2369, 2376); (2381, 2381); (2385, 2391); (2402, 2403); (2417, 2417);
   (2433, 2433); (2492, 2492); (2497, 2500); (2509, 2509); (2530, 2531);
   (2558, 2558); (2561, 2562); (2620, 2620); (2625, 2626); (2631, 2632);
   (2635, 2637); (2641, 2641); (2672, 2673); (2677, 2677); (2689, 2690);
   (2748, 2748); (2753, 2757); (2759, 2760); (2765, 2765); (2786, 2787);
   (2810, 2815); (2817, 2817); (2876, 2876); (2879, 2879); (2881, 2884);
   (2893, 2893); (2901, 2902); (2914, 2915); (2946, 2946); (3008, 3008);
   (3021, 3021); (3072, 3072); (3076, 3076); (3132, 3132); (3134, 3136);
   (3142, 3144); (3146, 3149); (3157, 3158); (3170, 3171); (3201, 3201);
   (3260, 3260); (3263, 3263); (3270, 3270); (3276, 3277); (3298, 3299);
   (3328, 3329); (3387, 3388); (3393, 3396); (3405, 3405); (3426, 3427);
   (3457, 3457); (3530, 3530); (3538, 3540); (3542, 3542); (3633, 3633);
   (3636, 3642); (3654, 3662); (3761, 3761); (3764, 3772); (3782, 3782);
   (3784, 3789); (3864, 3865); (3893, 3893); (3895, 3895); (3897, 3897);
   (3953, 3966); (3968, 3972); (3974, 3975); (3981, 3991); (3993, 4028);
   (4038, 4038); (4141, 4144); (4146, 4151); (4153, 4154); (4157, 4158);
   (4184, 4185); (4190, 4192); (4209, 4212); (4226, 4226); (4229, 4230);
   (4237, 4237); (4253, 4253); (4348, 4348); (4957, 4959); (5906, 5908);
   (5938, 5939); (5970, 5971); (6002, 6003); (6068, 6069); (6071, 6077);
   (6086, 6086); (6089, 6099); (6103, 6103); (6109, 6109); (6155, 6159);
   (6211, 6211); (6277, 6278); (6313, 6313); (6432, 6434); (6439, 6440);
   (6450, 6450); (6457, 6459); (6679, 6680); (6683, 6683); (6742, 6742);
   (6744, 6750); (6752, 6752); (6754, 6754); (6757, 6764); (6771, 6780);
   (6783, 6783); (6823, 6823); (6832, 6862); (6912, 6915); (6964, 6964);
   (6966, 6970); (6972, 6972); (6978, 6978); (7019, 7027); (7040, 7041);
   (7074, 7077); (7080, 7081); (7083, 7085); (7142, 7142); (7144, 7145);
   (7149, 7149); (7151, 7153); (7212, 7219); (7222, 7223); (7288, 7293);
   (7376, 7378); (7380, 7392); (7394, 7400); (7405, 7405); (7412, 7412);
   (7416, 7417); (7468, 7530); (7544, 7544); (7579, 7679); (8125, 8125);
   (8127, 8129); (8141, 8143); (8157, 8159); (8173, 8175); (8189, 8190);
   (8203, 8207); (8216, 8217); (8228, 8228); (8231, 8231); (8234, 8238);
   (8288, 8292); (8294, 8303); (8305, 8305); (8319, 8319); (8336, 8348);
   (8400, 8432); (11388, 11389); (11503, 11505); (11631, 11631);
   (11647, 11647); (11744, 11775); (11823, 11823); (12293, 12293);
   (12330, 12333); (12337, 12341); (12347, 12347); (12441, 12446);
   (12540, 12542); (40981, 40981); (42232, 42237); (42508, 42508);
   (42607, 42610); (42612, 42621); (42623, 42623); (42652, 42655);
   (42736, 42737); (42752, 42785); (42864, 42864); (42888, 42890);
   (42994, 42996); (43000, 43001); (43010, 43010); (43014, 43014);
   (43019, 43019); (43045, 43046); (43052, 43052); (43204, 43205);
   (43232, 43249); (43263, 43263); (43302, 43309); (43335, 43345);
   (43392, 43394); (43443, 43443); (43446, 43449); (43452, 43453);
   (43471, 43471); (43493, 43494); (43561, 43566); (43569, 43570);
   (43573, 43574); (43587, 43587); (43596, 43596); (43632, 43632);
   (43644, 43644); (43696, 43696); (43698, 43700); (43703, 43704);
   (43710, 43711); (43713, 43713); (43741, 43741); (43756, 43757);
   (43763, 43764); (43766, 43766); (43867, 43871); (43881, 43883);
   (44005, 44005); (44008, 44008); (44013, 44013); (64286, 64286);
   (64434, 64450); (65024, 65039); (65043, 65043); (65056, 65071);
   (65106, 65106); (65109, 65109); (65279, 65279); (65287, 65287);
   (65294, 65294); (65306, 65306); (65342, 65342); (65344, 65344);
   (65392, 65392); (65438, 65439); (65507, 65507); (65529, 65531);
   (66045, 66045); (66272, 66272); (66422, 66426); (67456, 67461);
   (67463, 67504); (67506, 67514); (68097, 68099); (68101, 68102);
   (68108, 68111); (68152, 68154); (68159, 68159); (68325, 68326);
   (68900, 68903); (69291, 69292); (69446, 69456); (69506, 69509);
   (69633, 69633); (69688, 69702); (69744, 69744); (69747, 69748);
   (69759, 69761); (69811, 69814); (69817, 69818); (69821, 69821);
   (69826, 69826); (69837, 69837); (69888, 69890); (69927, 69931);
   (69933, 69940); (70003, 70003); (70016, 70017); (70070, 70078);
   (70089, 70092); (70095, 70095); (70191, 70193); (70196, 70196);
   (70198, 70199); (70206, 70206); (70367, 70367); (70371, 70378);
   (70400, 70401); (70459, 70460); (70464, 70464); (70502, 70508);
   (70512, 70516); (70712, 70719); (70722, 70724); (70726, 70726);
   (70750, 70750); (70835, 70840); (70842, 70842); (70847, 70848);
   (70850, 70851); (71090, 71093); (71100, 71101); (71103, 71104);
   (71132, 71133); (71219, 71226); (71229, 71229); (71231, 71232);
   (71339, 71339); (71341, 71341); (71344, 71349); (71351, 71351);
   (71453, 71455); (71458, 71461); (71463, 71467); (71727, 71735);
   (71737, 71738); (71995, 71996); (71998, 71998); (72003, 72003);
   (72148, 72151); (72154, 72155); (72160, 72160); (72193, 72202);
   (72243, 72248); (72251, 72254); (72263, 72263); (72273, 72278);
   (72281, 72283); (72330, 72342); (72344, 72345); (72752, 72758);
   (72760, 72765); (72767, 72767); (72850, 72871); (72874, 72880);
   (72882, 72883); (72885, 72886); (73009, 73014); (73018, 73018);
   (73020, 73021); (73023, 73029); (73031, 73031); (73104, 73105);
   (73109, 73109); (73111, 73111); (73459, 73460); (78896, 78904);
   (92912, 92916); (92976, 92982); (92992, 92995); (94031, 94031);
   (94095, 94111); (94176, 94177); (94179, 94180); (110576, 110579);
   (110581, 110587); (110589, 110590); (113821, 113822); (113824, 113827);
   (118528, 118573); (118576, 118598); (119143, 119145); (119155, 119170);
   (119173, 119179); (119210, 119213); (119362, 119364); (121344, 121398);
   (121403, 121452); (121461, 121461); (121476, 121476); (121499, 121503);
   (121505, 121519); (122880, 122886); (122888, 122904); (122907, 122913);
   (122915, 122916); (122918, 122922); (123184, 123197); (123566, 123566);
   (123628, 123631); (125136, 125142); (125252, 125259); (127995, 127999);
   (917505, 917505); (917536, 917631); (917760, 917999)
  ].

Definition in_run (cp : Z) (run : Z * Z * Z * Z) : bool :=
  let '(first, last, step, _) := run in
  if cp <? first then false
  else if last <? cp then false
  else (cp - first) mod step =? 0.

Definition in_range (cp : Z) (range : Z * Z) : bool :=
  if cp <? fst range then false else cp <=? snd range.

Definition is_cased (cp : Z) : bool := existsb (in_range cp) cased_ranges.

Definition is_case_ignorable (cp : Z) : bool :=
  existsb (in_range cp) case_ignorable_ranges.

Definition to_lower (cp : Z) : Z :=
  match List.find (in_run cp) lower_runs with
  | Some (_, _, _, delta) => cp + delta
  | None => cp
  end.

(** The one code point with a lower-case form of two: the capital I with
    a dot above becomes [i] and a combining dot above. *)
Definition to_lower_full (cp : Z) : list Z :=
  if cp =? 304 then [105; 775] else [to_lower cp].

(** A cased code point follows, after any number of case-ignorable ones. *)
Fixpoint cased_ahead (l : list item) : bool :=
  match l with
  | CodePoint cp :: l' =>
      if is_case_ignorable cp then cased_ahead l' else is_cased cp
  | _ => false
  end.

(** The capital sigma (931) becomes the final sigma (962) after a cased
    code point, with any number of case-ignorable ones in between, unless
    a cased code point follows in the same way; it becomes the small
    sigma (963) otherwise. *)
Definition lower_ucs4 (after_cased : bool) (cp : Z) (rest : list item) : list Z :=
  if cp =? 931 then
    [if after_cased && negb (cased_ahead rest) then 962 else 963]
  else to_lower_full cp.

(** [after_cased]: the last code point before this place that is not
    case-ignorable is a cased one. *)
Fixpoint lower_from (after_cased : bool) (l : list item) : list item :=
  match l with
  | [] => []
  | Stray b :: l' => Stray b :: lower_from false l'
  | CodePoint cp :: l' =>
      (CodePoint <$> lower_ucs4 after_cased cp l') ++
      lower_from (if is_case_ignorable cp then after_cased else is_cased cp) l'
  end.

Definition lower (s : string) : string :=
  encode_all (lower_from false (decode s)).

Fixpoint rfind_from (c : ascii) (s : string) (i acc : Z) : Z :=
  match s with
  | EmptyString => acc
  | String a s' => rfind_from c s' (i + 1) (if Ascii.eqb a c then i else acc)
  end.

(** [str.rfind(c)]: the index of the last occurrence, or [-1]. *)
Definition rfind (c : ascii) (s : string) : Z := rfind_from c s 0 (-1).

(** [p[:i]] and [p[i:]] for [0 <= i]. *)
Definition slice_to (i : Z) (p : string) : string := substring 0 (Z.to_nat i) p.
Definition slice_from (i : Z) (p : string) : string :=
  substring (Z.to_nat i) (String.length p - Z.to_nat i) p.

(** The [while] loop of [genericpath._splitext]: starting at
    [filenameIndex], for [n] positions, is there a character that is not
    the extension separator?  ([p[i:i+1]] past the end is [''], which
    differs from ['.'].) *)
Fixpoint skip_leading_dots (p : string) (filenameIndex n : nat) : bool :=
  match n with
  | O => false
  | S n' =>
      match String.get filenameIndex p with
      | Some c =>
          if Ascii.eqb c "." then skip_leading_dots p (S filenameIndex) n'
          else true
      | None => true
      end
  end.

(** [os.path.splitext] (POSIX: [sep = '/'], no [altsep], [extsep = '.']). *)
Definition splitext (p : string) : string * string :=
  let sepIndex := rfind "/" p in
  let dotIndex := rfind "." p in
  if (sepIndex <? dotIndex) &&
     skip_leading_dots p (Z.to_nat (sepIndex + 1))
       (Z.to_nat (dotIndex - (sepIndex + 1)))
  then (slice_to dotIndex p, slice_from dotIndex p)
  else (p, "").

(** [x in l] for a list of strings. *)
Definition str_in (x : string) (l : list string) : bool :=
  bool_decide (x ∈ l).

(** [s in msg] for strings: [s] occurs as a contiguous run of [msg]. *)
Fixpoint contains (s msg : string) : bool :=
  String.prefix s msg ||
  match msg with
  | EmptyString => false
  | String _ msg' => contains s msg'
  end.

End Py.

(** ** Floats: megabyte quotients and their text

    The only floats of the program are quotients [n / (1024 * 1024)] of a
    byte count.  Python rounds the exact quotient to the nearest double
    (ties to even); dividing by [2^20] only shifts the exponent, so the
    double is [round53 n / 2^20].  A megabyte value is represented by that
    numerator. *)

Module Float.

Definition MiB : Z := 1024 * 1024.

(** [n] rounded to 53 significant bits, ties to even. *)
Definition round53 (n : Z) : Z :=
  let bits := Z.log2 n + 1 in
  if bits <=? 53 then n
  else
    let s := bits - 53 in
    let q := Z.shiftr n s in
    let r := n - Z.shiftl q s in
    let half := Z.shiftl 1 (s - 1) in
    let up := (half <? r) || ((r =? half) && Z.odd q) in
    Z.shiftl (if up then q + 1 else q) s.

(** [size / (1024 * 1024)]: numerator of the double over [2^20]. *)
Definition div_MiB (size : N) : Z := round53 (Z.of_N size).

(** Hundredths nearest to [num / 2^20], ties to even: what ['.2f']
    prints. *)
Definition hundredths (num : Z) : Z :=
  let a := 100 * num in
  let q := a / MiB in
  let r := a mod MiB in
  let half := MiB / 2 in
  if (half <? r) || ((r =? half) && Z.odd q) then q + 1 else q.

Definition digit (d : Z) : string := pretty (d mod 10).

(** A count of hundredths printed with two decimals: [1234] is
    ["12.34"]. *)
Definition fixed2 (q : Z) : string :=
  pretty (q / 100) +:+ "." +:+ digit (q / 10) +:+ digit q.

(** [f'{x:.2f}'] for [x = num / 2^20 >= 0]. *)
Definition format_2f (num : Z) : string := fixed2 (hundredths num).

(** *** [repr] of a float: the shortest decimal text that reads back as
    the same double, nearest to it among the shortest. *)

Definition ndigits (t : Z) : Z := Z.of_nat (String.length (pretty t)).

(** The value [num / 2^20] is the decimal [num * 5^20 / 10^20]. *)
Definition decimal20 (num : Z) : Z := num * 5 ^ 20.

(** Does the decimal [v / 10^20] read back as the double [num / 2^20]?
    It does when it lies between the midpoints to the two neighbouring
    doubles; the midpoints themselves read back as [num / 2^20] when its
    mantissa is even. *)
Definition reads_back (num v : Z) : bool :=
  let e := Z.log2 num - 52 in
  let sc := 2 + Z.max 0 (- e) in
  let w := 2 ^ sc in
  let x := decimal20 num * w in
  let ulp := 2 ^ (e + sc) * 5 ^ 20 in
  let hi := x + ulp / 2 in
  let lo := x - (if num =? 2 ^ Z.log2 num then ulp / 4 else ulp / 2) in
  let mantissa := if e <? 0 then num * 2 ^ (- e) else Z.shiftr num e in
  if Z.even mantissa then (lo <=? v * w) && (v * w <=? hi)
  else (lo <? v * w) && (v * w <? hi).

(** The best decimal with [d] significant digits, if one reads back:
    the nearer of the two that enclose the value, the even one on a
    tie. *)
Definition shortest_at (num d : Z) : option Z :=
  let t := decimal20 num in
  let j := ndigits t - d in
  if j <=? 0 then Some t
  else
    let c := t / 10 ^ j in
    let v1 := c * 10 ^ j in
    let v2 := (c + 1) * 10 ^ j in
    match reads_back num v1, reads_back num v2 with
    | true, true =>
        Some (if t - v1 <? v2 - t then v1
              else if v2 - t <? t - v1 then v2
              else if Z.even c then v1 else v2)
    | true, false => Some v1
    | false, true => Some v2
    | false, false => None
    end.

Fixpoint shortest_from (num d : Z) (fuel : nat) : Z :=
  match fuel with
  | O => decimal20 num
  | S fuel' =>
      match shortest_at num d with
      | Some v => v
      | None => shortest_from num (d + 1) fuel'
      end
  end.

(** Seventeen digits always suffice for a double. *)
Definition shortest (num : Z) : Z := shortest_from num 1 17.

Fixpoint strip_zeros_rev (s : list ascii) : list ascii :=
  match s with
  | "0"%char :: s' => strip_zeros_rev s'
  | _ => s
  end.

Definition strip_trailing_zeros (s : string) : string :=
  string_of_list_ascii (rev (strip_zeros_rev (rev (list_ascii_of_string s)))).

Fixpoint zeros (n : nat) : string :=
  match n with
  | O => ""
  | S n' => String "0" (zeros n')
  end.

(** [float.__repr__] for [num / 2^20 >= 0]: fixed notation when the
    decimal point position [decpt] satisfies [-4 < decpt <= 16],
    otherwise scientific notation with an exponent of at least two
    digits. *)
Definition repr (num : Z) : string :=
  if num =? 0 then "0.0"
  else
    let s := pretty (shortest num) in
    let decpt := Z.of_nat (String.length s) - 20 in
    let digs := strip_trailing_zeros s in
    let nd := Z.of_nat (String.length digs) in
    if (decpt <=? -4) || (16 <? decpt) then
      let ex := decpt - 1 in
      let mant :=
        substring 0 1 digs +:+
        (if 1 <? nd then "." +:+ substring 1 (String.length digs - 1) digs
         else "") in
      let ds := pretty (Z.abs ex) in
      mant +:+ "e" +:+ (if ex <? 0 then "-" else "+") +:+
      (if Z.abs ex <? 10 then "0" +:+ ds else ds)
    else if decpt <=? 0 then
      "0." +:+ zeros (Z.to_nat (- decpt)) +:+ digs
    else if decpt <? nd then
      substring 0 (Z.to_nat decpt) digs +:+ "." +:+
      substring (Z.to_nat decpt) (String.length digs - Z.to_nat decpt) digs
    else
      digs +:+ zeros (Z.to_nat (decpt - nd)) +:+ ".0".

End Float.

(** ** Settings and uploaded files *)

(** The keys of [settings.FILE_UPLOAD_CONFIG] that the views read.  The
    settings module is deployment configuration; every statement below is
    for an arbitrary value of it.  The two allow-lists map a category to a
    list of MIME types or of extensions. *)
Record FILE_UPLOAD_CONFIG := {
  MAX_FILE_SIZE : N;
  ALLOWED_TYPES : list (string * list string);
  ALLOWED_EXTENSIONS : list (string * list string);
  MAX_BATCH_COUNT : Z
}.

(** [for v in d.values(): acc.extend(v)]. *)
Definition flatten_values (d : list (string * list string)) : list string :=
  concat (map snd d).

(** Django's [UploadedFile]: the declared name, size and MIME type, and
    the bytes. *)
Module UploadedFile.
Record t := { name : string; size : N; content_type : string; body : string }.
End UploadedFile.

Section Validation.

Variable config : FILE_UPLOAD_CONFIG.

Definition size_message (file_obj : UploadedFile.t) : string :=
  let max_size_mb := Float.div_MiB (MAX_FILE_SIZE config) in
  let file_size_mb := Float.div_MiB (UploadedFile.size file_obj) in
  "文件 " +:+ UploadedFile.name file_obj +:+ " 大小 " +:+
  Float.format_2f file_size_mb +:+ "MB 超过限制 " +:+
  Float.repr max_size_mb +:+ "MB".

Definition validate_file (file_obj : UploadedFile.t) : bool * option string :=
  if (MAX_FILE_SIZE config <? UploadedFile.size file_obj)%N then
    (false, Some (size_message file_obj))
  else
    let content_type := UploadedFile.content_type file_obj in
    let allowed_types := flatten_values (ALLOWED_TYPES config) in
    if negb (Py.str_in content_type allowed_types) then
      (false, Some ("文件 " +:+ UploadedFile.name file_obj +:+ " 类型 " +:+
                    content_type +:+ " 不被允许"))
    else
      let file_ext := Py.lower (snd (Py.splitext (UploadedFile.name file_obj))) in
      let allowed_extensions := flatten_values (ALLOWED_EXTENSIONS config) in
      if Py.truthy (Some file_ext) && negb (Py.str_in file_ext allowed_extensions) then
        (false, Some ("文件 " +:+ UploadedFile.name file_obj +:+ " 扩展名 " +:+
                      file_ext +:+ " 不被允许"))
      else (true, None).

End Validation.

(** ** Exceptions *)

(** An exception is observed through its class (the store client catches
    [ClientError] only; the views catch every [Exception]) and through
    [str(e)]. *)
Inductive Exc :=
| ClientError (msg : string)
| IntegrityError (msg : string)
| OtherError (msg : string)
| Exception (msg : string).

Definition str (e : Exc) : string :=
  match e with
  | ClientError msg | IntegrityError msg | OtherError msg | Exception msg => msg
  end.

(** ** The ledger row *)

Module UserFileRecord.
Record t := {
  id : Z;
  uuid : string;
  user : Z;
  file_name : string;
  file_path : string;
  file_url : string;
  file_size : N;
  content_type : string;
  project_name : string;
  file_type : string;
  description : string;
  metadata : list (string * string);
  is_public : bool;
  expires_at : option Z;
  is_deleted : bool;
  deleted_at : option Z;
  created_at : Z;
  uploaded_at : Z;
  updated_at : Z
}.

(** The assignments of [SoftDeleteModel.delete]. *)
Definition mark_deleted (r : t) (t_deleted : Z) : t :=
  {| id := id r; uuid := uuid r; user := user r; file_name := file_name r;
     file_path := file_path r; file_url := file_url r;
     file_size := file_size r; content_type := content_type r;
     project_name := project_name r; file_type := file_type r;
     description := description r; metadata := metadata r;
     is_public := is_public r; expires_at := expires_at r;
     is_deleted := true; deleted_at := Some t_deleted;
     created_at := created_at r; uploaded_at := uploaded_at r;
     updated_at := updated_at r |}.

(** The [auto_now] column, refreshed by every [save]. *)
Definition touch (r : t) (t_saved : Z) : t :=
  {| id := id r; uuid := uuid r; user := user r; file_name := file_name r;
     file_path := file_path r; file_url := file_url r;
     file_size := file_size r; content_type := content_type r;
     project_name := project_name r; file_type := file_type r;
     description := description r; metadata := metadata r;
     is_public := is_public r; expires_at := expires_at r;
     is_deleted := is_deleted r; deleted_at := deleted_at r;
     created_at := created_at r; uploaded_at := uploaded_at r;
     updated_at := t_saved |}.
End UserFileRecord.

(** ** The world: bucket, ledger, and what the environment decides *)

Record S3Object := {
  Body : string;
  ContentType : string;
  Metadata : list (string * string)
}.

(** Calls that reach the object store or the ledger, in order. *)
Inductive Event :=
| S3Put (key : string)
| S3Delete (key : string)
| DbInsert (file_path : string)
| DbUpdate (pk : Z).

(** What the program does not decide: the clock, the random UUIDs, whether
    a store or database call fails (and with which exception), and the
    wording of a uniqueness violation.  Each reading is indexed by how many
    were taken before it; a fault is indexed by the length of the trace at
    the time of the call.  [bad_page_size] is the text of the exception
    that Django's paginator ends with for a page size below one.
    [int_of_text] is [int(text)] as the lookup on the integer key [id]
    applies it to a key that is given as text: the integer, or the text of
    the exception that the lookup raises when the text is not a number. *)
Record Env := {
  PUBLIC_URL : string;
  now : nat -> Z;
  strftime : Z -> string;
  isoformat : Z -> string;
  uuid4 : nat -> string;
  s3_fault : nat -> option Exc;
  db_fault : nat -> option Exc;
  unique_violation : string -> string;
  bad_page_size : Z -> string;
  int_of_text : string -> string + Z
}.

Record World := {
  bucket : gmap string S3Object;
  rows : list UserFileRecord.t;
  next_pk : Z;
  clock_reads : nat;
  uuid_draws : nat;
  trace : list Event
}.

Definition set_bucket (b : gmap string S3Object) (w : World) : World :=
  {| bucket := b; rows := rows w; next_pk := next_pk w;
     clock_reads := clock_reads w; uuid_draws := uuid_draws w; trace := trace w |}.

Definition set_rows (l : list UserFileRecord.t) (w : World) : World :=
  {| bucket := bucket w; rows := l; next_pk := next_pk w;
     clock_reads := clock_reads w; uuid_draws := uuid_draws w; trace := trace w |}.

Definition set_next_pk (k : Z) (w : World) : World :=
  {| bucket := bucket w; rows := rows w; next_pk := k;
     clock_reads := clock_reads w; uuid_draws := uuid_draws w; trace := trace w |}.

Definition set_clock_reads (k : nat) (w : World) : World :=
  {| bucket := bucket w; rows := rows w; next_pk := next_pk w;
     clock_reads := k; uuid_draws := uuid_draws w; trace := trace w |}.

Definition set_uuid_draws (k : nat) (w : World) : World :=
  {| bucket := bucket w; rows := rows w; next_pk := next_pk w;
     clock_reads := clock_reads w; uuid_draws := k; trace := trace w |}.

Definition log_event (ev : Event) (w : World) : World :=
  {| bucket := bucket w; rows := rows w; next_pk := next_pk w;
     clock_reads := clock_reads w; uuid_draws := uuid_draws w;
     trace := trace w ++ [ev] |}.

(** ** The state and exception monad *)

Inductive Outcome (A : Type) :=
| Returned (a : A)
| Raised (e : Exc).
Arguments Returned {A} a.
Arguments Raised {A} e.

Definition M (A : Type) : Type := World -> World * Outcome A.

Definition ret {A : Type} (a : A) : M A := fun w => (w, Returned a).

Definition bind {A B : Type} (m : M A) (f : A -> M B) : M B := fun w =>
  match m w with
  | (w', Returned a) => f a w'
  | (w', Raised e) => (w', Raised e)
  end.

Declare Scope py_scope.
Delimit Scope py_scope with py.

Notation "x ← y ; z" := (bind y (fun x => z))
  (at level 20, y at level 100, z at level 200, only parsing) : py_scope.
Notation "' x ← y ; z" := (bind y (fun x => z))
  (at level 20, x pattern, y at level 100, z at level 200, only parsing) : py_scope.
Notation "x ;; z" := (bind x (fun _ => z))
  (at level 100, z at level 200, only parsing, right associativity) : py_scope.

Definition raise {A : Type} (e : Exc) : M A := fun w => (w, Raised e).

(** [try: body / except Exception as e: handler(e)]. *)
Definition try_except {A : Type} (body : M A) (handler : Exc -> M A) : M A :=
  fun w =>
    match body w with
    | (w', Returned a) => (w', Returned a)
    | (w', Raised e) => handler e w'
    end.

(** [try: body / except ClientError as e: handler(e)]: other classes
    propagate. *)
Definition try_except_ClientError {A : Type} (body : M A) (handler : Exc -> M A) : M A :=
  fun w =>
    match body w with
    | (w', Raised (ClientError msg)) => handler (ClientError msg) w'
    | r => r
    end.

(** A view catches everything and always answers. *)
Definition run_view {A : Type} (body : M A) (handler : Exc -> A) (w : World) : World * A :=
  match body w with
  | (w', Returned a) => (w', a)
  | (w', Raised e) => (w', handler e)
  end.

(** ** Requests and responses *)

Module UploadResult.
(** The dict returned by [CloudflareR2Service.upload_file]. *)
Record t := {
  url : string;
  file_path : string;
  file_name : string;
  original_name : string;
  file_size : N;
  content_type : string
}.
End UploadResult.

(** [{**upload_result, 'record_id': record.pk}]. *)
Record Uploaded := { upload_result : UploadResult.t; record_id : Z }.

(** [{'file_name': ..., 'error': ...}]. *)
Record Failed := { failed_name : string; error : option string }.

Record BatchResult := {
  total : nat;
  success_count : nat;
  failed_count : nat;
  success_files : list Uploaded;
  failed_files : list Failed
}.

Module FileItem.
(** One entry of the listing; [file_size_mb] counts hundredths of a
    megabyte ([round(size / MiB, 2)]). *)
Record t := {
  id : Z;
  file_name : string;
  file_path : string;
  file_url : string;
  file_size : N;
  file_size_mb : Z;
  content_type : string;
  project_name : string;
  file_type : string;
  description : string;
  uploaded_at : string;
  is_expired : bool
}.
End FileItem.

Record Pagination := {
  page : Z;
  page_size : Z;
  pg_total : Z;
  total_pages : Z
}.

Inductive Data :=
| UploadData (u : Uploaded)
| BatchData (b : BatchResult)
| ListData (files : list FileItem.t) (pagination : Pagination).

(** The envelope [{code, message, data}] with the HTTP status. *)
Record Response := {
  status : Z;
  code : Z;
  message : string;
  data : option Data
}.

Module APIResponse.
Definition success (d : option Data) (msg : string) : Response :=
  {| status := 200; code := 200; message := msg; data := d |}.

Definition error (msg : string) (c status_code : Z) : Response :=
  {| status := status_code; code := c; message := msg; data := None |}.
End APIResponse.

Module UploadRequest.
(** [POST /upload/]: [request.user], [request.FILES.getlist('file')] and
    the form fields. *)
Record t := {
  user : Z;
  FILES_file : list UploadedFile.t;
  project_name : option string;
  file_type : option string;
  custom_name : option string;
  description : option string
}.
End UploadRequest.

Module BatchRequest.
(** [POST /upload/batch/]. *)
Record t := {
  user : Z;
  FILES_files : list UploadedFile.t;
  project_name : option string;
  file_type : option string;
  description : option string
}.
End BatchRequest.

Module DeleteRequest.
(** What [request.data.get('id')] can be.  A JSON body gives an integer
    or a text, a form or multipart body gives a text.  Of any other value
    ([true], a fraction, a list, ...) the view uses two things only: its
    truth, and what the lookup on the integer key makes of it (the integer
    it compares with, or the text of the exception it raises). *)
Inductive id_value :=
| Number (z : Z)
| Text (s : string)
| Other (truth : bool) (as_key : string + Z).

(** [DELETE /delete/] with body [{id}]; [None] when the body has no
    [id], or has [null] there. *)
Record t := { user : Z; id : option id_value }.
End DeleteRequest.

Module ListRequest.
(** [GET /files/]; [page] and [page_size] are the integers that [int()]
    read from the query string. *)
Record t := {
  user : Z;
  project_name : option string;
  file_type : option string;
  page : option Z;
  page_size : option Z
}.
End ListRequest.

(** ** The program *)

Section Program.

Variable config : FILE_UPLOAD_CONFIG.
Variable E : Env.

Local Open Scope py_scope.

(** *** Clock and UUIDs *)

(** [datetime.now()] and [timezone.now()]. *)
Definition datetime_now : M Z := fun w =>
  (set_clock_reads (S (clock_reads w)) w, Returned (now E (clock_reads w))).

(** [str(uuid.uuid4())]. *)
Definition uuid_uuid4 : M string := fun w =>
  (set_uuid_draws (S (uuid_draws w)) w, Returned (uuid4 E (uuid_draws w))).

(** *** [CloudflareR2Service] *)

Definition s3_upload_fileobj (file_obj : UploadedFile.t) (key : string)
    (meta : list (string * string)) : M unit := fun w =>
  let w1 := log_event (S3Put key) w in
  match s3_fault E (length (trace w)) with
  | Some e => (w1, Raised e)
  | None =>
      let obj := {| Body := UploadedFile.body file_obj;
                    ContentType := UploadedFile.content_type file_obj;
                    Metadata := meta |} in
      (set_bucket (<[key := obj]> (bucket w1)) w1, Returned tt)
  end.

Definition s3_delete_object (key : string) : M unit := fun w =>
  let w1 := log_event (S3Delete key) w in
  match s3_fault E (length (trace w)) with
  | Some e => (w1, Raised e)
  | None => (set_bucket (delete key (bucket w1)) w1, Returned tt)
  end.

Definition upload_file (file_obj : UploadedFile.t)
    (project_name file_type : string) (custom_name : option string)
    : M UploadResult.t :=
  try_except_ClientError
    (t ← datetime_now;
     let timestamp := strftime E t in
     u ← uuid_uuid4;
     let short_uuid := substring 0 8 u in
     let original_name := Py.or_else custom_name (UploadedFile.name file_obj) in
     let file_name := timestamp +:+ "_" +:+ short_uuid +:+ "_" +:+ original_name in
     let file_path := project_name +:+ "/" +:+ file_type +:+ "/" +:+ file_name in
     s3_upload_fileobj file_obj file_path
       [("project", project_name); ("type", file_type); ("upload_time", timestamp)];;
     let public_url := PUBLIC_URL E +:+ "/" +:+ file_path in
     ret {| UploadResult.url := public_url;
             UploadResult.file_path := file_path;
             UploadResult.file_name := file_name;
             UploadResult.original_name := original_name;
             UploadResult.file_size := UploadedFile.size file_obj;
             UploadResult.content_type := UploadedFile.content_type file_obj |})
    (fun e => raise (Exception ("文件上传失败: " +:+ str e))).

Definition delete_file (file_path : string) : M bool :=
  try_except_ClientError
    (s3_delete_object file_path;; ret true)
    (fun e => raise (Exception ("文件删除失败: " +:+ str e))).

(** *** The ledger: [UserFileRecord] and its managers *)

(** [SoftDeleteManager.get_queryset]: the rows that are not deleted. *)
Definition get_queryset (w : World) : list UserFileRecord.t :=
  List.filter (fun r => negb (UserFileRecord.is_deleted r)) (rows w).

Definition all_with_deleted (w : World) : list UserFileRecord.t := rows w.

Definition deleted_only (w : World) : list UserFileRecord.t :=
  List.filter UserFileRecord.is_deleted (rows w).

(** [Meta.ordering = ["-uploaded_at"]]. *)
Definition newer_first (a b : UserFileRecord.t) : Prop :=
  UserFileRecord.uploaded_at b ≤ UserFileRecord.uploaded_at a.

#[global] Instance newer_first_dec a b : Decision (newer_first a b) :=
  Z_le_dec _ _.

Definition ordered (l : list UserFileRecord.t) : list UserFileRecord.t :=
  merge_sort newer_first l.

Definition path_taken (file_path : string) (w : World) : bool :=
  existsb (fun r => String.eqb (UserFileRecord.file_path r) file_path) (rows w).

Definition uuid_taken (u : string) (w : World) : bool :=
  existsb (fun r => String.eqb (UserFileRecord.uuid r) u) (rows w).

(** [UserFileRecord.objects.create(...)]: an INSERT.  The instance draws
    its UUID when it is built; on saving, each [auto_now_add] and
    [auto_now] column reads the clock for itself, in the order of the
    columns: [created_at], [uploaded_at], [updated_at].  The two [unique]
    columns, [file_path] and [uuid], are checked against every row of
    the table, deleted or not. *)
Definition objects_create (user : Z) (file_name file_path file_url : string)
    (file_size : N) (content_type project_name file_type description : string)
    : M UserFileRecord.t :=
  u ← uuid_uuid4;
  created ← datetime_now;
  uploaded ← datetime_now;
  updated ← datetime_now;
  fun w =>
    let w1 := log_event (DbInsert file_path) w in
    match db_fault E (length (trace w)) with
    | Some e => (w1, Raised e)
    | None =>
        if path_taken file_path w then
          (w1, Raised (IntegrityError (unique_violation E "file_path")))
        else if uuid_taken u w then
          (w1, Raised (IntegrityError (unique_violation E "uuid")))
        else
          let record :=
            {| UserFileRecord.id := next_pk w;
               UserFileRecord.uuid := u;
               UserFileRecord.user := user;
               UserFileRecord.file_name := file_name;
               UserFileRecord.file_path := file_path;
               UserFileRecord.file_url := file_url;
               UserFileRecord.file_size := file_size;
               UserFileRecord.content_type := content_type;
               UserFileRecord.project_name := project_name;
               UserFileRecord.file_type := file_type;
               UserFileRecord.description := description;
               UserFileRecord.metadata := [];
               UserFileRecord.is_public := true;
               UserFileRecord.expires_at := None;
               UserFileRecord.is_deleted := false;
               UserFileRecord.deleted_at := None;
               UserFileRecord.created_at := created;
               UserFileRecord.uploaded_at := uploaded;
               UserFileRecord.updated_at := updated |} in
          (set_next_pk (next_pk w + 1) (set_rows (rows w ++ [record]) w1),
           Returned record)
    end.

(** [self.save()] on a fetched instance: an UPDATE of the row with the
    instance's primary key. *)
Definition save (self : UserFileRecord.t) : M unit :=
  t ← datetime_now;
  fun w =>
    let w1 := log_event (DbUpdate (UserFileRecord.id self)) w in
    match db_fault E (length (trace w)) with
    | Some e => (w1, Raised e)
    | None =>
        (set_rows
           (map (fun r => if UserFileRecord.id r =? UserFileRecord.id self
                          then UserFileRecord.touch self t else r) (rows w))
           w1,
         Returned tt)
    end.

(** [SoftDeleteModel.delete]. *)
Definition SoftDeleteModel_delete (self : UserFileRecord.t) : M unit :=
  t ← datetime_now;
  save (UserFileRecord.mark_deleted self t).

(** [UserFileRecord.objects.filter(id=..., user=...).first()]. *)
Definition filter_id_user_first (record_id user : Z) (w : World)
    : option UserFileRecord.t :=
  head (ordered
          (List.filter
             (fun r => (UserFileRecord.id r =? record_id) &&
                       (UserFileRecord.user r =? user))
             (get_queryset w))).

(** *** [FileUploadView.post] *)

(** [request.FILES.get('file')]: the last file sent under the key.  An
    uploaded file is falsy only when its name is empty, and Django's
    multipart parser drops the parts that carry no file name, so
    [not file_obj] is the test for [None]. *)
Definition FILES_get (l : list UploadedFile.t) : option UploadedFile.t := last l.

(** [x or None]. *)
Definition or_None (o : option string) : option string :=
  if Py.truthy o then o else None.

Definition FileUploadView_post_body (request : UploadRequest.t) : M Response :=
  let file_obj := FILES_get (UploadRequest.FILES_file request) in
  let project_name := UploadRequest.project_name request in
  let file_type := UploadRequest.file_type request in
  let custom_name := or_None (UploadRequest.custom_name request) in
  let description := Py.get_default (UploadRequest.description request) "" in
  match file_obj with
  | None => ret (APIResponse.error "缺少文件参数" 400 400)
  | Some file_obj =>
      if (1 <? length (UploadRequest.FILES_file request))%nat then
        ret (APIResponse.error
                "单文件上传接口只能上传一个文件，请使用批量上传接口 /upload/batch/"
                400 400)
      else if negb (Py.truthy project_name) then
        ret (APIResponse.error "缺少项目名称" 400 400)
      else if negb (Py.truthy file_type) then
        ret (APIResponse.error "缺少文件类型" 400 400)
      else
        let project_name := Py.get_default project_name "" in
        let file_type := Py.get_default file_type "" in
        let '(is_valid, error_msg) := validate_file config file_obj in
        if negb is_valid then
          ret (APIResponse.error (Py.or_else error_msg "文件验证失败") 400 400)
        else
          upload_result ← upload_file file_obj project_name file_type custom_name;
          record ← objects_create (UploadRequest.user request)
                     (UploadResult.original_name upload_result)
                     (UploadResult.file_path upload_result)
                     (UploadResult.url upload_result)
                     (UploadResult.file_size upload_result)
                     (UploadResult.content_type upload_result)
                     project_name file_type description;
          let result := {| upload_result := upload_result;
                           record_id := UserFileRecord.id record |} in
          ret (APIResponse.success (Some (UploadData result)) "上传成功")
  end.

Definition FileUploadView_post (request : UploadRequest.t) (w : World)
    : World * Response :=
  run_view (FileUploadView_post_body request)
    (fun e => APIResponse.error ("上传失败: " +:+ str e) 500 500) w.

(** *** [FileBatchUploadView.post] *)

(** One turn of the [for file_obj in files] loop, on the two result
    lists. *)
Definition batch_file (user : Z) (project_name file_type description : string)
    (lists : list Uploaded * list Failed) (file_obj : UploadedFile.t)
    : M (list Uploaded * list Failed) :=
  let '(success_list, failed_list) := lists in
  try_except
    (let '(is_valid, error_msg) := validate_file config file_obj in
     if negb is_valid then
       ret (success_list,
             (failed_list ++ [{| failed_name := UploadedFile.name file_obj;
                                 error := error_msg |}])%list)
     else
       upload_result ← upload_file file_obj project_name file_type None;
       record ← objects_create user
                  (UploadResult.original_name upload_result)
                  (UploadResult.file_path upload_result)
                  (UploadResult.url upload_result)
                  (UploadResult.file_size upload_result)
                  (UploadResult.content_type upload_result)
                  project_name file_type description;
       ret ((success_list ++ [{| upload_result := upload_result;
                                  record_id := UserFileRecord.id record |}])%list,
            failed_list))
    (fun e =>
       ret (success_list,
             (failed_list ++ [{| failed_name := UploadedFile.name file_obj;
                                 error := Some (str e) |}])%list)).

Fixpoint batch_loop (user : Z) (project_name file_type description : string)
    (files : list UploadedFile.t) (lists : list Uploaded * list Failed)
    : M (list Uploaded * list Failed) :=
  match files with
  | [] => ret lists
  | file_obj :: files' =>
      lists' ← batch_file user project_name file_type description lists file_obj;
      batch_loop user project_name file_type description files' lists'
  end.

Definition FileBatchUploadView_post_body (request : BatchRequest.t) : M Response :=
  let files := BatchRequest.FILES_files request in
  let project_name := BatchRequest.project_name request in
  let file_type := BatchRequest.file_type request in
  let description := Py.get_default (BatchRequest.description request) "" in
  match files with
  | [] => ret (APIResponse.error "缺少文件参数，请确保字段名为 files（复数）" 400 400)
  | _ :: _ =>
      if negb (Py.truthy project_name) then
        ret (APIResponse.error "缺少项目名称" 400 400)
      else if negb (Py.truthy file_type) then
        ret (APIResponse.error "缺少文件类型" 400 400)
      else if MAX_BATCH_COUNT config <? Z.of_nat (length files) then
        ret (APIResponse.error
                ("批量上传文件数量超过限制，最多允许 " +:+
                 pretty (MAX_BATCH_COUNT config) +:+ " 个文件，当前 " +:+
                 pretty (length files) +:+ " 个")
                400 400)
      else
        let project_name := Py.get_default project_name "" in
        let file_type := Py.get_default file_type "" in
        '(success_list, failed_list) ←
          batch_loop (BatchRequest.user request) project_name file_type
            description files ([], []);
        let result := {| total := length files;
                         success_count := length success_list;
                         failed_count := length failed_list;
                         success_files := success_list;
                         failed_files := failed_list |} in
        let message :=
          match failed_list with
          | _ :: _ => "部分上传成功：" +:+ pretty (length success_list) +:+ "/" +:+
                      pretty (length files)
          | [] => "全部上传成功：" +:+ pretty (length success_list) +:+ " 个文件"
          end in
        ret (APIResponse.success (Some (BatchData result)) message)
  end.

Definition FileBatchUploadView_post (request : BatchRequest.t) (w : World)
    : World * Response :=
  run_view (FileBatchUploadView_post_body request)
    (fun e => APIResponse.error ("批量上传失败: " +:+ str e) 500 500) w.

(** *** [FileDeleteView.delete] *)

(** The truth of an id: the number [0] and the empty text are falsy, every
    other number and every other text (the text ["0"] too) is truthy. *)
Definition truth (v : DeleteRequest.id_value) : bool :=
  match v with
  | DeleteRequest.Number z => negb (z =? 0)
  | DeleteRequest.Text s => negb (String.eqb s "")
  | DeleteRequest.Other t _ => t
  end.

(** [not record_id]: a missing id and a falsy one. *)
Definition falsy_id (record_id : option DeleteRequest.id_value) : bool :=
  match record_id with
  | None => true
  | Some v => negb (truth v)
  end.

(** The key that [filter(id=record_id, ...)] compares with: a number as it
    is, a text through [int()]; the lookup raises when there is none. *)
Definition lookup_key (v : DeleteRequest.id_value) : string + Z :=
  match v with
  | DeleteRequest.Number z => inr z
  | DeleteRequest.Text s => int_of_text E s
  | DeleteRequest.Other _ k => k
  end.

Definition FileDeleteView_delete_body (request : DeleteRequest.t) : M Response :=
  let record_id := DeleteRequest.id request in
  if falsy_id record_id then
    ret (APIResponse.error "缺少文件记录ID" 400 400)
  else
    match lookup_key <$> record_id with
    | Some (inl text) => raise (OtherError text)
    | Some (inr key) =>
        fun w =>
          match filter_id_user_first key (DeleteRequest.user request) w with
          | None => (w, Returned (APIResponse.error "文件不存在或无权限删除" 404 404))
          | Some record =>
              (delete_file (UserFileRecord.file_path record);;
               SoftDeleteModel_delete record;;
               ret (APIResponse.success None "删除成功")) w
          end
    | None => ret (APIResponse.error "文件不存在或无权限删除" 404 404)
    end.

Definition FileDeleteView_delete (request : DeleteRequest.t) (w : World)
    : World * Response :=
  run_view (FileDeleteView_delete_body request)
    (fun e => APIResponse.error ("删除失败: " +:+ str e) 500 500) w.

(** *** [UserFileListView.get] *)

(** The [is_expired] property; the clock is read only when an expiry is
    set. *)
Definition is_expired (record : UserFileRecord.t) : M bool :=
  match UserFileRecord.expires_at record with
  | None => ret false
  | Some expires_at => t ← datetime_now; ret (expires_at <? t)
  end.

(** The [file_size_mb] property, in hundredths. *)
Definition file_size_mb (record : UserFileRecord.t) : Z :=
  Float.hundredths (Float.div_MiB (UserFileRecord.file_size record)).

Definition serialize (record : UserFileRecord.t) : M FileItem.t :=
  expired ← is_expired record;
  ret {| FileItem.id := UserFileRecord.id record;
         FileItem.file_name := UserFileRecord.file_name record;
         FileItem.file_path := UserFileRecord.file_path record;
         FileItem.file_url := UserFileRecord.file_url record;
         FileItem.file_size := UserFileRecord.file_size record;
         FileItem.file_size_mb := file_size_mb record;
         FileItem.content_type := UserFileRecord.content_type record;
         FileItem.project_name := UserFileRecord.project_name record;
         FileItem.file_type := UserFileRecord.file_type record;
         FileItem.description := UserFileRecord.description record;
         FileItem.uploaded_at := isoformat E (UserFileRecord.uploaded_at record);
         FileItem.is_expired := expired |}.

Fixpoint serialize_all (page_obj : list UserFileRecord.t) : M (list FileItem.t) :=
  match page_obj with
  | [] => ret []
  | record :: rest =>
      item ← serialize record;
      items ← serialize_all rest;
      ret (item :: items)
  end.

(** [ceil(a / b)] for [0 < b]; Python goes through the float quotient,
    which is exact for every count that a table can reach. *)
Definition ceil_div (a b : Z) : Z := - ((- a) / b).

(** [Paginator.num_pages] with the default [orphans = 0] and
    [allow_empty_first_page = True]. *)
Definition num_pages (count per_page : Z) : Z := ceil_div (Z.max 1 count) per_page.

(** [Paginator(object_list, per_page).get_page(number)]: a page number
    out of range selects the last page; a page size below one ends in an
    exception. *)
Definition get_page (object_list : list UserFileRecord.t) (per_page number : Z)
    : M (list UserFileRecord.t) :=
  if per_page <? 1 then raise (OtherError (bad_page_size E per_page))
  else
    let count := Z.of_nat (length object_list) in
    let number :=
      if (number <? 1) || (num_pages count per_page <? number)
      then num_pages count per_page else number in
    let bottom := (number - 1) * per_page in
    let top := bottom + per_page in
    let top := if count <=? top then count else top in
    ret (take (Z.to_nat (top - bottom)) (drop (Z.to_nat bottom) object_list)).

(** [UserFileRecord.objects.filter(user=user)], narrowed by the optional
    filters. *)
Definition list_queryset (request : ListRequest.t) (w : World)
    : list UserFileRecord.t :=
  let queryset :=
    List.filter (fun r => UserFileRecord.user r =? ListRequest.user request)
      (get_queryset w) in
  let queryset :=
    if Py.truthy (ListRequest.project_name request) then
      List.filter
        (fun r => String.eqb (UserFileRecord.project_name r)
                    (Py.get_default (ListRequest.project_name request) ""))
        queryset
    else queryset in
  if Py.truthy (ListRequest.file_type request) then
    List.filter
      (fun r => String.eqb (UserFileRecord.file_type r)
                  (Py.get_default (ListRequest.file_type request) ""))
      queryset
  else queryset.

Definition UserFileListView_get_body (request : ListRequest.t) : M Response :=
  let page := default 1 (ListRequest.page request) in
  let page_size := default 20 (ListRequest.page_size request) in
  fun w =>
    let queryset := ordered (list_queryset request w) in
    (page_obj ← get_page queryset page_size page;
     files ← serialize_all page_obj;
     ret (APIResponse.success
            (Some (ListData files
                     {| page := page;
                        page_size := page_size;
                        pg_total := Z.of_nat (length queryset);
                        total_pages :=
                          num_pages (Z.of_nat (length queryset)) page_size |}))
            "获取成功")) w.

Definition UserFileListView_get (request : ListRequest.t) (w : World)
    : World * Response :=
  run_view (UserFileListView_get_body request)
    (fun e => APIResponse.error ("获取失败: " +:+ str e) 500 500) w.

End Program.

(** * Vocabulary of the statements *)

Definition with_extensions (exts : list (string * list string))
    (c : FILE_UPLOAD_CONFIG) : FILE_UPLOAD_CONFIG :=
  {| MAX_FILE_SIZE := MAX_FILE_SIZE c;
     ALLOWED_TYPES := ALLOWED_TYPES c;
     ALLOWED_EXTENSIONS := exts;
     MAX_BATCH_COUNT := MAX_BATCH_COUNT c |}.

(** What the store client re-raises: a [ClientError] becomes a plain
    [Exception] with a prefixed text, anything else passes through. *)
Definition wrap_ClientError (prefix : string) (e : Exc) : Exc :=
  match e with
  | ClientError msg => Exception (prefix +:+ msg)
  | _ => e
  end.

(** The object key that [upload_file] builds in world [w]. *)
Definition object_key (E : Env) (project_name file_type : string)
    (custom_name : option string) (file_obj : UploadedFile.t) (w : World) : string :=
  project_name +:+ "/" +:+ file_type +:+ "/" +:+
  (strftime E (now E (clock_reads w)) +:+ "_" +:+
   substring 0 8 (uuid4 E (uuid_draws w)) +:+ "_" +:+
   Py.or_else custom_name (UploadedFile.name file_obj)).

(** The pre-checks of the batch endpoint. *)
Definition batch_prechecks (config : FILE_UPLOAD_CONFIG) (request : BatchRequest.t) : Prop :=
  BatchRequest.FILES_files request <> [] /\
  Py.truthy (BatchRequest.project_name request) = true /\
  Py.truthy (BatchRequest.file_type request) = true /\
  Z.of_nat (length (BatchRequest.FILES_files request)) <= MAX_BATCH_COUNT config.

(** A single upload that fails validation: the file or a required field
    is missing, or [validate_file] rejects the file. *)
Definition upload_invalid (config : FILE_UPLOAD_CONFIG) (request : UploadRequest.t) : Prop :=
  FILES_get (UploadRequest.FILES_file request) = None \/
  Py.truthy (UploadRequest.project_name request) = false \/
  Py.truthy (UploadRequest.file_type request) = false \/
  exists file_obj,
    FILES_get (UploadRequest.FILES_file request) = Some file_obj /\
    fst (validate_file config file_obj) = false.

(** A batch that is turned down as a whole. *)
Definition batch_rejected (config : FILE_UPLOAD_CONFIG) (request : BatchRequest.t) : Prop :=
  BatchRequest.FILES_files request = [] \/
  Py.truthy (BatchRequest.project_name request) = false \/
  Py.truthy (BatchRequest.file_type request) = false \/
  MAX_BATCH_COUNT config < Z.of_nat (length (BatchRequest.FILES_files request)).

(** The events a view added to the trace. *)
Definition new_events (w w' : World) : list Event :=
  drop (length (trace w)) (trace w').

(** Paths and primary keys are unique; the keys are positive, as an
    auto-incremented column assigns them, and below the next key. *)
Definition ledger_ok (w : World) : Prop :=
  NoDup (map UserFileRecord.file_path (rows w)) /\
  NoDup (map UserFileRecord.id (rows w)) /\
  Forall (fun r => 0 < UserFileRecord.id r < next_pk w) (rows w) /\
  0 < next_pk w.

(** From [w] to [w'] the table only gained rows, and stays in order. *)
Definition ledger_grows (w w' : World) : Prop :=
  (ledger_ok w -> ledger_ok w') /\
  exists new, rows w' = (rows w ++ new)%list.

(** The row that a soft delete of [r] writes in world [w]: the two
    readings of the clock are those of [delete] and of [save]. *)
Definition soft_deleted (E : Env) (r : UserFileRecord.t) (w : World) : UserFileRecord.t :=
  UserFileRecord.touch
    (UserFileRecord.mark_deleted r (now E (clock_reads w)))
    (now E (S (clock_reads w))).

(** The worlds that the four endpoints can produce from an empty ledger. *)
Inductive reachable (config : FILE_UPLOAD_CONFIG) (E : Env) : World -> Prop :=
| reach_empty w :
    rows w = [] -> 0 < next_pk w -> reachable config E w
| reach_upload request w :
    reachable config E w ->
    reachable config E (fst (FileUploadView_post config E request w))
| reach_batch request w :
    reachable config E w ->
    reachable config E (fst (FileBatchUploadView_post config E request w))
| reach_delete request w :
    reachable config E w ->
    reachable config E (fst (FileDeleteView_delete E request w))
| reach_list request w :
    reachable config E w ->
    reachable config E (fst (UserFileListView_get E request w)).

(** An item of the listing shows the row [r]. *)
Definition shows (r : UserFileRecord.t) (item : FileItem.t) : Prop :=
  FileItem.id item = UserFileRecord.id r /\
  FileItem.file_path item = UserFileRecord.file_path r.

(** Only the clock moved between [w] and [w']. *)
Definition same_data (w w' : World) : Prop :=
  rows w' = rows w /\ next_pk w' = next_pk w /\
  bucket w' = bucket w /\ trace w' = trace w.

(** The key of a single upload request for [file_obj] in world [w]. *)
Definition request_key (E : Env) (request : UploadRequest.t)
    (file_obj : UploadedFile.t) (w : World) : string :=
  object_key E
    (Py.get_default (UploadRequest.project_name request) "")
    (Py.get_default (UploadRequest.file_type request) "")
    (or_None (UploadRequest.custom_name request)) file_obj w.

(** A single upload of [file_obj] that passes every check, whose store
    write succeeds, and whose generated key is the path of a row: the
    insert meets no other database failure than the uniqueness violation
    of [file_path]. *)
Definition upload_collides (config : FILE_UPLOAD_CONFIG) (E : Env)
    (request : UploadRequest.t) (file_obj : UploadedFile.t) (w : World) : Prop :=
  UploadRequest.FILES_file request = [file_obj] /\
  Py.truthy (UploadRequest.project_name request) = true /\
  Py.truthy (UploadRequest.file_type request) = true /\
  fst (validate_file config file_obj) = true /\
  s3_fault E (length (trace w)) = None /\
  db_fault E (S (length (trace w))) = None /\
  path_taken (request_key E request file_obj w) w = true.

(** Between [w] and [w'] the store was written under a key other than
    [key]: the upload was tried again with a fresh key. *)
Definition retried_with_fresh_key (key : string) (w w' : World) : Prop :=
  exists key', key' <> key /\ S3Put key' ∈ new_events w w'.

(** The rejection of [file_obj] cites its size and the limit, both as
    megabytes with two decimals. *)
Definition cites_both_rounded (config : FILE_UPLOAD_CONFIG)
    (file_obj : UploadedFile.t) : Prop :=
  exists msg,
    validate_file config file_obj = (false, Some msg) /\
    Py.contains
      (Float.format_2f (Float.div_MiB (UploadedFile.size file_obj)) +:+ "MB") msg = true /\
    Py.contains
      (Float.format_2f (Float.div_MiB (MAX_FILE_SIZE config)) +:+ "MB") msg = true.

(** The request names [record_id]: its id is the number, or a value that
    the lookup reads as the number. *)
Definition names (E : Env) (request : DeleteRequest.t) (record_id : Z) : Prop :=
  exists v, DeleteRequest.id request = Some v /\ lookup_key E v = inr record_id.

(** The id that a request brings to the lookup: its id is truthy and the
    lookup reads this number from it. *)
Definition named_id (E : Env) (request : DeleteRequest.t) : option Z :=
  match DeleteRequest.id request with
  | Some v =>
      if truth v then
        match lookup_key E v with
        | inr record_id => Some record_id
        | inl _ => None
        end
      else None
  | None => None
  end.

(** The request names [record_id], no live row of the requester has that
    id, and the answer is 404. *)
Definition absent_is_not_found (E : Env) (request : DeleteRequest.t) (w : World)
    (record_id : Z) : Prop :=
  names E request record_id ->
  (forall r, r ∈ rows w -> UserFileRecord.id r = record_id ->
             UserFileRecord.is_deleted r = true \/
             UserFileRecord.user r <> DeleteRequest.user request) ->
  status (snd (FileDeleteView_delete E request w)) = 404.

(** The files of a list response. *)
Definition listed (r : Response) : list FileItem.t :=
  match data r with
  | Some (ListData files _) => files
  | _ => []
  end.

(** What a failure entry of a batch says about the file [f], which is the
    message of [validate_file] when it rejects the file, and otherwise the
    text of the exception that the store client raised (after its
    re-raising) or that the insert raised. *)
Definition error_of (config : FILE_UPLOAD_CONFIG) (E : Env) (f : UploadedFile.t)
    (text : string) : Prop :=
  validate_file config f = (false, Some text) \/
  (fst (validate_file config f) = true /\
   ((exists k e, s3_fault E k = Some e /\
                 text = str (wrap_ClientError "文件上传失败: " e)) \/
    (exists k e, db_fault E k = Some e /\ text = str e) \/
    (exists column, text = unique_violation E column))).

(** A failure entry names one of the files and carries its error. *)
Definition reports_error (config : FILE_UPLOAD_CONFIG) (E : Env)
    (files : list UploadedFile.t) (entry : Failed) : Prop :=
  exists f text,
    f ∈ files /\
    failed_name entry = UploadedFile.name f /\
    error entry = Some text /\
    error_of config E f text.

(** The message of the envelope of a batch: counts, no error text. *)
Definition batch_message (b : BatchResult) : string :=
  match failed_files b with
  | _ :: _ => "部分上传成功：" +:+ pretty (success_count b) +:+ "/" +:+ pretty (total b)
  | [] => "全部上传成功：" +:+ pretty (success_count b) +:+ " 个文件"
  end.

(** ** Sample data *)

Module Demo.

Definition config : FILE_UPLOAD_CONFIG :=
  {| MAX_FILE_SIZE := 5 * 1024 * 1024;
     ALLOWED_TYPES := [("images", ["image/jpeg"; "image/png"]);
                       ("documents", ["application/pdf"])];
     ALLOWED_EXTENSIONS := [("images", [".jpg"; ".jpeg"; ".png"]);
                            ("documents", [".pdf"])];
     MAX_BATCH_COUNT := 3 |}.

(** A sample [int()]: decimal digits after an optional sign; any other
    text is refused in the words of the lookup. *)
Fixpoint digits (s : string) (acc : Z) : option Z :=
  match s with
  | EmptyString => Some acc
  | String c rest =>
      let n := Z.of_N (N_of_ascii c) in
      if (48 <=? n) && (n <=? 57) then digits rest (10 * acc + (n - 48)) else None
  end.

Definition unsigned (s : string) : option Z :=
  match s with
  | EmptyString => None
  | _ => digits s 0
  end.

Definition decimal (s : string) : string + Z :=
  let read :=
    match s with
    | String "-" rest => Z.opp <$> unsigned rest
    | String "+" rest => unsigned rest
    | _ => unsigned s
    end in
  match read with
  | Some z => inr z
  | None => inl ("Field 'id' expected a number but got '" +:+ s +:+ "'.")
  end.

(** No fault; the clock stands within one second and every UUID starts
    with the same eight characters. *)
Definition env : Env :=
  {| PUBLIC_URL := "https://cdn.example.com";
     now := fun k => 1700000000;
     strftime := fun _ => "20231114_221320";
     isoformat := fun t => pretty t;
     uuid4 := fun k => "deadbeef-0000-4000-8000-" +:+ pretty k;
     s3_fault := fun _ => None;
     db_fault := fun _ => None;
     unique_violation := fun column => "UNIQUE constraint failed: user_file_record." +:+ column;
     bad_page_size := fun _ => "invalid page size";
     int_of_text := decimal |}.

(** The same, with an object store that refuses every call. *)
Definition env_store_down : Env :=
  {| PUBLIC_URL := PUBLIC_URL env;
     now := now env;
     strftime := strftime env;
     isoformat := isoformat env;
     uuid4 := uuid4 env;
     s3_fault := fun _ => Some (ClientError "An error occurred (503)");
     db_fault := db_fault env;
     unique_violation := unique_violation env;
     bad_page_size := bad_page_size env;
     int_of_text := decimal |}.

Definition empty : World :=
  {| bucket := ∅; rows := []; next_pk := 1;
     clock_reads := 0; uuid_draws := 0; trace := [] |}.

Definition cat : UploadedFile.t :=
  {| UploadedFile.name := "cat.jpg"; UploadedFile.size := 2 * 1024 * 1024;
     UploadedFile.content_type := "image/jpeg"; UploadedFile.body := "JFIF" |}.

Definition notes : UploadedFile.t :=
  {| UploadedFile.name := "README"; UploadedFile.size := 120;
     UploadedFile.content_type := "application/pdf"; UploadedFile.body := "%PDF" |}.

Definition big : UploadedFile.t :=
  {| UploadedFile.name := "big.bin"; UploadedFile.size := 10 * 1024 * 1024;
     UploadedFile.content_type := "application/octet-stream";
     UploadedFile.body := "" |}.

Definition upload (files : list UploadedFile.t) : UploadRequest.t :=
  {| UploadRequest.user := 7;
     UploadRequest.FILES_file := files;
     UploadRequest.project_name := Some "user_avatar";
     UploadRequest.file_type := Some "images";
     UploadRequest.custom_name := None;
     UploadRequest.description := None |}.

Definition batch (files : list UploadedFile.t) : BatchRequest.t :=
  {| BatchRequest.user := 7;
     BatchRequest.FILES_files := files;
     BatchRequest.project_name := Some "user_avatar";
     BatchRequest.file_type := Some "images";
     BatchRequest.description := None |}.

Definition delete_by (user record_id : Z) : DeleteRequest.t :=
  {| DeleteRequest.user := user;
     DeleteRequest.id := Some (DeleteRequest.Number record_id) |}.

(** The same request in a form body: the id arrives as text. *)
Definition delete_by_text (user : Z) (record_id : string) : DeleteRequest.t :=
  {| DeleteRequest.user := user;
     DeleteRequest.id := Some (DeleteRequest.Text record_id) |}.

Definition list_all (user : Z) : ListRequest.t :=
  {| ListRequest.user := user;
     ListRequest.project_name := None;
     ListRequest.file_type := None;
     ListRequest.page := None;
     ListRequest.page_size := None |}.

(** The row of [cat.jpg]. *)
Definition cat_row : UserFileRecord.t :=
  {| UserFileRecord.id := 1;
     UserFileRecord.uuid := "deadbeef-0000-4000-8000-1";
     UserFileRecord.user := 7;
     UserFileRecord.file_name := "cat.jpg";
     UserFileRecord.file_path := "user_avatar/images/20231114_221320_deadbeef_cat.jpg";
     UserFileRecord.file_url :=
       "https://cdn.example.com/user_avatar/images/20231114_221320_deadbeef_cat.jpg";
     UserFileRecord.file_size := 2097152;
     UserFileRecord.content_type := "image/jpeg";
     UserFileRecord.project_name := "user_avatar";
     UserFileRecord.file_type := "images";
     UserFileRecord.description := "";
     UserFileRecord.metadata := [];
     UserFileRecord.is_public := true;
     UserFileRecord.expires_at := None;
     UserFileRecord.is_deleted := false;
     UserFileRecord.deleted_at := None;
     UserFileRecord.created_at := 1700000000;
     UserFileRecord.uploaded_at := 1700000000;
     UserFileRecord.updated_at := 1700000000 |}.

(** The same row once it is deleted. *)
Definition cat_row_deleted : UserFileRecord.t :=
  UserFileRecord.touch (UserFileRecord.mark_deleted cat_row 1700000000) 1700000000.

(** The world after user 7 uploaded [cat.jpg] once. *)
Definition one_file : World := fst (FileUploadView_post config env (upload [cat]) empty).

(** ... and then deleted it. *)
Definition one_deleted : World := fst (FileDeleteView_delete env (delete_by 7 1) one_file).

End Demo.

(** * The rest of the files

    The functions of the cited files that the endpoints do not call, and
    the vocabulary of their statements.  Two further clients follow, each
    in a module of its own: the host of [animeapi/services/redis_client.py]
    and [QwenClient] of [animeapi/services/qwen_client.py]. *)

(** ** [CloudflareR2Service.get_file_url] *)

Definition get_file_url (E : Env) (file_path : string) : string :=
  PUBLIC_URL E +:+ "/" +:+ file_path.

(** ** [SoftDeleteModel.restore] and [SoftDeleteModel.hard_delete] *)

(** The assignments of [restore]. *)
Definition unmark_deleted (r : UserFileRecord.t) : UserFileRecord.t :=
  {| UserFileRecord.id := UserFileRecord.id r;
     UserFileRecord.uuid := UserFileRecord.uuid r;
     UserFileRecord.user := UserFileRecord.user r;
     UserFileRecord.file_name := UserFileRecord.file_name r;
     UserFileRecord.file_path := UserFileRecord.file_path r;
     UserFileRecord.file_url := UserFileRecord.file_url r;
     UserFileRecord.file_size := UserFileRecord.file_size r;
     UserFileRecord.content_type := UserFileRecord.content_type r;
     UserFileRecord.project_name := UserFileRecord.project_name r;
     UserFileRecord.file_type := UserFileRecord.file_type r;
     UserFileRecord.description := UserFileRecord.description r;
     UserFileRecord.metadata := UserFileRecord.metadata r;
     UserFileRecord.is_public := UserFileRecord.is_public r;
     UserFileRecord.expires_at := UserFileRecord.expires_at r;
     UserFileRecord.is_deleted := false;
     UserFileRecord.deleted_at := None;
     UserFileRecord.created_at := UserFileRecord.created_at r;
     UserFileRecord.uploaded_at := UserFileRecord.uploaded_at r;
     UserFileRecord.updated_at := UserFileRecord.updated_at r |}.

Definition SoftDeleteModel_restore (E : Env) (self : UserFileRecord.t) : M unit :=
  save E (unmark_deleted self).

(** [super().delete()]: a DELETE of the row with the instance's primary
    key.  No endpoint calls it; the trace, which lists the calls of the
    endpoints, has no event for it. *)
Definition SoftDeleteModel_hard_delete (E : Env) (self : UserFileRecord.t) : M unit :=
  fun w =>
    match db_fault E (length (trace w)) with
    | Some e => (w, Raised e)
    | None =>
        (set_rows
           (List.filter
              (fun r => negb (UserFileRecord.id r =? UserFileRecord.id self))
              (rows w)) w,
         Returned tt)
    end.

(** ** Vocabulary *)

(** Some category of the allow-list [d] lists [x]. *)
Definition some_category_lists (d : list (string * list string)) (x : string) : Prop :=
  exists category l, (category, l) ∈ d /\ x ∈ l.

(** A byte, with the letters [A] to [Z] in lower case. *)
Definition lower_AZ_byte (c : ascii) : ascii :=
  let n := N_of_ascii c in
  if ((65 <=? n) && (n <=? 90))%N then ascii_of_N (n + 32) else c.

(** A text, with the letters [A] to [Z] in lower case. *)
Fixpoint lower_AZ (s : string) : string :=
  match s with
  | EmptyString => EmptyString
  | String c s' => String (lower_AZ_byte c) (lower_AZ s')
  end.

(** What [decode] yields: code points of Unicode, and stray bytes that are
    not ASCII. *)
Definition item_ok (x : Py.item) : Prop :=
  match x with
  | Py.CodePoint cp => 0 <= cp < 1114112
  | Py.Stray b => 128 <= Py.byte b
  end.

(** A run of [lower_runs] whose lower-case forms are code points of Unicode,
    none of them a letter from [A] to [Z]. *)
Definition run_ok (run : Z * Z * Z * Z) : bool :=
  let '(first, last, step, delta) := run in
  ((last + delta <? 65) || (90 <? first + delta))
  && (0 <=? first + delta) && (last + delta <? 1114112).

(** What [lower] writes: code points other than the letters [A] to [Z], and
    the stray bytes it read. *)
Definition written_ok (x : Py.item) : Prop :=
  match x with
  | Py.CodePoint cp => (cp < 65 \/ 90 < cp) /\ 0 <= cp < 1114112
  | Py.Stray b => 128 <= Py.byte b
  end.

(** An allow-list entry that an extension can be equal to: it starts with
    a dot and has none of the upper-case letters [A] to [Z]. *)
Definition matchable (e : string) : bool :=
  String.prefix "." e && String.eqb (lower_AZ e) e.

(** The allow-list without the entries that no extension can match. *)
Definition prune (d : list (string * list string)) : list (string * list string) :=
  map (fun entry => (fst entry, List.filter matchable (snd entry))) d.

(** The row that [objects.create] inserts in world [w]. *)
Definition new_record (E : Env) (user : Z) (file_name file_path file_url : string)
    (file_size : N) (content_type project_name file_type description : string)
    (w : World) : UserFileRecord.t :=
  {| UserFileRecord.id := next_pk w;
     UserFileRecord.uuid := uuid4 E (uuid_draws w);
     UserFileRecord.user := user;
     UserFileRecord.file_name := file_name;
     UserFileRecord.file_path := file_path;
     UserFileRecord.file_url := file_url;
     UserFileRecord.file_size := file_size;
     UserFileRecord.content_type := content_type;
     UserFileRecord.project_name := project_name;
     UserFileRecord.file_type := file_type;
     UserFileRecord.description := description;
     UserFileRecord.metadata := [];
     UserFileRecord.is_public := true;
     UserFileRecord.expires_at := None;
     UserFileRecord.is_deleted := false;
     UserFileRecord.deleted_at := None;
     UserFileRecord.created_at := now E (clock_reads w);
     UserFileRecord.uploaded_at := now E (S (clock_reads w));
     UserFileRecord.updated_at := now E (S (S (clock_reads w))) |}.

(** The object that [upload_file] stores for [file_obj]. *)
Definition stored_object (E : Env) (project_name file_type : string)
    (file_obj : UploadedFile.t) (w : World) : S3Object :=
  {| Body := UploadedFile.body file_obj;
     ContentType := UploadedFile.content_type file_obj;
     Metadata := [("project", project_name); ("type", file_type);
                  ("upload_time", strftime E (now E (clock_reads w)))] |}.

(** A single upload that passes every guard of the view, for the file
    [file_obj]. *)
Definition upload_admitted (config : FILE_UPLOAD_CONFIG) (request : UploadRequest.t)
    (file_obj : UploadedFile.t) : Prop :=
  UploadRequest.FILES_file request = [file_obj] /\
  Py.truthy (UploadRequest.project_name request) = true /\
  Py.truthy (UploadRequest.file_type request) = true /\
  fst (validate_file config file_obj) = true.

(** The entry of a listing for [record], given the outcome of
    [is_expired]. *)
Definition item_of (E : Env) (record : UserFileRecord.t) (expired : bool) : FileItem.t :=
  {| FileItem.id := UserFileRecord.id record;
     FileItem.file_name := UserFileRecord.file_name record;
     FileItem.file_path := UserFileRecord.file_path record;
     FileItem.file_url := UserFileRecord.file_url record;
     FileItem.file_size := UserFileRecord.file_size record;
     FileItem.file_size_mb := file_size_mb record;
     FileItem.content_type := UserFileRecord.content_type record;
     FileItem.project_name := UserFileRecord.project_name record;
     FileItem.file_type := UserFileRecord.file_type record;
     FileItem.description := UserFileRecord.description record;
     FileItem.uploaded_at := isoformat E (UserFileRecord.uploaded_at record);
     FileItem.is_expired := expired |}.

Definition renders (E : Env) (record : UserFileRecord.t) (item : FileItem.t) : Prop :=
  exists expired, item = item_of E record expired.

(** The rows that a list request ranges over, newest first. *)
Definition matching_rows (request : ListRequest.t) (w : World) : list UserFileRecord.t :=
  ordered (list_queryset request w).

(** The page number that [get_page] serves for the number asked. *)
Definition served_page (count per_page number : Z) : Z :=
  if (number <? 1) || (num_pages count per_page <? number)
  then num_pages count per_page else number.

(** The rows of the page that [get_page] serves. *)
Definition page_slice (object_list : list UserFileRecord.t) (per_page number : Z)
    : list UserFileRecord.t :=
  let count := Z.of_nat (length object_list) in
  let bottom := (served_page count per_page number - 1) * per_page in
  let top := bottom + per_page in
  let top := if count <=? top then count else top in
  take (Z.to_nat (top - bottom)) (drop (Z.to_nat bottom) object_list).

(** What a list request asks for, with the defaults of the view. *)
Definition asked_page (request : ListRequest.t) : Z := default 1 (ListRequest.page request).
Definition asked_page_size (request : ListRequest.t) : Z :=
  default 20 (ListRequest.page_size request).

(** The same request for another page. *)
Definition with_page (number : Z) (request : ListRequest.t) : ListRequest.t :=
  {| ListRequest.user := ListRequest.user request;
     ListRequest.project_name := ListRequest.project_name request;
     ListRequest.file_type := ListRequest.file_type request;
     ListRequest.page := Some number;
     ListRequest.page_size := ListRequest.page_size request |}.

(** The envelope of a response is sound: the code is the HTTP status, the
    status is one of the four that the endpoints use, and only a 200 carries
    data. *)
Definition envelope_ok (r : Response) : Prop :=
  code r = status r /\
  (status r = 200 \/ status r = 400 \/ status r = 404 \/ status r = 500) /\
  (status r <> 200 -> data r = None).

(** No row of this API carries an expiry, a private flag or metadata. *)
Definition plain_row (r : UserFileRecord.t) : Prop :=
  UserFileRecord.expires_at r = None /\
  UserFileRecord.is_public r = true /\
  UserFileRecord.metadata r = [].

(** An event of an upload: a store write or an insert. *)
Definition is_upload_event (ev : Event) : Prop :=
  match ev with
  | S3Put _ | DbInsert _ => True
  | S3Delete _ | DbUpdate _ => False
  end.

(** From [w] to [w'] things were only added, for at most [n] files: the
    old table is the beginning of the new one, with at most [n] new rows;
    every key of the bucket is still there; and the new events are at most
    two per file, all store writes or inserts. *)
Definition adds_only (n : nat) (w w' : World) : Prop :=
  (exists new, rows w' = (rows w ++ new)%list /\ (length new <= n)%nat) /\
  (forall key, is_Some (bucket w !! key) -> is_Some (bucket w' !! key)) /\
  (exists events, trace w' = (trace w ++ events)%list /\
                  (length events <= 2 * n)%nat /\
                  Forall is_upload_event events).

(** The names under which a batch result reports the files. *)
Definition reported_names (success_list : list Uploaded) (failed_list : list Failed)
    : list string :=
  (map (fun u => UploadResult.original_name (upload_result u)) success_list ++
   map failed_name failed_list)%list.

(** The ledger has the row that a success entry names. *)
Definition recorded (w : World) (u : Uploaded) : Prop :=
  exists r, r ∈ rows w /\
            UserFileRecord.id r = record_id u /\
            UserFileRecord.file_path r = UploadResult.file_path (upload_result u) /\
            UserFileRecord.is_deleted r = false.

(** The row [r] is one that the list request asks for: a live row of the
    requester that carries the project name and the file type of the
    request, where the request gives one. *)
Definition matches (request : ListRequest.t) (r : UserFileRecord.t) : Prop :=
  UserFileRecord.is_deleted r = false /\
  UserFileRecord.user r = ListRequest.user request /\
  (Py.truthy (ListRequest.project_name request) = true ->
   UserFileRecord.project_name r = Py.get_default (ListRequest.project_name request) "") /\
  (Py.truthy (ListRequest.file_type request) = true ->
   UserFileRecord.file_type r = Py.get_default (ListRequest.file_type request) "").

(** The pages [1 .. n] of a list, one after the other. *)
Definition pages_upto (object_list : list UserFileRecord.t) (per_page : Z) (n : nat)
    : list UserFileRecord.t :=
  concat (map (fun i => page_slice object_list per_page (Z.of_nat i)) (seq 1 n)).

(** The pagination block of a list response. *)
Definition pagination_of (r : Response) : option Pagination :=
  match data r with
  | Some (ListData _ pagination) => Some pagination
  | _ => None
  end.

(** The files of a batch that pass [validate_file]. *)
Definition valid_files (config : FILE_UPLOAD_CONFIG) (files : list UploadedFile.t)
    : list UploadedFile.t :=
  List.filter (fun f => fst (validate_file config f)) files.

(** The same batch request with other files. *)
Definition with_files (files : list UploadedFile.t) (request : BatchRequest.t)
    : BatchRequest.t :=
  {| BatchRequest.user := BatchRequest.user request;
     BatchRequest.FILES_files := files;
     BatchRequest.project_name := BatchRequest.project_name request;
     BatchRequest.file_type := BatchRequest.file_type request;
     BatchRequest.description := BatchRequest.description request |}.

(** The batch request that submits the files of a single upload request
    under the key [files]. *)
Definition as_batch (request : UploadRequest.t) : BatchRequest.t :=
  {| BatchRequest.user := UploadRequest.user request;
     BatchRequest.FILES_files := UploadRequest.FILES_file request;
     BatchRequest.project_name := UploadRequest.project_name request;
     BatchRequest.file_type := UploadRequest.file_type request;
     BatchRequest.description := UploadRequest.description request |}.

(** The two lists of a batch response. *)
Definition batch_success_files (r : Response) : list Uploaded :=
  match data r with
  | Some (BatchData b) => success_files b
  | _ => []
  end.

Definition batch_failed_files (r : Response) : list Failed :=
  match data r with
  | Some (BatchData b) => failed_files b
  | _ => []
  end.

(** ** More sample data *)

Module Sample.

(** A database that refuses every write. *)
Definition env_db_down : Env :=
  {| PUBLIC_URL := PUBLIC_URL Demo.env;
     now := now Demo.env;
     strftime := strftime Demo.env;
     isoformat := isoformat Demo.env;
     uuid4 := uuid4 Demo.env;
     s3_fault := s3_fault Demo.env;
     db_fault := fun _ => Some (OtherError "connection refused");
     unique_violation := unique_violation Demo.env;
     bad_page_size := bad_page_size Demo.env;
     int_of_text := Demo.decimal |}.

(** A clock that advances by one second at every reading, and UUIDs
    that differ in their first characters. *)
Definition env_ticking : Env :=
  {| PUBLIC_URL := PUBLIC_URL Demo.env;
     now := fun k => 1700000000 + Z.of_nat k;
     strftime := fun t => pretty t;
     isoformat := isoformat Demo.env;
     uuid4 := fun k => pretty k +:+ "-0000-4000-8000-000000000000";
     s3_fault := s3_fault Demo.env;
     db_fault := db_fault Demo.env;
     unique_violation := unique_violation Demo.env;
     bad_page_size := bad_page_size Demo.env;
     int_of_text := Demo.decimal |}.

Definition dog : UploadedFile.t :=
  {| UploadedFile.name := "dog.PNG"; UploadedFile.size := 3 * 1024 * 1024;
     UploadedFile.content_type := "image/png"; UploadedFile.body := "PNG" |}.

Definition upload_by (user : Z) (files : list UploadedFile.t) : UploadRequest.t :=
  {| UploadRequest.user := user;
     UploadRequest.FILES_file := files;
     UploadRequest.project_name := Some "user_avatar";
     UploadRequest.file_type := Some "images";
     UploadRequest.custom_name := None;
     UploadRequest.description := Some "a pet" |}.

(** User 7 uploaded [cat.jpg], then user 8 uploaded [dog.PNG], then user 7
    uploaded [dog.PNG]. *)
Definition three_files : World :=
  fst (FileUploadView_post Demo.config env_ticking (upload_by 7 [dog])
         (fst (FileUploadView_post Demo.config env_ticking (upload_by 8 [dog])
                 (fst (FileUploadView_post Demo.config env_ticking
                         (upload_by 7 [Demo.cat]) Demo.empty))))).

(** A database that refuses its fourth call only. *)
Definition env_db_hiccup : Env :=
  {| PUBLIC_URL := PUBLIC_URL Demo.env;
     now := now Demo.env;
     strftime := strftime Demo.env;
     isoformat := isoformat Demo.env;
     uuid4 := uuid4 Demo.env;
     s3_fault := s3_fault Demo.env;
     db_fault := fun k => if Nat.eqb k 3 then Some (OtherError "database is locked")
                          else None;
     unique_violation := unique_violation Demo.env;
     bad_page_size := bad_page_size Demo.env;
     int_of_text := Demo.decimal |}.

(** A row for a file of 5000 bytes. *)
Definition small_row : UserFileRecord.t :=
  new_record Demo.env 7 "README" "docs/notes/README"
    "https://cdn.example.com/docs/notes/README" 5000 "application/pdf"
    "docs" "notes" "" Demo.empty.

Definition list_page (user page page_size : Z) : ListRequest.t :=
  {| ListRequest.user := user;
     ListRequest.project_name := None;
     ListRequest.file_type := None;
     ListRequest.page := Some page;
     ListRequest.page_size := Some page_size |}.

End Sample.

(** * The Redis client: the host of the connection *)

Module Redis.

(** [s.replace(old, '')] for a non-empty [old]: the occurrences of [old],
    found from left to right without overlap, are removed.  [skip] counts
    the characters of the current occurrence that are still to be
    dropped. *)
Fixpoint remove_from (old : string) (skip : nat) (s : string) : string :=
  match s with
  | "" => ""
  | String c s' =>
      match skip with
      | S k => remove_from old k s'
      | O =>
          if String.prefix old s then remove_from old (String.length old - 1) s'
          else String c (remove_from old 0 s')
      end
  end.

Definition replace_by_empty (old s : string) : string := remove_from old 0 s.

(** [s.rstrip(c)] for a single character [c]. *)
Fixpoint rstrip (c : ascii) (s : string) : string :=
  match s with
  | "" => ""
  | String a s' =>
      match rstrip c s' with
      | "" => if Ascii.eqb a c then "" else String a ""
      | r => String a r
      end
  end.

(** [host] in [RedisClient.__init__], from the text of [raw_host]. *)
Definition host (raw_host : string) : string :=
  rstrip "/" (replace_by_empty "https://" (replace_by_empty "http://" raw_host)).

(** The character [c] occurs in [s]. *)
Fixpoint has_char (c : ascii) (s : string) : bool :=
  match s with
  | "" => false
  | String a s' => Ascii.eqb a c || has_char c s'
  end.

Fixpoint slashes (n : nat) : string :=
  match n with
  | O => ""
  | S n' => String "/" (slashes n')
  end.

End Redis.

(** * The Qwen client

    [QwenClient] of [services/qwen_client.py].  The library [dashscope] is
    outside the repository: its replies are given by an oracle, and the
    client sees them as Python objects through the attributes it reads. *)

Module Qwen.

(** Python values, as far as the client looks into them.  An object of the
    library is its truth value and its attributes. *)
#[warnings="-register-all"] Inductive Obj :=
| ONone
| OBool (b : bool)
| OInt (z : Z)
| OStr (s : string)
| OList (items : list Obj)
| ODict (entries : list (string * Obj))
| OObject (truth : bool) (attrs : list (string * Obj)).

Definition Dict : Type := list (string * Obj).

(** The exceptions, by class.  [ReadError] stands for whatever the library
    raises when an attribute or an index that the client reads is not
    there; [ApiError] for what a call of the library raises. *)
Inductive Err :=
| ValueError (msg : string)
| TypeError
| AttributeError
| ReadError (name : string)
| ApiError (msg : string).

Definition and_then {A B : Type} (r : Err + A) (k : A -> Err + B) : Err + B :=
  match r with
  | inl e => inl e
  | inr a => k a
  end.

Declare Scope qwen_scope.
Delimit Scope qwen_scope with qwen.

Notation "x ← y ; z" := (and_then y (fun x => z))
  (at level 20, y at level 100, z at level 200, only parsing) : qwen_scope.

Local Open Scope qwen_scope.

Fixpoint assoc (name : string) (entries : list (string * Obj)) : option Obj :=
  match entries with
  | [] => None
  | (key, value) :: rest => if String.eqb key name then Some value else assoc name rest
  end.

(** [bool(o)]. *)
Definition truthy (o : Obj) : bool :=
  match o with
  | ONone => false
  | OBool b => b
  | OInt z => negb (z =? 0)
  | OStr s => negb (String.eqb s "")
  | OList items => match items with [] => false | _ :: _ => true end
  | ODict entries => match entries with [] => false | _ :: _ => true end
  | OObject truth _ => truth
  end.

(** [o.name]. *)
Definition getattr (o : Obj) (name : string) : Err + Obj :=
  match o with
  | OObject _ attrs =>
      match assoc name attrs with
      | Some value => inr value
      | None => inl (ReadError name)
      end
  | _ => inl (ReadError name)
  end.

(** [getattr(o, name, None)]. *)
Definition getattr_or_None (o : Obj) (name : string) : Obj :=
  match getattr o name with
  | inr value => value
  | inl _ => ONone
  end.

(** [hasattr(o, name)]. *)
Definition hasattr (o : Obj) (name : string) : bool :=
  match getattr o name with
  | inr _ => true
  | inl _ => false
  end.

(** [o[0]]. *)
Definition first_item (o : Obj) : Err + Obj :=
  match o with
  | OList (item :: _) => inr item
  | OStr (String c _) => inr (OStr (String c ""))
  | _ => inl (ReadError "[0]")
  end.

(** [o == 200]. *)
Definition is_200 (o : Obj) : bool :=
  match o with
  | OInt z => z =? 200
  | _ => false
  end.

(** [d.get(key, default)]. *)
Definition dict_get (d : Dict) (key : string) (default : Obj) : Obj :=
  match assoc key d with
  | Some value => value
  | None => default
  end.

(** *** [SUPPORTED_MODELS] and [_validate_model] *)

Definition SUPPORTED_MODELS : gset string :=
  {[ "qwen-turbo"; "qwen-plus"; "qwen-max"; "qwen-long";
     "qwen-vl-plus"; "qwen-vl-max" ]}.

Inductive Endpoint := Generation | MultiModalConversation.

(** The keyword arguments of a call of the library. *)
Record Call := {
  endpoint : Endpoint;
  call_api_key : string;
  call_model : string;
  call_messages : Obj;
  call_result_format : option string;
  call_stream : Obj;
  call_kwargs : gmap string Obj
}.

(** What a streaming call returns: an iterator that gives the chunks and
    then ends, or raises. *)
Record Stream := { chunks : list Obj; broken : option Err }.

(** The surroundings of the client: the two places that can hold the key,
    the text of [list(self.SUPPORTED_MODELS)] (a set has no fixed order),
    and the replies of the library to its [n]-th call, without and with
    [stream]. *)
Record Api := {
  settings_DASHSCOPE_API_KEY : option string;
  environ_DASHSCOPE_API_KEY : option string;
  supported_text : string;
  reply : nat -> Call -> Err + Obj;
  reply_stream : nat -> Call -> Err + Stream
}.

(** The module variable [dashscope.base_http_api_url] ([None] while the
    client has not set it) and the calls made so far. *)
Record World := { base_http_api_url : option string; calls : list Call }.

Record QwenClient := { api_key : string }.

Definition _validate_model (A : Api) (model : string) : Err + unit :=
  if bool_decide (model ∈ SUPPORTED_MODELS) then inr tt
  else inl (ValueError ("不支持的模型: " +:+ model +:+ "，支持的模型: " +:+
                        supported_text A)).

(** *** [__init__] *)

(** [a or b] on optional strings. *)
Definition or_ (a b : option string) : option string :=
  if Py.truthy a then a else b.

Definition intl_url : string := "https://dashscope-intl.aliyuncs.com/api/v1".

Definition __init__ (A : Api) (api_key : option string) (region : string) (w : World)
    : World * (Err + QwenClient) :=
  let resolved_api_key :=
    or_ (or_ api_key (settings_DASHSCOPE_API_KEY A)) (environ_DASHSCOPE_API_KEY A) in
  if negb (Py.truthy resolved_api_key) then
    (w, inl (ValueError "API Key 未设置，请通过参数传入或设置环境变量 DASHSCOPE_API_KEY"))
  else
    let self := {| api_key := Py.get_default resolved_api_key "" |} in
    if String.eqb region "intl" then
      ({| base_http_api_url := Some intl_url; calls := calls w |}, inr self)
    else (w, inr self).

(** *** [_handle_response] *)

(** [response.output.choices[0]]. *)
Definition choice0 (response : Obj) : Err + Obj :=
  output ← getattr response "output";
  choices ← getattr output "choices";
  first_item choices.

(** [response.output.choices[0].message.<name>]. *)
Definition message_field (response : Obj) (name : string) : Err + Obj :=
  choice ← choice0 response;
  message ← getattr choice "message";
  getattr message name.

(** [response.output.choices[0].<name>]. *)
Definition choice_field (response : Obj) (name : string) : Err + Obj :=
  choice ← choice0 response;
  getattr choice name.

(** [response.usage.<name>]. *)
Definition usage_field (response : Obj) (name : string) : Err + Obj :=
  usage ← getattr response "usage";
  getattr usage name.

Definition _handle_response (response : Obj) : Err + Dict :=
  status_code ← getattr response "status_code";
  if is_200 status_code then
    content ← message_field response "content";
    role ← message_field response "role";
    finish_reason ← choice_field response "finish_reason";
    usage ←
      (if hasattr response "usage" then
         input_tokens ← usage_field response "input_tokens";
         output_tokens ← usage_field response "output_tokens";
         total_tokens ← usage_field response "total_tokens";
         inr (ODict [("input_tokens", input_tokens);
                     ("output_tokens", output_tokens);
                     ("total_tokens", total_tokens)])
       else inr ONone);
    request_id ← getattr response "request_id";
    inr [("success", OBool true); ("content", content); ("role", role);
         ("finish_reason", finish_reason); ("usage", usage);
         ("request_id", request_id)]
  else
    status_code ← getattr response "status_code";
    code ← getattr response "code";
    message ← getattr response "message";
    inr [("success", OBool false); ("status_code", status_code);
         ("error_code", code); ("error_message", message);
         ("request_id", getattr_or_None response "request_id")].

(** *** [_handle_stream_response] *)

(** What a consumer that iterates to the end sees of a generator: the
    items yielded, then the normal end or an exception; [pulled] counts
    the chunks taken from the stream of the library. *)
Record Generated := { yielded : list Dict; pulled : nat; raised : option Err }.

(** The item for a chunk with status 200. *)
Definition success_item (chunk : Obj) : Err + Dict :=
  content ← message_field chunk "content";
  finish_reason ← choice_field chunk "finish_reason";
  inr [("success", OBool true); ("content", content);
       ("finish_reason", finish_reason)].

(** The item for a chunk with another status. *)
Definition failure_item (chunk : Obj) : Err + Dict :=
  status_code ← getattr chunk "status_code";
  code ← getattr chunk "code";
  message ← getattr chunk "message";
  inr [("success", OBool false); ("status_code", status_code);
       ("error_code", code); ("error_message", message)].

Definition stops (e : option Err) : Generated :=
  {| yielded := []; pulled := 1; raised := e |}.

Fixpoint stream_loop (chunks : list Obj) (broken : option Err) : Generated :=
  match chunks with
  | [] => {| yielded := []; pulled := 0; raised := broken |}
  | chunk :: rest =>
      match getattr chunk "status_code" with
      | inl e => stops (Some e)
      | inr status_code =>
          if is_200 status_code then
            match success_item chunk with
            | inl e => stops (Some e)
            | inr item =>
                let g := stream_loop rest broken in
                {| yielded := item :: yielded g;
                   pulled := S (pulled g);
                   raised := raised g |}
            end
          else
            match failure_item chunk with
            | inl e => stops (Some e)
            | inr item => {| yielded := [item]; pulled := 1; raised := None |}
            end
      end
  end.

Definition _handle_stream_response (response : Stream) : Generated :=
  stream_loop (chunks response) (broken response).

(** *** [chat], [vision_chat] and [simple_chat] *)

(** What [chat] returns: the dict of [_handle_response], or the generator
    of [_handle_stream_response]. *)
Inductive ChatResult :=
| Answer (d : Dict)
| Generator (g : Generated).

(** [f(name=..., **kwargs)] with [name] among the keys of [kwargs] is a
    [TypeError]. *)
Definition collides (names : list string) (kwargs : gmap string Obj) : bool :=
  existsb (fun name => bool_decide (is_Some (kwargs !! name))) names.

Definition record_call (c : Call) (w : World) : World :=
  {| base_http_api_url := base_http_api_url w; calls := (calls w ++ [c])%list |}.

(** The part that [chat] and [vision_chat] share: the call of the library
    and the handling of its reply.  The library is taken to answer a call
    with a true [stream] by an iterator of chunks, and any other call by a
    response object. *)
Definition call_and_handle (A : Api) (c : Call) (w : World)
    : World * (Err + ChatResult) :=
  let w' := record_call c w in
  if truthy (call_stream c) then
    match reply_stream A (length (calls w)) c with
    | inl e => (w', inl e)
    | inr response => (w', inr (Generator (_handle_stream_response response)))
    end
  else
    match reply A (length (calls w)) c with
    | inl e => (w', inl e)
    | inr response =>
        (w', match _handle_response response with
             | inl e => inl e
             | inr d => inr (Answer d)
             end)
    end.

(** [kwargs] holds the keywords that are not parameters of [chat]; the
    model is checked first, then the keywords are bound: one that the call
    of the library also gives by name is a [TypeError], raised before the
    library is entered. *)
Definition chat (A : Api) (self : QwenClient) (messages : Obj) (model : string)
    (stream : Obj) (kwargs : gmap string Obj) (w : World)
    : World * (Err + ChatResult) :=
  match _validate_model A model with
  | inl e => (w, inl e)
  | inr _ =>
      if collides ["api_key"; "model"; "messages"; "result_format"; "stream"] kwargs
      then (w, inl TypeError)
      else
        call_and_handle A
          {| endpoint := Generation;
             call_api_key := api_key self;
             call_model := model;
             call_messages := messages;
             call_result_format := Some "message";
             call_stream := stream;
             call_kwargs := kwargs |} w
  end.

Definition vision_chat (A : Api) (self : QwenClient) (messages : Obj) (model : string)
    (stream : Obj) (kwargs : gmap string Obj) (w : World)
    : World * (Err + ChatResult) :=
  match _validate_model A model with
  | inl e => (w, inl e)
  | inr _ =>
      if collides ["api_key"; "model"; "messages"; "stream"] kwargs
      then (w, inl TypeError)
      else
        call_and_handle A
          {| endpoint := MultiModalConversation;
             call_api_key := api_key self;
             call_model := model;
             call_messages := messages;
             call_result_format := None;
             call_stream := stream;
             call_kwargs := kwargs |} w
  end.

(** The messages that [simple_chat] builds. *)
Definition single_turn (system_message user_message : string) : Obj :=
  OList [ODict [("role", OStr "system"); ("content", OStr system_message)];
         ODict [("role", OStr "user"); ("content", OStr user_message)]].

(** [self.chat(messages=messages, model=model, **kwargs)]: a [stream]
    among the keywords becomes the parameter of [chat]; the result is then
    asked for its [content]. *)
Definition simple_chat (A : Api) (self : QwenClient)
    (user_message system_message model : string) (kwargs : gmap string Obj) (w : World)
    : World * (Err + Obj) :=
  let messages := single_turn system_message user_message in
  if collides ["messages"; "model"] kwargs then (w, inl TypeError)
  else
    match chat A self messages model (default (OBool false) (kwargs !! "stream"))
            (delete "stream" kwargs) w with
    | (w', inl e) => (w', inl e)
    | (w', inr (Answer response)) => (w', inr (dict_get response "content" (OStr "")))
    | (w', inr (Generator _)) => (w', inl AttributeError)
    end.

(** *** Vocabulary *)

(** The generator goes on after this chunk: its status reads as 200 and
    its item can be built. *)
Definition goes_on (chunk : Obj) : bool :=
  match getattr chunk "status_code" with
  | inr status_code =>
      is_200 status_code &&
      match success_item chunk with inr _ => true | inl _ => false end
  | inl _ => false
  end.

(** A reply that reports a failure: its status reads as something other
    than 200, and its code and message can be read. *)
Definition reports_failure (response : Obj) : Prop :=
  exists status_code code message,
    getattr response "status_code" = inr status_code /\
    is_200 status_code = false /\
    getattr response "code" = inr code /\
    getattr response "message" = inr message.

(** One constructor call after the other, on the module variable. *)
Fixpoint construct_all (A : Api) (arguments : list (option string * string)) (w : World)
    : World :=
  match arguments with
  | [] => w
  | (key, region) :: rest => construct_all A rest (fst (__init__ A key region w))
  end.

(** *** Sample data *)

Definition chunk_ok (text : string) : Obj :=
  OObject true
    [("status_code", OInt 200);
     ("output",
      OObject true
        [("choices",
          OList [OObject true
                   [("message", OObject true [("role", OStr "assistant");
                                              ("content", OStr text)]);
                    ("finish_reason", OStr "null")]])])].

Definition chunk_failed : Obj :=
  OObject true
    [("status_code", OInt 429); ("code", OStr "Throttling");
     ("message", OStr "Requests rate limit exceeded")].

Definition api : Api :=
  {| settings_DASHSCOPE_API_KEY := None;
     environ_DASHSCOPE_API_KEY := Some "sk-from-environ";
     supported_text := "['qwen-plus', 'qwen-max']";
     reply := fun _ _ => inr chunk_failed;
     reply_stream := fun _ _ =>
       inr {| chunks := [chunk_ok "Hel"; chunk_failed; chunk_ok "lo"];
              broken := None |} |}.

Definition fresh : World := {| base_http_api_url := None; calls := [] |}.

Definition client : QwenClient := {| api_key := "sk-from-environ" |}.

End Qwen.

(** * Properties *)

(** ** Text helpers and the float model *)

Lemma byte_range (b : ascii) : 0 <= Py.byte b < 256.
Proof.
  unfold Py.byte. pose proof (N_ascii_bounded b). lia.
Qed.

Lemma decode_head_ok (b0 : ascii) (s1 : string) : item_ok (fst (Py.decode_head b0 s1)).
Proof.
  pose proof (byte_range b0) as H0. unfold Py.decode_head.
  destruct (Z.ltb_spec (Py.byte b0) 128); [simpl; lia |].
  destruct s1 as [| b1 s2]; [simpl; lia |].
  match goal with |- context [if ?c then _ else _] => destruct c eqn:Htwo end.
  { unfold Py.continuation in Htwo.
    repeat (apply andb_true_iff in Htwo as [Htwo ?]). simpl. lia. }
  destruct s2 as [| b2 s3]; [simpl; lia |].
  match goal with |- context [if ?c then _ else _] => destruct c eqn:Hthree end.
  { unfold Py.continuation in Hthree.
    repeat (apply andb_true_iff in Hthree as [Hthree ?]). simpl. lia. }
  destruct s3 as [| b3 s4]; [simpl; lia |].
  match goal with |- context [if ?c then _ else _] => destruct c eqn:Hfour end;
    [| simpl; lia].
  unfold Py.continuation in Hfour.
  repeat (apply andb_true_iff in Hfour as [Hfour ?]). simpl. lia.
Qed.

Lemma decode_from_ok (s : string) :
  forall skip, Forall item_ok (Py.decode_from skip s).
Proof.
  induction s as [| b0 s1 IH]; intros skip; simpl; [constructor |].
  destruct skip as [| skip]; [| apply IH].
  pose proof (decode_head_ok b0 s1) as Hx.
  destruct (Py.decode_head b0 s1) as [x taken]. constructor; [exact Hx | apply IH].
Qed.

Lemma decode_ok (s : string) : Forall item_ok (Py.decode s).
Proof. apply decode_from_ok. Qed.

Lemma decode_nil (s : string) : Py.decode s = [] -> s = "".
Proof.
  destruct s as [| b0 s1]; [reflexivity |]. unfold Py.decode. simpl.
  destruct (Py.decode_head b0 s1). discriminate.
Qed.

Lemma encode_not_empty (x : Py.item) : Py.encode x <> "".
Proof.
  destruct x as [cp | b]; simpl; [| discriminate].
  repeat destruct (_ <? _); discriminate.
Qed.

Lemma encode_all_nil (l : list Py.item) : Py.encode_all l = "" -> l = [].
Proof.
  destruct l as [| x l]; [reflexivity |]. simpl.
  pose proof (encode_not_empty x) as Hx.
  destruct (Py.encode x); [contradiction | discriminate].
Qed.

Lemma lower_ucs4_not_nil (after_cased : bool) (cp : Z) (rest : list Py.item) :
  Py.lower_ucs4 after_cased cp rest <> [].
Proof.
  unfold Py.lower_ucs4, Py.to_lower_full.
  destruct (cp =? 931); [discriminate |]. destruct (cp =? 304); discriminate.
Qed.

Lemma lower_from_nil (after_cased : bool) (l : list Py.item) :
  Py.lower_from after_cased l = [] -> l = [].
Proof.
  destruct l as [| [cp | b] l]; [reflexivity | | discriminate].
  simpl. pose proof (lower_ucs4_not_nil after_cased cp l) as Hne.
  destruct (Py.lower_ucs4 after_cased cp l); [contradiction | discriminate].
Qed.

Lemma lower_empty_iff (s : string) : Py.lower s = "" <-> s = "".
Proof.
  split; [| now intros ->].
  unfold Py.lower. intros H.
  now apply decode_nil, (lower_from_nil false), encode_all_nil.
Qed.

(** A dot stays a dot, and stays in front. *)
Lemma lower_dot (t : string) :
  exists rest, Py.lower (String "." t) = String "." rest.
Proof.
  unfold Py.lower.
  change (Py.decode (String "." t)) with (Py.CodePoint 46 :: Py.decode_from 0 t).
  cbn [Py.lower_from].
  replace (Py.lower_ucs4 false 46 (Py.decode_from 0 t)) with [46]
    by (vm_compute; reflexivity).
  eexists. reflexivity.
Qed.

(** *** The lower-cased text has none of the letters [A] to [Z] *)

Lemma lower_runs_ok : forallb run_ok Py.lower_runs = true.
Proof. vm_compute. reflexivity. Qed.

Lemma to_lower_ok (cp : Z) :
  0 <= cp < 1114112 ->
  (Py.to_lower cp < 65 \/ 90 < Py.to_lower cp) /\ 0 <= Py.to_lower cp < 1114112.
Proof.
  intros Hcp. unfold Py.to_lower.
  destruct (find (Py.in_run cp) Py.lower_runs) as [[[[first last] step] delta] |] eqn:Hfind.
  - apply find_some in Hfind as [Hin Hrun].
    pose proof lower_runs_ok as Hok. rewrite forallb_forall in Hok.
    apply Hok in Hin. unfold run_ok in Hin. unfold Py.in_run in Hrun.
    destruct (Z.ltb_spec cp first); [discriminate |].
    destruct (Z.ltb_spec last cp); [discriminate |].
    apply andb_true_iff in Hin as [Hin Hhigh].
    apply andb_true_iff in Hin as [Hin Hlow].
    apply orb_true_iff in Hin. lia.
  - split; [| lia].
    assert (Hfirst : Py.in_run cp (65, 90, 1, 32) = false).
    { apply (find_none _ _ Hfind). left. reflexivity. }
    unfold Py.in_run in Hfirst.
    destruct (Z.ltb_spec cp 65); [lia |].
    destruct (Z.ltb_spec 90 cp); [lia |].
    rewrite Z.mod_1_r in Hfirst. discriminate.
Qed.

Lemma lower_ucs4_ok (after_cased : bool) (cp : Z) (rest : list Py.item) :
  0 <= cp < 1114112 ->
  Forall written_ok (Py.CodePoint <$> Py.lower_ucs4 after_cased cp rest).
Proof.
  intros Hcp. unfold Py.lower_ucs4, Py.to_lower_full.
  destruct (cp =? 931).
  { destruct (_ && _); (constructor; [simpl; lia | constructor]). }
  destruct (cp =? 304).
  { constructor; [simpl; lia |]. constructor; [simpl; lia | constructor]. }
  constructor; [| constructor]. simpl. now apply to_lower_ok.
Qed.

Lemma lower_from_ok (l : list Py.item) :
  Forall item_ok l ->
  forall after_cased, Forall written_ok (Py.lower_from after_cased l).
Proof.
  induction 1 as [| [cp | b] l Hx Hl IH]; intros after_cased; simpl.
  - constructor.
  - apply Forall_app. split; [now apply lower_ucs4_ok | apply IH].
  - constructor; [exact Hx | apply IH].
Qed.

Lemma lower_AZ_byte_to_byte (z : Z) :
  z < 65 \/ 90 < z -> z < 256 -> lower_AZ_byte (Py.to_byte z) = Py.to_byte z.
Proof.
  intros Hz Hlt. unfold lower_AZ_byte, Py.to_byte.
  rewrite N_ascii_embedding by lia.
  destruct (_ && _)%N eqn:Hcond; [| reflexivity].
  apply andb_true_iff in Hcond as [Hlo Hhi].
  apply N.leb_le in Hlo. apply N.leb_le in Hhi. lia.
Qed.

Lemma lower_AZ_byte_high (b : ascii) : 128 <= Py.byte b -> lower_AZ_byte b = b.
Proof.
  unfold lower_AZ_byte, Py.byte. intros Hb.
  destruct (_ && _)%N eqn:Hcond; [| reflexivity].
  apply andb_true_iff in Hcond as [Hlo Hhi].
  apply N.leb_le in Hlo. apply N.leb_le in Hhi. lia.
Qed.

Lemma lower_AZ_app (s t : string) : lower_AZ (s ++ t) = lower_AZ s ++ lower_AZ t.
Proof.
  induction s as [| c s IH]; simpl; [reflexivity | now rewrite IH].
Qed.

Lemma lower_AZ_encode (x : Py.item) : written_ok x -> lower_AZ (Py.encode x) = Py.encode x.
Proof.
  destruct x as [cp | b]; simpl.
  2:{ intros Hb. now rewrite lower_AZ_byte_high. }
  intros [Hcp Hrange].
  destruct (Z.ltb_spec cp 128).
  { simpl. rewrite lower_AZ_byte_to_byte; [reflexivity | lia | lia]. }
  destruct (Z.ltb_spec cp 2048).
  { simpl. rewrite !lower_AZ_byte_to_byte; [reflexivity | | | |].
    all: try (pose proof (Z.mod_pos_bound cp 64); lia).
    all: try (assert (cp / 64 < 32) by (apply Z.div_lt_upper_bound; lia);
              assert (0 <= cp / 64) by (apply Z.div_pos; lia); lia). }
  destruct (Z.ltb_spec cp 65536).
  { simpl. rewrite !lower_AZ_byte_to_byte; [reflexivity | | | | | |].
    all: try (pose proof (Z.mod_pos_bound cp 64);
              pose proof (Z.mod_pos_bound (cp / 64) 64); lia).
    all: try (assert (cp / 4096 < 16) by (apply Z.div_lt_upper_bound; lia);
              assert (0 <= cp / 4096) by (apply Z.div_pos; lia); lia). }
  simpl. rewrite !lower_AZ_byte_to_byte; [reflexivity | | | | | | | |].
  all: try (pose proof (Z.mod_pos_bound cp 64);
            pose proof (Z.mod_pos_bound (cp / 64) 64);
            pose proof (Z.mod_pos_bound (cp / 4096) 64); lia).
  all: try (assert (cp / 262144 < 5) by (apply Z.div_lt_upper_bound; lia);
            assert (0 <= cp / 262144) by (apply Z.div_pos; lia); lia).
Qed.

Lemma lower_AZ_encode_all (l : list Py.item) :
  Forall written_ok l -> lower_AZ (Py.encode_all l) = Py.encode_all l.
Proof.
  induction 1 as [| x l Hx Hl IH]; simpl; [reflexivity |].
  now rewrite lower_AZ_app, lower_AZ_encode, IH.
Qed.

Lemma lower_AZ_lower (s : string) : lower_AZ (Py.lower s) = Py.lower s.
Proof.
  unfold Py.lower. apply lower_AZ_encode_all, lower_from_ok, decode_ok.
Qed.

Lemma str_in_true (x : string) (l : list string) :
  Py.str_in x l = true <-> x ∈ l.
Proof. unfold Py.str_in. apply bool_decide_eq_true. Qed.

Lemma str_in_false (x : string) (l : list string) :
  Py.str_in x l = false <-> x ∉ l.
Proof. unfold Py.str_in. apply bool_decide_eq_false. Qed.

(** A double holds every integer below [2^53] exactly. *)
Lemma round53_exact (n : Z) : 0 <= n < 2 ^ 53 -> Float.round53 n = n.
Proof.
  intros [Hlo Hhi]. unfold Float.round53.
  assert (Hbits : Z.log2 n + 1 <= 53).
  { destruct (Z.eq_dec n 0) as [-> | Hne]; [simpl; lia |].
    assert (Z.log2 n < 53) by (apply Z.log2_lt_pow2; lia). lia. }
  apply Z.leb_le in Hbits. now rewrite Hbits.
Qed.

Lemma div_MiB_exact (size : N) :
  (size < 2 ^ 53)%N -> Float.div_MiB size = Z.of_N size.
Proof.
  intros H. unfold Float.div_MiB. apply round53_exact.
  split; [lia |]. change (2 ^ 53) with (Z.of_N (2 ^ 53)%N). lia.
Qed.

(** ['.2f'] prints the count of hundredths nearest to the value: the error
    is at most half a hundredth. *)
Lemma hundredths_nearest (num : Z) :
  2 * Z.abs (Float.hundredths num * Float.MiB - 100 * num) <= Float.MiB.
Proof.
  unfold Float.hundredths.
  set (a := 100 * num).
  assert (HM : Float.MiB = 1048576) by reflexivity.
  pose proof (Z.div_mod a Float.MiB ltac:(rewrite HM; lia)) as Hdm.
  pose proof (Z.mod_pos_bound a Float.MiB ltac:(rewrite HM; lia)) as Hb.
  set (q := a / Float.MiB) in *. set (r := a mod Float.MiB) in *.
  assert (Hhalf : Float.MiB / 2 = 524288) by reflexivity.
  rewrite Hhalf. rewrite HM in *.
  destruct (524288 <? r) eqn:Hlt; simpl.
  - apply Z.ltb_lt in Hlt. lia.
  - apply Z.ltb_ge in Hlt.
    destruct (r =? 524288) eqn:Heq; simpl.
    + apply Z.eqb_eq in Heq. destruct (Z.odd q); lia.
    + apply Z.eqb_neq in Heq. lia.
Qed.

(** The model of the float text on a few values: a tie goes to the even
    hundredth, a quotient that is not an integer is printed in full, and
    small and large quotients use the scientific notation. *)
Example float_text_demo :
  map (fun size => (Float.format_2f (Float.div_MiB size), Float.repr (Float.div_MiB size)))
    [5242880; 131072; 393216; 1000000; 1; 16777216000000000000000]%N
  = [("5.00", "5.0"); ("0.12", "0.125"); ("0.38", "0.375");
     ("0.95", "0.95367431640625"); ("0.00", "9.5367431640625e-07");
     ("16000000000000000.00", "1.6e+16")].
Proof. vm_compute. reflexivity. Qed.

Example contains_demo :
  map (fun s => Py.contains s "文件 big.bin 大小 10.00MB 超过限制 5.0MB")
    ["10.00MB"; "5.0MB"; "5.00MB"; ""]
  = [true; true; false; true].
Proof. vm_compute. reflexivity. Qed.

(** ** [validate_file] *)

Section ValidationFacts.

Variable config : FILE_UPLOAD_CONFIG.

Lemma validate_file_oversized_eq (f : UploadedFile.t) :
  (MAX_FILE_SIZE config < UploadedFile.size f)%N ->
  validate_file config f = (false, Some (size_message config f)).
Proof.
  intros H. unfold validate_file.
  apply N.ltb_lt in H. now rewrite H.
Qed.

(** A rejection always comes with a message, an acceptance with none. *)
Lemma validate_file_message (f : UploadedFile.t) :
  (fst (validate_file config f) = true /\ snd (validate_file config f) = None) \/
  (fst (validate_file config f) = false /\
   exists msg, snd (validate_file config f) = Some msg).
Proof.
  unfold validate_file.
  repeat match goal with
         | |- context [if ?b then _ else _] => destruct b
         end; simpl; eauto.
Qed.

(** When an extension is present, the allow-list decides. *)
Lemma validate_file_extension_rejected (f : UploadedFile.t) :
  (UploadedFile.size f <= MAX_FILE_SIZE config)%N ->
  UploadedFile.content_type f ∈ flatten_values (ALLOWED_TYPES config) ->
  snd (Py.splitext (UploadedFile.name f)) <> "" ->
  Py.lower (snd (Py.splitext (UploadedFile.name f)))
    ∉ flatten_values (ALLOWED_EXTENSIONS config) ->
  fst (validate_file config f) = false.
Proof.
  intros Hsize Hmime Hext Hnot. unfold validate_file.
  apply N.ltb_ge in Hsize. rewrite Hsize.
  apply str_in_true in Hmime. rewrite Hmime. simpl.
  apply str_in_false in Hnot. rewrite Hnot.
  destruct (Py.lower _) eqn:Hl.
  - apply (proj1 (lower_empty_iff _)) in Hl. contradiction.
  - reflexivity.
Qed.

End ValidationFacts.

(** A name without a dot has no extension. *)
Lemma rfind_from_absent (c : ascii) (s : string) (i acc : Z) :
  (forall k, String.get k s <> Some c) -> Py.rfind_from c s i acc = acc.
Proof.
  revert i acc. induction s as [| a s IH]; intros i acc H; simpl; [reflexivity |].
  destruct (Ascii.eqb a c) eqn:Heq.
  - apply Ascii.eqb_eq in Heq. subst. exfalso. apply (H 0%nat). reflexivity.
  - apply IH. intros k. apply (H (S k)).
Qed.

Lemma rfind_from_lower_bound (c : ascii) (s : string) (i acc : Z) :
  -1 <= acc -> 0 <= i -> -1 <= Py.rfind_from c s i acc.
Proof.
  revert i acc. induction s as [| a s IH]; intros i acc Hacc Hi; simpl; [lia |].
  apply IH; [destruct (Ascii.eqb a c) |]; lia.
Qed.

Lemma splitext_no_dot (p : string) :
  (forall k, String.get k p <> Some "."%char) -> snd (Py.splitext p) = "".
Proof.
  intros H. unfold Py.splitext, Py.rfind.
  rewrite (rfind_from_absent "." p 0 (-1) H).
  pose proof (rfind_from_lower_bound "/" p 0 (-1) ltac:(lia) ltac:(lia)) as Hsep.
  apply Z.ltb_ge in Hsep. now rewrite Hsep.
Qed.

Example demo_upload :
  FileUploadView_post Demo.config Demo.env (Demo.upload [Demo.cat]) Demo.empty
  = (Demo.one_file,
     APIResponse.success
       (Some (UploadData
          {| upload_result :=
               {| UploadResult.url := "https://cdn.example.com/user_avatar/images/20231114_221320_deadbeef_cat.jpg";
                  UploadResult.file_path := "user_avatar/images/20231114_221320_deadbeef_cat.jpg";
                  UploadResult.file_name := "20231114_221320_deadbeef_cat.jpg";
                  UploadResult.original_name := "cat.jpg";
                  UploadResult.file_size := 2097152;
                  UploadResult.content_type := "image/jpeg" |};
             record_id := 1 |}))
       "上传成功").
Proof. vm_compute. reflexivity. Qed.

(** ** The store client and the ledger *)

(** Decide the guards whose outcome is known, without unfolding the
    program any further. *)
Ltac guards :=
  change (negb true) with false; change (negb false) with true; cbv beta iota.

Section ProgramFacts.

Variable config : FILE_UPLOAD_CONFIG.
Variable E : Env.

(** [upload_file], run in a world: one clock reading, one UUID, one store
    call; the call either fails, leaving the bucket as it was, or writes
    the object under the generated key. *)
Lemma upload_file_run (f : UploadedFile.t) (pn ft : string)
    (cn : option string) (w : World) :
  let key := object_key E pn ft cn f w in
  let w0 := set_uuid_draws (S (uuid_draws w))
              (set_clock_reads (S (clock_reads w)) w) in
  upload_file E f pn ft cn w =
  match s3_fault E (length (trace w)) with
  | Some e =>
      (log_event (S3Put key) w0, Raised (wrap_ClientError "文件上传失败: " e))
  | None =>
      (set_bucket
         (<[key := {| Body := UploadedFile.body f;
                      ContentType := UploadedFile.content_type f;
                      Metadata := [("project", pn); ("type", ft);
                                   ("upload_time",
                                    strftime E (now E (clock_reads w)))] |}]>
            (bucket w))
         (log_event (S3Put key) w0),
       Returned
         {| UploadResult.url := PUBLIC_URL E +:+ "/" +:+ key;
            UploadResult.file_path := key;
            UploadResult.file_name :=
              strftime E (now E (clock_reads w)) +:+ "_" +:+
              substring 0 8 (uuid4 E (uuid_draws w)) +:+ "_" +:+
              Py.or_else cn (UploadedFile.name f);
            UploadResult.original_name := Py.or_else cn (UploadedFile.name f);
            UploadResult.file_size := UploadedFile.size f;
            UploadResult.content_type := UploadedFile.content_type f |})
  end.
Proof.
  unfold upload_file, try_except_ClientError, bind, datetime_now, uuid_uuid4,
    s3_upload_fileobj, raise, ret, object_key. simpl.
  destruct (s3_fault E (length (trace w))) as [[msg | msg | msg | msg] |];
    reflexivity.
Qed.

Lemma delete_file_run (key : string) (w : World) :
  delete_file E key w =
  match s3_fault E (length (trace w)) with
  | Some e =>
      (log_event (S3Delete key) w, Raised (wrap_ClientError "文件删除失败: " e))
  | None =>
      (set_bucket (delete key (bucket w)) (log_event (S3Delete key) w),
       Returned true)
  end.
Proof.
  unfold delete_file, try_except_ClientError, bind, s3_delete_object, raise, ret.
  destruct (s3_fault E (length (trace w))) as [[msg | msg | msg | msg] |];
    reflexivity.
Qed.

Lemma path_taken_spec (p : string) (w : World) :
  path_taken p w = true <-> p ∈ map UserFileRecord.file_path (rows w).
Proof.
  unfold path_taken. rewrite existsb_exists, list_elem_of_In, in_map_iff.
  split; intros [r [H1 H2]]; exists r.
  - apply String.eqb_eq in H2. now split.
  - split; [assumption | now apply String.eqb_eq].
Qed.

(** [objects.create]: either an exception, and the table is as before, or
    one new live row with the next primary key and a path that no row
    had. *)
Lemma objects_create_cases (u : Z) (fn fp fu : string) (fs : N)
    (ct pn ft d : string) (w : World) :
  (exists e w',
      objects_create E u fn fp fu fs ct pn ft d w = (w', Raised e) /\
      rows w' = rows w /\ next_pk w' = next_pk w /\ bucket w' = bucket w /\
      trace w' = (trace w ++ [DbInsert fp])%list) \/
  (exists record w',
      objects_create E u fn fp fu fs ct pn ft d w = (w', Returned record) /\
      rows w' = (rows w ++ [record])%list /\
      next_pk w' = next_pk w + 1 /\ bucket w' = bucket w /\
      trace w' = (trace w ++ [DbInsert fp])%list /\
      UserFileRecord.id record = next_pk w /\
      UserFileRecord.file_path record = fp /\
      UserFileRecord.user record = u /\
      UserFileRecord.is_deleted record = false /\
      path_taken fp w = false).
Proof.
  unfold objects_create, bind, datetime_now, uuid_uuid4. simpl.
  destruct (db_fault E (length (trace w))) as [e |].
  { left. eexists _, _. repeat split. }
  unfold path_taken, uuid_taken. simpl.
  destruct (existsb _ (rows w)) eqn:Hpath.
  { left. eexists _, _. repeat split. }
  destruct (existsb _ (rows w)) eqn:Huuid in |- *.
  { left. eexists _, _. repeat split. }
  right. eexists _, _. repeat split.
Qed.

(** A path that is taken makes the insert fail with the uniqueness
    violation of [file_path]. *)
Lemma objects_create_collision (u : Z) (fn fp fu : string) (fs : N)
    (ct pn ft d : string) (w : World) :
  db_fault E (length (trace w)) = None ->
  path_taken fp w = true ->
  objects_create E u fn fp fu fs ct pn ft d w =
  (log_event (DbInsert fp)
     (set_clock_reads (S (S (S (clock_reads w))))
        (set_uuid_draws (S (uuid_draws w)) w)),
   Raised (IntegrityError (unique_violation E "file_path"))).
Proof.
  intros Hdb Htaken.
  unfold objects_create, bind, datetime_now, uuid_uuid4. simpl.
  rewrite Hdb. unfold path_taken in *. simpl. now rewrite Htaken.
Qed.

(** *** The ledger stays in order *)

Lemma ledger_grows_same (w w' : World) :
  rows w' = rows w -> next_pk w' = next_pk w -> ledger_grows w w'.
Proof.
  intros Hrows Hpk. split.
  - unfold ledger_ok. now rewrite Hrows, Hpk.
  - exists []. now rewrite app_nil_r.
Qed.

Lemma ledger_grows_refl (w : World) : ledger_grows w w.
Proof. now apply ledger_grows_same. Qed.

Lemma ledger_grows_trans (w1 w2 w3 : World) :
  ledger_grows w1 w2 -> ledger_grows w2 w3 -> ledger_grows w1 w3.
Proof.
  intros [Hok1 [n1 Hn1]] [Hok2 [n2 Hn2]]. split; [auto |].
  exists (n1 ++ n2)%list. now rewrite Hn2, Hn1, <- app_assoc.
Qed.

Lemma ledger_grows_insert (w w' : World) (record : UserFileRecord.t) :
  rows w' = (rows w ++ [record])%list ->
  next_pk w' = next_pk w + 1 ->
  UserFileRecord.id record = next_pk w ->
  path_taken (UserFileRecord.file_path record) w = false ->
  ledger_grows w w'.
Proof.
  intros Hrows Hpk Hid Hfree. split; [| now exists [record]].
  intros (Hpaths & Hids & Hlt & Hpos). unfold ledger_ok.
  rewrite Hrows, Hpk, !map_app. simpl. split_and!.
  - apply NoDup_app. repeat split; [assumption | | apply NoDup_singleton].
    intros p Hin Hp. apply list_elem_of_singleton in Hp. subst p.
    apply path_taken_spec in Hin. congruence.
  - apply NoDup_app. repeat split; [assumption | | apply NoDup_singleton].
    intros k Hin Hk. apply list_elem_of_singleton in Hk. subst k.
    apply list_elem_of_fmap in Hin as [r [Hr Hin]].
    rewrite Forall_forall in Hlt. apply Hlt in Hin. lia.
  - apply Forall_app. split.
    + eapply Forall_impl; [exact Hlt |]. simpl. intros; lia.
    + constructor; [lia | constructor].
  - lia.
Qed.

(** Two rows of an ordered ledger with the same path are the same row. *)
Lemma ledger_ok_path_inj (w : World) (r r' : UserFileRecord.t) :
  ledger_ok w -> r ∈ rows w -> r' ∈ rows w ->
  UserFileRecord.file_path r' = UserFileRecord.file_path r -> r' = r.
Proof.
  intros (Hpaths & _ & _) Hr Hr' Heq.
  apply list_elem_of_lookup in Hr as [i Hi].
  apply list_elem_of_lookup in Hr' as [j Hj].
  assert (i = j) as ->.
  { eapply NoDup_lookup; [exact Hpaths | |].
    - rewrite list_lookup_fmap, Hi. reflexivity.
    - rewrite list_lookup_fmap, Hj. simpl. now rewrite Heq. }
  congruence.
Qed.

(** *** One turn of the batch loop *)

(** The turn never raises; it adds exactly one entry, to one of the two
    lists; a file that fails validation leaves the world as it was. *)
Lemma batch_file_run (u : Z) (pn ft d : string)
    (lists : list Uploaded * list Failed) (f : UploadedFile.t) (w : World) :
  exists w' lists',
    batch_file config E u pn ft d lists f w = (w', Returned lists') /\
    (length (fst lists') + length (snd lists')
     = S (length (fst lists) + length (snd lists)))%nat /\
    ledger_grows w w' /\
    (fst (validate_file config f) = false -> w' = w /\ fst lists' = fst lists).
Proof.
  destruct lists as [success_list failed_list].
  unfold batch_file, try_except.
  destruct (validate_file config f) as [[|] error_msg]; simpl.
  - unfold bind. rewrite upload_file_run.
    destruct (s3_fault E (length (trace w))) as [e |].
    { eexists _, _. split; [reflexivity |]. simpl. rewrite length_app. simpl.
      split_and!; [lia | now apply ledger_grows_same | discriminate]. }
    match goal with
    | |- context [objects_create E ?a ?b ?c ?d0 ?e0 ?f0 ?g ?h ?i ?w0] =>
        destruct (objects_create_cases a b c d0 e0 f0 g h i w0)
          as [(e & w' & Hrun & Hrows & Hpk & _) |
              (record & w' & Hrun & Hrows & Hpk & _ & _ & Hid & Hpath & _ & _ & Hfree)];
        rewrite Hrun
    end.
    + eexists _, _. split; [reflexivity |]. simpl. rewrite length_app. simpl.
      split_and!; [lia | | discriminate].
      apply ledger_grows_same; [rewrite Hrows | rewrite Hpk]; reflexivity.
    + eexists _, _. split; [reflexivity |]. simpl. rewrite length_app. simpl.
      split_and!; [lia | | discriminate].
      eapply ledger_grows_trans;
        [| eapply ledger_grows_insert; [exact Hrows | exact Hpk | exact Hid |]].
      * apply ledger_grows_same; reflexivity.
      * rewrite Hpath. exact Hfree.
  - eexists _, _. split; [reflexivity |]. simpl. rewrite length_app. simpl.
    split_and!; [lia | apply ledger_grows_refl | done].
Qed.

(** *** The batch loop and the batch view *)

Lemma batch_loop_run (u : Z) (pn ft d : string) (files : list UploadedFile.t) :
  forall (lists : list Uploaded * list Failed) (w : World),
  exists w' lists',
    batch_loop config E u pn ft d files lists w = (w', Returned lists') /\
    (length (fst lists') + length (snd lists')
     = length (fst lists) + length (snd lists) + length files)%nat /\
    ledger_grows w w' /\
    (Forall (fun f => fst (validate_file config f) = false) files ->
     w' = w /\ fst lists' = fst lists).
Proof.
  induction files as [| f files IH]; intros lists w; simpl.
  - exists w, lists. split_and!; [reflexivity | lia | apply ledger_grows_refl | done].
  - destruct (batch_file_run u pn ft d lists f w)
      as (w1 & lists1 & Hrun1 & Hlen1 & Hgrow1 & Hinv1).
    destruct (IH lists1 w1) as (w2 & lists2 & Hrun2 & Hlen2 & Hgrow2 & Hinv2).
    exists w2, lists2. unfold bind. rewrite Hrun1. split_and!.
    + exact Hrun2.
    + lia.
    + eapply ledger_grows_trans; eassumption.
    + intros Hall. apply Forall_cons in Hall as [Hf Hrest].
      destruct (Hinv1 Hf) as [-> Hs1]. destruct (Hinv2 Hrest) as [-> Hs2].
      split; congruence.
Qed.

(** A batch that passes the pre-checks: the view answers with the success
    envelope around the two lists that the loop built. *)
Lemma batch_view_run (request : BatchRequest.t) (w : World) :
  batch_prechecks config request ->
  exists w' success_list failed_list msg,
    FileBatchUploadView_post config E request w =
    (w', APIResponse.success
           (Some (BatchData
              {| total := length (BatchRequest.FILES_files request);
                 success_count := length success_list;
                 failed_count := length failed_list;
                 success_files := success_list;
                 failed_files := failed_list |}))
           msg) /\
    (length success_list + length failed_list
     = length (BatchRequest.FILES_files request))%nat /\
    ledger_grows w w' /\
    (Forall (fun f => fst (validate_file config f) = false)
       (BatchRequest.FILES_files request) ->
     w' = w /\ success_list = []).
Proof.
  intros (Hfiles & Hpn & Hft & Hcount).
  unfold FileBatchUploadView_post, run_view, FileBatchUploadView_post_body.
  destruct (BatchRequest.FILES_files request) as [| f files] eqn:Heq;
    [contradiction |].
  rewrite Hpn, Hft. apply Z.ltb_ge in Hcount. rewrite Hcount.
  destruct (batch_loop_run (BatchRequest.user request)
              (Py.get_default (BatchRequest.project_name request) "")
              (Py.get_default (BatchRequest.file_type request) "")
              (Py.get_default (BatchRequest.description request) "")
              (f :: files) ([], []) w)
    as (w' & [success_list failed_list] & Hrun & Hlen & Hgrow & Hinv).
  unfold bind. guards. rewrite Hrun. unfold ret.
  eexists w', success_list, failed_list, _.
  split_and!; [reflexivity | simpl in Hlen; simpl; lia | exact Hgrow |].
  intros Hall. destruct (Hinv Hall) as [-> Hs]. now split.
Qed.

Lemma batch_prechecks_or_rejected (request : BatchRequest.t) :
  batch_prechecks config request \/ batch_rejected config request.
Proof.
  unfold batch_prechecks, batch_rejected.
  destruct (BatchRequest.FILES_files request) as [| f files]; [right; now left |].
  destruct (Py.truthy (BatchRequest.project_name request)); [| right; auto].
  destruct (Py.truthy (BatchRequest.file_type request)); [| right; auto].
  destruct (Z_le_gt_dec (Z.of_nat (length (f :: files))) (MAX_BATCH_COUNT config)).
  - left. split_and!; done.
  - right. right. right. right. lia.
Qed.

(** A batch that is turned down changes nothing and answers 400. *)
Lemma batch_view_rejects (request : BatchRequest.t) (w : World) :
  batch_rejected config request ->
  exists msg,
    FileBatchUploadView_post config E request w = (w, APIResponse.error msg 400 400).
Proof.
  intros Hrej.
  unfold FileBatchUploadView_post, run_view, FileBatchUploadView_post_body, ret.
  destruct (BatchRequest.FILES_files request) as [| f files] eqn:Hfiles;
    [eexists; reflexivity |].
  destruct (Py.truthy (BatchRequest.project_name request)) eqn:Hpn;
    [| eexists; reflexivity].
  destruct (Py.truthy (BatchRequest.file_type request)) eqn:Hft;
    [| eexists; reflexivity].
  destruct (MAX_BATCH_COUNT config <? Z.of_nat (length (f :: files))) eqn:Hcount;
    [eexists; reflexivity |].
  apply Z.ltb_ge in Hcount. unfold batch_rejected in Hrej.
  rewrite Hfiles, Hpn, Hft in Hrej.
  destruct Hrej as [H | [H | [H | H]]]; try discriminate. lia.
Qed.

(** *** The single upload view *)

(** A request that fails validation changes nothing and answers 400. *)
Lemma upload_view_rejects (request : UploadRequest.t) (w : World) :
  upload_invalid config request ->
  exists msg,
    FileUploadView_post config E request w = (w, APIResponse.error msg 400 400).
Proof.
  intros Hinv.
  unfold FileUploadView_post, run_view, FileUploadView_post_body, ret.
  destruct (FILES_get (UploadRequest.FILES_file request)) as [f |] eqn:Hfile;
    [| eexists; reflexivity].
  destruct (1 <? length (UploadRequest.FILES_file request))%nat;
    [eexists; reflexivity |].
  destruct (Py.truthy (UploadRequest.project_name request)) eqn:Hpn;
    [| eexists; reflexivity].
  destruct (Py.truthy (UploadRequest.file_type request)) eqn:Hft;
    [| eexists; reflexivity].
  destruct (validate_file config f) as [[|] error_msg] eqn:Hval;
    [| eexists; reflexivity].
  exfalso. unfold upload_invalid in Hinv. rewrite Hfile, Hpn, Hft in Hinv.
  destruct Hinv as [H | [H | [H | (f' & Hf' & H)]]]; try discriminate.
  assert (f' = f) by congruence. subst f'. rewrite Hval in H. discriminate.
Qed.

(** Whatever the request, the single upload view only ever adds a row,
    and keeps the ledger in order. *)
Lemma upload_view_grows (request : UploadRequest.t) (w : World) :
  ledger_grows w (fst (FileUploadView_post config E request w)).
Proof.
  unfold FileUploadView_post, run_view, FileUploadView_post_body, ret.
  destruct (FILES_get (UploadRequest.FILES_file request)) as [f |];
    [| apply ledger_grows_refl].
  destruct (1 <? length (UploadRequest.FILES_file request))%nat;
    [apply ledger_grows_refl |].
  destruct (Py.truthy (UploadRequest.project_name request));
    [| apply ledger_grows_refl].
  destruct (Py.truthy (UploadRequest.file_type request));
    [| apply ledger_grows_refl].
  destruct (validate_file config f) as [[|] error_msg];
    [| apply ledger_grows_refl].
  guards. unfold bind. rewrite upload_file_run.
  destruct (s3_fault E (length (trace w))) as [e |];
    [now apply ledger_grows_same |].
  match goal with
  | |- context [objects_create E ?a ?b ?c ?d0 ?e0 ?f0 ?g ?h ?i ?w0] =>
      destruct (objects_create_cases a b c d0 e0 f0 g h i w0)
        as [(e & w' & Hrun & Hrows & Hpk & _) |
            (record & w' & Hrun & Hrows & Hpk & _ & _ & Hid & Hpath & _ & _ & Hfree)];
      rewrite Hrun
  end.
  - simpl. apply ledger_grows_same; [rewrite Hrows | rewrite Hpk]; reflexivity.
  - simpl. eapply ledger_grows_trans;
      [| eapply ledger_grows_insert; [exact Hrows | exact Hpk | exact Hid |]].
    + apply ledger_grows_same; reflexivity.
    + rewrite Hpath. exact Hfree.
Qed.

Lemma batch_view_grows (request : BatchRequest.t) (w : World) :
  ledger_grows w (fst (FileBatchUploadView_post config E request w)).
Proof.
  destruct (batch_prechecks_or_rejected request) as [Hpre | Hrej].
  - destruct (batch_view_run request w Hpre)
      as (w' & sl & fl & msg & Hrun & _ & Hgrow & _).
    now rewrite Hrun.
  - destruct (batch_view_rejects request w Hrej) as [msg Hrun].
    rewrite Hrun. apply ledger_grows_refl.
Qed.

(** *** The delete view *)

Lemma filter_nil {A : Type} (f : A -> bool) (l : list A) :
  (forall x, In x l -> f x = false) -> List.filter f l = [].
Proof.
  induction l as [| a l IH]; intros H; simpl; [reflexivity |].
  rewrite (H a (or_introl eq_refl)). apply IH. intros x Hx. apply H. now right.
Qed.

(** The lookup finds nothing when every row with that id is deleted or
    belongs to someone else (in particular when there is no such row). *)
Lemma filter_id_user_first_None (record_id user : Z) (w : World) :
  (forall r, r ∈ rows w -> UserFileRecord.id r = record_id ->
             UserFileRecord.is_deleted r = true \/ UserFileRecord.user r <> user) ->
  filter_id_user_first record_id user w = None.
Proof.
  intros H. unfold filter_id_user_first.
  rewrite filter_nil; [reflexivity |].
  intros r Hr. unfold get_queryset in Hr. apply filter_In in Hr as [Hin Hlive].
  destruct (UserFileRecord.id r =? record_id) eqn:Hid; [| reflexivity].
  apply Z.eqb_eq in Hid. apply list_elem_of_In in Hin.
  destruct (H r Hin Hid) as [Hdel | Huser].
  - rewrite Hdel in Hlive. discriminate.
  - simpl. now apply Z.eqb_neq.
Qed.

(** What the lookup finds is a live row of the requester with that id. *)
Lemma filter_id_user_first_Some (record_id user : Z) (w : World)
    (r : UserFileRecord.t) :
  filter_id_user_first record_id user w = Some r ->
  r ∈ rows w /\ UserFileRecord.id r = record_id /\
  UserFileRecord.user r = user /\ UserFileRecord.is_deleted r = false.
Proof.
  unfold filter_id_user_first, ordered. intros H.
  apply head_Some_elem_of in H.
  rewrite merge_sort_Permutation in H.
  apply list_elem_of_In, filter_In in H as [Hin Hmatch].
  unfold get_queryset in Hin. apply filter_In in Hin as [Hin Hlive].
  apply andb_true_iff in Hmatch as [Hid Huser].
  apply Z.eqb_eq in Hid. apply Z.eqb_eq in Huser.
  apply negb_true_iff in Hlive. apply list_elem_of_In in Hin. auto.
Qed.

(** A request brings an id to the lookup when its id is truthy and reads
    as a number. *)
Lemma named_id_Some (request : DeleteRequest.t) (record_id : Z) :
  named_id E request = Some record_id <->
  exists v, DeleteRequest.id request = Some v /\ truth v = true /\
            lookup_key E v = inr record_id.
Proof.
  unfold named_id. split.
  - destruct (DeleteRequest.id request) as [v |]; [| discriminate].
    destruct (truth v) eqn:Htruth; [| discriminate].
    destruct (lookup_key E v) as [text | z] eqn:Hkey; [discriminate |].
    intros [= ->]. now exists v.
  - intros (v & -> & -> & ->). reflexivity.
Qed.

(** Without such an id the view stops before the lookup, or in it: 400 for
    a missing or falsy id, 500 for one that is not a number. *)
Lemma named_id_None (request : DeleteRequest.t) :
  named_id E request = None <->
  falsy_id (DeleteRequest.id request) = true \/
  exists v text, DeleteRequest.id request = Some v /\ truth v = true /\
                 lookup_key E v = inl text.
Proof.
  unfold named_id, falsy_id. split.
  - destruct (DeleteRequest.id request) as [v |]; [| now left].
    destruct (truth v) eqn:Htruth; [| now left].
    destruct (lookup_key E v) as [text | z] eqn:Hkey; [| discriminate].
    intros _. right. now exists v, text.
  - intros [Hfalsy | (v & text & -> & -> & ->)]; [| reflexivity].
    destruct (DeleteRequest.id request) as [v |]; [| reflexivity].
    apply negb_true_iff in Hfalsy. now rewrite Hfalsy.
Qed.

Lemma named_id_Number (request : DeleteRequest.t) (record_id : Z) :
  DeleteRequest.id request = Some (DeleteRequest.Number record_id) ->
  record_id <> 0 -> named_id E request = Some record_id.
Proof.
  intros Hid Hnz. apply named_id_Some. eexists. split; [exact Hid |].
  split; [| reflexivity]. simpl. now apply negb_true_iff, Z.eqb_neq.
Qed.

Lemma delete_view_falsy (request : DeleteRequest.t) (w : World) :
  falsy_id (DeleteRequest.id request) = true ->
  FileDeleteView_delete E request w
    = (w, APIResponse.error "缺少文件记录ID" 400 400).
Proof.
  intros Hfalsy.
  unfold FileDeleteView_delete, run_view, FileDeleteView_delete_body.
  now rewrite Hfalsy.
Qed.

Lemma delete_view_unreadable (request : DeleteRequest.t) (w : World)
    (v : DeleteRequest.id_value) (text : string) :
  DeleteRequest.id request = Some v -> truth v = true ->
  lookup_key E v = inl text ->
  FileDeleteView_delete E request w
    = (w, APIResponse.error ("删除失败: " +:+ text) 500 500).
Proof.
  intros Hid Htruth Hkey.
  unfold FileDeleteView_delete, run_view, FileDeleteView_delete_body.
  rewrite Hid. unfold falsy_id. rewrite Htruth. simpl. now rewrite Hkey.
Qed.

Lemma delete_view_named (request : DeleteRequest.t) (w : World) (record_id : Z) :
  named_id E request = Some record_id ->
  FileDeleteView_delete_body E request w =
  match filter_id_user_first record_id (DeleteRequest.user request) w with
  | None => (w, Returned (APIResponse.error "文件不存在或无权限删除" 404 404))
  | Some record =>
      bind (delete_file E (UserFileRecord.file_path record))
        (fun _ => bind (SoftDeleteModel_delete E record)
           (fun _ => ret (APIResponse.success None "删除成功"))) w
  end.
Proof.
  intros (v & Hid & Htruth & Hkey)%named_id_Some.
  unfold FileDeleteView_delete_body.
  rewrite Hid. unfold falsy_id. rewrite Htruth. simpl. now rewrite Hkey.
Qed.

Lemma delete_view_absent (request : DeleteRequest.t) (w : World) (record_id : Z) :
  named_id E request = Some record_id ->
  filter_id_user_first record_id (DeleteRequest.user request) w = None ->
  FileDeleteView_delete E request w
    = (w, APIResponse.error "文件不存在或无权限删除" 404 404).
Proof.
  intros Hid Hnone. unfold FileDeleteView_delete, run_view.
  rewrite (delete_view_named request w record_id Hid). now rewrite Hnone.
Qed.

(** The delete view on a record that the lookup finds: the store call
    comes first; only when it succeeded is the row updated. *)
Lemma delete_view_found (request : DeleteRequest.t) (w : World)
    (record_id : Z) (r : UserFileRecord.t) :
  named_id E request = Some record_id ->
  filter_id_user_first record_id (DeleteRequest.user request) w = Some r ->
  let path := UserFileRecord.file_path r in
  FileDeleteView_delete E request w =
  match s3_fault E (length (trace w)) with
  | Some e =>
      (log_event (S3Delete path) w,
       APIResponse.error
         ("删除失败: " +:+ str (wrap_ClientError "文件删除失败: " e)) 500 500)
  | None =>
      let w1 := set_bucket (delete path (bucket w)) (log_event (S3Delete path) w) in
      let w2 := log_event (DbUpdate (UserFileRecord.id r))
                  (set_clock_reads (S (S (clock_reads w))) w1) in
      match db_fault E (S (length (trace w))) with
      | Some e => (w2, APIResponse.error ("删除失败: " +:+ str e) 500 500)
      | None =>
          (set_rows
             (map (fun x => if UserFileRecord.id x =? UserFileRecord.id r
                            then soft_deleted E r w else x) (rows w)) w2,
           APIResponse.success None "删除成功")
      end
  end.
Proof.
  intros Hid Hfound path.
  unfold FileDeleteView_delete, run_view.
  rewrite (delete_view_named request w record_id Hid).
  rewrite Hfound. unfold bind. rewrite delete_file_run.
  fold path.
  destruct (s3_fault E (length (trace w))) as [e |]; [reflexivity |].
  unfold SoftDeleteModel_delete, save, bind, datetime_now, ret. simpl.
  rewrite length_app. simpl. rewrite Nat.add_1_r.
  destruct (db_fault E (S (length (trace w)))) as [e |]; reflexivity.
Qed.

Lemma ledger_ok_id_inj (w : World) (r r' : UserFileRecord.t) :
  ledger_ok w -> r ∈ rows w -> r' ∈ rows w ->
  UserFileRecord.id r' = UserFileRecord.id r -> r' = r.
Proof.
  intros (_ & Hids & _) Hr Hr' Heq.
  apply list_elem_of_lookup in Hr as [i Hi].
  apply list_elem_of_lookup in Hr' as [j Hj].
  assert (i = j) as ->.
  { eapply NoDup_lookup; [exact Hids | |].
    - rewrite list_lookup_fmap, Hi. reflexivity.
    - rewrite list_lookup_fmap, Hj. simpl. now rewrite Heq. }
  congruence.
Qed.

(** An update that keeps the id and the path of every row keeps the
    ledger in order. *)
Lemma ledger_ok_update (w w' : World) (f : UserFileRecord.t -> UserFileRecord.t) :
  rows w' = map f (rows w) -> next_pk w' = next_pk w ->
  (forall x, x ∈ rows w ->
     UserFileRecord.id (f x) = UserFileRecord.id x /\
     UserFileRecord.file_path (f x) = UserFileRecord.file_path x) ->
  ledger_ok w -> ledger_ok w'.
Proof.
  intros Hrows Hpk Hkeep (Hpaths & Hids & Hlt & Hpos). unfold ledger_ok.
  rewrite Hrows, Hpk, !map_map.
  rewrite (map_ext_in (fun x => UserFileRecord.file_path (f x))
             UserFileRecord.file_path).
  2:{ intros x Hx. apply list_elem_of_In in Hx. now apply Hkeep. }
  rewrite (map_ext_in (fun x => UserFileRecord.id (f x)) UserFileRecord.id).
  2:{ intros x Hx. apply list_elem_of_In in Hx. now apply Hkeep. }
  split_and!; [assumption | assumption | | assumption].
  rewrite Forall_forall in *. intros y Hy.
  apply list_elem_of_In, in_map_iff in Hy as [x [<- Hx]].
  apply list_elem_of_In in Hx.
  destruct (Hkeep x Hx) as [-> _]. now apply Hlt.
Qed.

Lemma delete_view_keeps_order (request : DeleteRequest.t) (w : World) :
  ledger_ok w -> ledger_ok (fst (FileDeleteView_delete E request w)).
Proof.
  intros Hok.
  destruct (named_id E request) as [record_id |] eqn:Hid.
  2:{ apply named_id_None in Hid as [Hfalsy | (v & text & Hv & Htruth & Hkey)].
      - now rewrite delete_view_falsy.
      - now rewrite (delete_view_unreadable request w v text). }
  destruct (filter_id_user_first record_id (DeleteRequest.user request) w)
    as [r |] eqn:Hfound.
  2:{ now rewrite (delete_view_absent request w record_id). }
  rewrite (delete_view_found request w record_id r Hid Hfound).
  apply filter_id_user_first_Some in Hfound as (Hin & _).
  destruct (s3_fault E (length (trace w))) as [e |]; [exact Hok |].
  destruct (db_fault E (S (length (trace w)))) as [e |]; [exact Hok |].
  eapply ledger_ok_update; [reflexivity | reflexivity | | exact Hok].
  intros x Hx. cbv beta.
  destruct (UserFileRecord.id x =? UserFileRecord.id r) eqn:Heq; [| now split].
  apply Z.eqb_eq in Heq.
  assert (x = r) as -> by (eapply ledger_ok_id_inj; eassumption).
  now split.
Qed.

(** *** The list view *)

Lemma serialize_all_run (l : list UserFileRecord.t) :
  forall w, exists w' items,
    serialize_all E l w = (w', Returned items) /\
    same_data w w' /\ Forall2 shows l items.
Proof.
  induction l as [| r l IH]; intros w; simpl.
  - exists w, []. split_and!; [reflexivity | done | constructor].
  - unfold bind, serialize, is_expired, datetime_now, ret.
    destruct (UserFileRecord.expires_at r) as [t |]; simpl.
    + destruct (IH (set_clock_reads (S (clock_reads w)) w))
        as (w' & items & Hrun & Hsame & Hall).
      rewrite Hrun. eexists _, _. split_and!; [reflexivity | exact Hsame |].
      constructor; [now split | exact Hall].
    + destruct (IH w) as (w' & items & Hrun & Hsame & Hall).
      rewrite Hrun. eexists _, _. split_and!; [reflexivity | exact Hsame |].
      constructor; [now split | exact Hall].
Qed.

(** The rows that a listing draws from are live rows of the requester. *)
Lemma list_queryset_live (request : ListRequest.t) (w : World) (r : UserFileRecord.t) :
  In r (list_queryset request w) ->
  r ∈ rows w /\ UserFileRecord.is_deleted r = false /\
  UserFileRecord.user r = ListRequest.user request.
Proof.
  unfold list_queryset, get_queryset. intros H.
  assert (Hbase : In r (List.filter
              (fun r => UserFileRecord.user r =? ListRequest.user request)
              (List.filter (fun r => negb (UserFileRecord.is_deleted r)) (rows w)))).
  { destruct (Py.truthy (ListRequest.file_type request));
      [apply filter_In in H as [H _] |];
      (destruct (Py.truthy (ListRequest.project_name request));
         [apply filter_In in H as [H _] |]); exact H. }
  apply filter_In in Hbase as [Hin Huser]. apply filter_In in Hin as [Hin Hlive].
  apply Z.eqb_eq in Huser. apply negb_true_iff in Hlive.
  apply list_elem_of_In in Hin. auto.
Qed.

(** The list view changes no data, and every file it lists shows a live
    row of the requester. *)
Lemma list_view_run (request : ListRequest.t) (w : World) :
  same_data w (fst (UserFileListView_get E request w)) /\
  forall item,
    item ∈ listed (snd (UserFileListView_get E request w)) ->
    exists r, r ∈ rows w /\ UserFileRecord.is_deleted r = false /\
              UserFileRecord.user r = ListRequest.user request /\
              shows r item.
Proof.
  unfold UserFileListView_get, run_view, UserFileListView_get_body, bind, get_page.
  destruct (default 20 (ListRequest.page_size request) <? 1).
  { simpl. split; [done |]. intros item Hitem. inversion Hitem. }
  unfold ret. cbv beta iota.
  match goal with
  | |- context [serialize_all E ?page ?w0] =>
      set (page_obj := page);
      destruct (serialize_all_run page_obj w0) as (w' & items & Hrun & Hsame & Hall)
  end.
  rewrite Hrun. simpl. split; [exact Hsame |].
  intros item Hitem. change (item ∈ items) in Hitem.
  apply list_elem_of_lookup in Hitem as [i Hi].
  destruct (Forall2_lookup_r _ _ _ _ _ Hall Hi) as (r & Hr & Hshows).
  exists r. apply list_elem_of_lookup_2 in Hr.
  apply subseteq_take, subseteq_drop in Hr.
  unfold ordered in Hr. rewrite merge_sort_Permutation in Hr.
  apply list_elem_of_In, list_queryset_live in Hr as (Hin & Hlive & Huser).
  auto.
Qed.

(** *** Every reachable ledger is in order *)

Lemma reachable_ledger_ok (w : World) : reachable config E w -> ledger_ok w.
Proof.
  induction 1 as [w Hempty Hpos | request w _ IH | request w _ IH
                  | request w _ IH | request w _ IH].
  - unfold ledger_ok. rewrite Hempty. simpl.
    split_and!; [constructor .. | exact Hpos].
  - now apply (upload_view_grows request w).
  - now apply (batch_view_grows request w).
  - now apply delete_view_keeps_order.
  - destruct (list_view_run request w) as [(Hrows & Hpk & _) _].
    unfold ledger_ok. now rewrite Hrows, Hpk.
Qed.

End ProgramFacts.

(** What the insert does, case by case. *)
Lemma objects_create_run (E : Env) (u : Z) (fn fp fu : string) (fs : N)
    (ct pn ft d : string) (w : World) :
  let w0 := log_event (DbInsert fp)
              (set_clock_reads (S (S (S (clock_reads w))))
                 (set_uuid_draws (S (uuid_draws w)) w)) in
  objects_create E u fn fp fu fs ct pn ft d w =
  match db_fault E (length (trace w)) with
  | Some e => (w0, Raised e)
  | None =>
      if path_taken fp w then
        (w0, Raised (IntegrityError (unique_violation E "file_path")))
      else if uuid_taken (uuid4 E (uuid_draws w)) w then
        (w0, Raised (IntegrityError (unique_violation E "uuid")))
      else
        (set_next_pk (next_pk w + 1)
           (set_rows (rows w ++ [new_record E u fn fp fu fs ct pn ft d w]) w0),
         Returned (new_record E u fn fp fu fs ct pn ft d w))
  end.
Proof.
  unfold objects_create, bind, datetime_now, uuid_uuid4, path_taken, uuid_taken,
    new_record.
  simpl.
  destruct (db_fault E (length (trace w))); [reflexivity |].
  destruct (existsb _ (rows w)); [reflexivity |].
  destruct (existsb _ (rows w)); reflexivity.
Qed.

(** * The claims *)

(** ** Validation *)

(** C8.  A file whose name has no extension ([os.path.splitext] yields the
    empty extension) passes validation whenever its size and MIME type
    pass, and the outcome of validation does not depend on the extension
    allow-list at all: the list is consulted only for a non-empty
    extension. *)
Theorem validate_file_without_extension
    (config : FILE_UPLOAD_CONFIG) (f : UploadedFile.t) :
  snd (Py.splitext (UploadedFile.name f)) = "" ->
  ((UploadedFile.size f <= MAX_FILE_SIZE config)%N ->
   UploadedFile.content_type f ∈ flatten_values (ALLOWED_TYPES config) ->
   validate_file config f = (true, None)) /\
  (forall exts,
     validate_file (with_extensions exts config) f = validate_file config f).
Proof.
  intros Hext. unfold validate_file. rewrite Hext.
  change (Py.lower "") with "". cbn [Py.truthy andb]. split.
  - intros Hsize Hmime. apply N.ltb_ge in Hsize. rewrite Hsize.
    apply str_in_true in Hmime. now rewrite Hmime.
  - intros exts. reflexivity.
Qed.

Lemma validate_file_without_extension_witness :
  (validate_file Demo.config Demo.notes = (true, None)) /\
  (forall exts,
     validate_file (with_extensions exts Demo.config) Demo.notes
     = validate_file Demo.config Demo.notes).
Proof.
  destruct (validate_file_without_extension Demo.config Demo.notes eq_refl)
    as [Hpass Hany].
  split; [| exact Hany].
  apply Hpass; [vm_compute; discriminate |].
  vm_compute. apply list_elem_of_In. simpl. tauto.
Defined.

(** C5 (as amended).  A file larger than the configured maximum is rejected
    with the message [文件 <name> 大小 <size>MB 超过限制 <limit>MB], where
    <size> is the size in megabytes printed with two decimals, within half
    a hundredth of the quotient, and <limit> is the [repr] of the float
    [MAX_FILE_SIZE / (1024 * 1024)], printed without rounding.  Below
    [2^53] bytes the quotient is that of the exact size. *)
Theorem validate_file_oversized
    (config : FILE_UPLOAD_CONFIG) (f : UploadedFile.t) :
  (MAX_FILE_SIZE config < UploadedFile.size f)%N ->
  exists q,
    validate_file config f =
      (false,
       Some ("文件 " +:+ UploadedFile.name f +:+ " 大小 " +:+ Float.fixed2 q +:+
             "MB 超过限制 " +:+ Float.repr (Float.div_MiB (MAX_FILE_SIZE config)) +:+
             "MB")) /\
    2 * Z.abs (q * Float.MiB - 100 * Float.div_MiB (UploadedFile.size f)) <= Float.MiB /\
    ((UploadedFile.size f < 2 ^ 53)%N ->
     Float.div_MiB (UploadedFile.size f) = Z.of_N (UploadedFile.size f)).
Proof.
  intros Hbig.
  exists (Float.hundredths (Float.div_MiB (UploadedFile.size f))).
  split_and!.
  - now apply validate_file_oversized_eq.
  - apply hundredths_nearest.
  - apply div_MiB_exact.
Qed.

Lemma validate_file_oversized_witness :
  exists q,
    validate_file Demo.config Demo.big =
      (false,
       Some ("文件 " +:+ UploadedFile.name Demo.big +:+ " 大小 " +:+ Float.fixed2 q +:+
             "MB 超过限制 " +:+
             Float.repr (Float.div_MiB (MAX_FILE_SIZE Demo.config)) +:+ "MB")) /\
    2 * Z.abs (q * Float.MiB - 100 * Float.div_MiB (UploadedFile.size Demo.big))
      <= Float.MiB /\
    ((UploadedFile.size Demo.big < 2 ^ 53)%N ->
     Float.div_MiB (UploadedFile.size Demo.big) = Z.of_N (UploadedFile.size Demo.big)).
Proof.
  apply (validate_file_oversized Demo.config Demo.big). vm_compute. reflexivity.
Defined.

(** C5, the claim as stated, fails: with a limit of 5 MiB the message for a
    10 MiB file is [文件 big.bin 大小 10.00MB 超过限制 5.0MB]; the limit is
    not printed with two decimals. *)
Lemma oversized_limit_not_rounded :
  (MAX_FILE_SIZE Demo.config < UploadedFile.size Demo.big)%N /\
  validate_file Demo.config Demo.big =
    (false, Some "文件 big.bin 大小 10.00MB 超过限制 5.0MB") /\
  ~ cites_both_rounded Demo.config Demo.big.
Proof.
  assert (Hrun : validate_file Demo.config Demo.big =
                 (false, Some "文件 big.bin 大小 10.00MB 超过限制 5.0MB"))
    by (vm_compute; reflexivity).
  split_and!.
  - vm_compute. reflexivity.
  - exact Hrun.
  - intros (msg & Hmsg & _ & Hlimit).
    rewrite Hrun in Hmsg. injection Hmsg as <-.
    vm_compute in Hlimit. discriminate Hlimit.
Qed.

(** ** Batch upload *)

(** C1.  A batch that passes the pre-checks is answered with a result whose
    counts add up: [total] is the number of submitted files, the two counts
    are the lengths of the two lists, and
    [success_count + failed_count = total], whatever the validator, the
    store and the ledger did with each file. *)
Theorem batch_counts_add_up
    (config : FILE_UPLOAD_CONFIG) (E : Env) (request : BatchRequest.t) (w : World) :
  batch_prechecks config request ->
  exists b msg,
    snd (FileBatchUploadView_post config E request w)
      = APIResponse.success (Some (BatchData b)) msg /\
    total b = length (BatchRequest.FILES_files request) /\
    success_count b = length (success_files b) /\
    failed_count b = length (failed_files b) /\
    (success_count b + failed_count b = total b)%nat.
Proof.
  intros Hpre.
  destruct (batch_view_run config E request w Hpre)
    as (w' & success_list & failed_list & msg & Hrun & Hlen & _).
  rewrite Hrun. eexists _, msg. split_and!; [reflexivity .. | exact Hlen].
Qed.

Lemma batch_counts_add_up_witness :
  exists b msg,
    snd (FileBatchUploadView_post Demo.config Demo.env
           (Demo.batch [Demo.cat; Demo.big; Demo.cat]) Demo.empty)
      = APIResponse.success (Some (BatchData b)) msg /\
    total b = length (BatchRequest.FILES_files
                        (Demo.batch [Demo.cat; Demo.big; Demo.cat])) /\
    success_count b = length (success_files b) /\
    failed_count b = length (failed_files b) /\
    (success_count b + failed_count b = total b)%nat.
Proof.
  apply (batch_counts_add_up Demo.config Demo.env
           (Demo.batch [Demo.cat; Demo.big; Demo.cat]) Demo.empty).
  unfold batch_prechecks. split_and!; [discriminate | reflexivity .. |].
  vm_compute. discriminate.
Defined.

(** In that batch the first file is stored, the second is too large, and
    the third collides with the first on its key. *)
Example batch_counts_demo :
  match data (snd (FileBatchUploadView_post Demo.config Demo.env
                     (Demo.batch [Demo.cat; Demo.big; Demo.cat]) Demo.empty)) with
  | Some (BatchData b) => (total b, success_count b, failed_count b)
  | _ => (0, 0, 0)%nat
  end = (3, 1, 2)%nat.
Proof. vm_compute. reflexivity. Qed.

(** One turn of the loop adds at most one failure entry, for the file of
    the turn and with its error. *)
Lemma batch_file_errors (config : FILE_UPLOAD_CONFIG) (E : Env) (u : Z)
    (pn ft d : string) (success_list : list Uploaded) (failed_list : list Failed)
    (f : UploadedFile.t) (w : World) :
  exists w' news newf,
    batch_file config E u pn ft d (success_list, failed_list) f w
      = (w', Returned ((success_list ++ news)%list, (failed_list ++ newf)%list)) /\
    (length news + length newf = 1)%nat /\
    Forall (reports_error config E [f]) newf /\
    (fst (validate_file config f) = false -> news = []).
Proof.
  assert (Hin : f ∈ [f]) by apply list_elem_of_here.
  unfold batch_file, try_except.
  destruct (validate_file config f) as [[|] error_msg] eqn:Hvalid; simpl.
  2:{ destruct (validate_file_message config f) as [[Hok _] | [_ [msg Hmsg]]];
        rewrite Hvalid in *; [discriminate Hok |].
      simpl in Hmsg. subst error_msg.
      exists w, [], [{| failed_name := UploadedFile.name f; error := Some msg |}].
      rewrite app_nil_r. split_and!; try reflexivity.
      constructor; [| constructor].
      exists f, msg. split_and!; try reflexivity; [exact Hin | now left]. }
  unfold bind. rewrite upload_file_run.
  destruct (s3_fault E (length (trace w))) as [e |] eqn:Hs3.
  { eexists _, [], [_]. rewrite app_nil_r.
    split_and!; try reflexivity; try discriminate.
    constructor; [| constructor].
    exists f, (str (wrap_ClientError "文件上传失败: " e)).
    split_and!; try reflexivity; [exact Hin |].
    right. split; [now rewrite Hvalid |]. left. eauto. }
  rewrite objects_create_run. simpl.
  destruct (db_fault E _) as [e |] eqn:Hdb;
    [| destruct (path_taken _ _); [| destruct (uuid_taken _ _)]].
  - eexists _, [], [_]. rewrite app_nil_r.
    split_and!; try reflexivity; try discriminate.
    constructor; [| constructor].
    exists f, (str e). split_and!; try reflexivity; [exact Hin |].
    right. split; [now rewrite Hvalid |]. right. left. eauto.
  - eexists _, [], [_]. rewrite app_nil_r.
    split_and!; try reflexivity; try discriminate.
    constructor; [| constructor].
    exists f, (unique_violation E "file_path").
    split_and!; try reflexivity; [exact Hin |].
    right. split; [now rewrite Hvalid |]. right. right. eauto.
  - eexists _, [], [_]. rewrite app_nil_r.
    split_and!; try reflexivity; try discriminate.
    constructor; [| constructor].
    exists f, (unique_violation E "uuid").
    split_and!; try reflexivity; [exact Hin |].
    right. split; [now rewrite Hvalid |]. right. right. eauto.
  - eexists _, [_], []. rewrite !app_nil_r.
    split_and!; try reflexivity; try discriminate. constructor.
Qed.

Lemma reports_error_more (config : FILE_UPLOAD_CONFIG) (E : Env)
    (files files' : list UploadedFile.t) (entry : Failed) :
  files ⊆ files' -> reports_error config E files entry ->
  reports_error config E files' entry.
Proof.
  intros Hsub (f & text & Hin & Hrest). exists f, text. split; [| exact Hrest].
  now apply Hsub.
Qed.

Lemma batch_loop_errors (config : FILE_UPLOAD_CONFIG) (E : Env) (u : Z)
    (pn ft d : string) (files : list UploadedFile.t) :
  forall (success_list : list Uploaded) (failed_list : list Failed) (w : World),
  exists w' news newf,
    batch_loop config E u pn ft d files (success_list, failed_list) w
      = (w', Returned ((success_list ++ news)%list, (failed_list ++ newf)%list)) /\
    (length news + length newf = length files)%nat /\
    Forall (reports_error config E files) newf /\
    (Forall (fun f => fst (validate_file config f) = false) files -> news = []).
Proof.
  induction files as [| f files IH]; intros success_list failed_list w;
    cbn [batch_loop].
  - exists w, [], []. rewrite !app_nil_r.
    split_and!; [reflexivity | reflexivity | constructor | reflexivity].
  - destruct (batch_file_errors config E u pn ft d success_list failed_list f w)
      as (w1 & news1 & newf1 & Hrun1 & Hone & Herr1 & Hinv1).
    destruct (IH (success_list ++ news1)%list (failed_list ++ newf1)%list w1)
      as (w2 & news2 & newf2 & Hrun2 & Hlen & Herr2 & Hinv2).
    exists w2, (news1 ++ news2)%list, (newf1 ++ newf2)%list.
    unfold bind. rewrite Hrun1, Hrun2, !app_assoc.
    split_and!.
    + reflexivity.
    + rewrite !length_app. simpl. lia.
    + apply Forall_app. split.
      * eapply Forall_impl; [exact Herr1 |]. intros entry.
        apply reports_error_more. intros x Hx.
        apply list_elem_of_singleton in Hx as ->. apply list_elem_of_here.
      * eapply Forall_impl; [exact Herr2 |]. intros entry.
        apply reports_error_more. intros x Hx. now apply list_elem_of_further.
    + intros Hall. apply Forall_cons in Hall as [Hf Hrest].
      now rewrite (Hinv1 Hf), (Hinv2 Hrest).
Qed.

(** Past the pre-checks the view answers 200 with what the loop built and
    with the message of the counts. *)
Lemma batch_view_answer (config : FILE_UPLOAD_CONFIG) (E : Env)
    (request : BatchRequest.t) (w w' : World)
    (success_list : list Uploaded) (failed_list : list Failed) :
  batch_prechecks config request ->
  batch_loop config E (BatchRequest.user request)
    (Py.get_default (BatchRequest.project_name request) "")
    (Py.get_default (BatchRequest.file_type request) "")
    (Py.get_default (BatchRequest.description request) "")
    (BatchRequest.FILES_files request) ([], []) w
    = (w', Returned (success_list, failed_list)) ->
  let b := {| total := length (BatchRequest.FILES_files request);
              success_count := length success_list;
              failed_count := length failed_list;
              success_files := success_list;
              failed_files := failed_list |} in
  FileBatchUploadView_post config E request w
  = (w', {| status := 200; code := 200; message := batch_message b;
            data := Some (BatchData b) |}).
Proof.
  intros (Hfiles & Hpn & Hft & Hcount) Hrun b. subst b.
  unfold FileBatchUploadView_post, run_view, FileBatchUploadView_post_body.
  destruct (BatchRequest.FILES_files request) as [| f files] eqn:Heq;
    [contradiction |].
  rewrite Hpn, Hft. apply Z.ltb_ge in Hcount. rewrite Hcount.
  unfold bind. guards. rewrite Hrun. unfold ret, batch_message.
  now destruct failed_list.
Qed.

(** C9.  A batch that passes the pre-checks is answered with the success
    envelope, status and code 200, whatever becomes of its files.  The
    message of the envelope gives the counts only.  The errors are in the
    data: every entry of [failed_files] names one of the submitted files
    and carries its error, which is the message of [validate_file] for a
    file that it rejects, and otherwise the text of the exception of the
    store client or of the insert.  This is so when no file succeeded, in
    which case [success_count = 0], [failed_count = total], and there is
    one failure entry per file; and no file succeeds when every file fails
    validation. *)
Theorem batch_answers_success_envelope
    (config : FILE_UPLOAD_CONFIG) (E : Env) (request : BatchRequest.t) (w : World) :
  batch_prechecks config request ->
  exists b,
    snd (FileBatchUploadView_post config E request w)
      = {| status := 200; code := 200; message := batch_message b;
           data := Some (BatchData b) |} /\
    Forall (reports_error config E (BatchRequest.FILES_files request))
      (failed_files b) /\
    (success_files b = [] ->
     success_count b = 0%nat /\ failed_count b = total b /\
     length (failed_files b) = length (BatchRequest.FILES_files request)) /\
    (Forall (fun f => fst (validate_file config f) = false)
       (BatchRequest.FILES_files request) ->
     success_files b = []).
Proof.
  intros Hpre.
  destruct (batch_loop_errors config E (BatchRequest.user request)
              (Py.get_default (BatchRequest.project_name request) "")
              (Py.get_default (BatchRequest.file_type request) "")
              (Py.get_default (BatchRequest.description request) "")
              (BatchRequest.FILES_files request) [] [] w)
    as (w' & success_list & failed_list & Hrun & Hlen & Herr & Hinv).
  simpl in Hrun.
  rewrite (batch_view_answer config E request w w' success_list failed_list Hpre Hrun).
  eexists. split; [reflexivity |]. simpl. split_and!.
  - exact Herr.
  - intros ->. simpl in Hlen. auto.
  - exact Hinv.
Qed.

Lemma batch_answers_success_envelope_witness :
  exists b,
    snd (FileBatchUploadView_post Demo.config Demo.env_store_down
           (Demo.batch [Demo.cat; Demo.big]) Demo.empty)
      = {| status := 200; code := 200; message := batch_message b;
           data := Some (BatchData b) |} /\
    Forall (reports_error Demo.config Demo.env_store_down
              (BatchRequest.FILES_files (Demo.batch [Demo.cat; Demo.big])))
      (failed_files b) /\
    (success_files b = [] ->
     success_count b = 0%nat /\ failed_count b = total b /\
     length (failed_files b)
     = length (BatchRequest.FILES_files (Demo.batch [Demo.cat; Demo.big]))) /\
    (Forall (fun f => fst (validate_file Demo.config f) = false)
       (BatchRequest.FILES_files (Demo.batch [Demo.cat; Demo.big])) ->
     success_files b = []).
Proof.
  apply (batch_answers_success_envelope Demo.config Demo.env_store_down
           (Demo.batch [Demo.cat; Demo.big]) Demo.empty).
  unfold batch_prechecks. split_and!; [discriminate | reflexivity .. |].
  vm_compute. discriminate.
Defined.

(** With the store down a valid file fails at the store and an oversized
    one at the validation; the answer is still 200, and each entry says
    why. *)
Example batch_errors_demo :
  snd (FileBatchUploadView_post Demo.config Demo.env_store_down
         (Demo.batch [Demo.cat; Demo.big]) Demo.empty)
  = {| status := 200; code := 200;
       message := "部分上传成功：0/2";
       data := Some (BatchData
         {| total := 2; success_count := 0; failed_count := 2;
            success_files := [];
            failed_files :=
              [ {| failed_name := "cat.jpg";
                   error := Some "文件上传失败: An error occurred (503)" |};
                {| failed_name := "big.bin";
                   error := Some "文件 big.bin 大小 10.00MB 超过限制 5.0MB" |} ] |}) |}.
Proof. vm_compute. reflexivity. Qed.

(** With the store down both files fail, and the answer is still 200. *)
Example batch_all_failed_demo :
  snd (FileBatchUploadView_post Demo.config Demo.env_store_down
         (Demo.batch [Demo.cat; Demo.cat]) Demo.empty)
  = {| status := 200; code := 200;
       message := "部分上传成功：0/2";
       data := Some (BatchData
         {| total := 2; success_count := 0; failed_count := 2;
            success_files := [];
            failed_files :=
              [ {| failed_name := "cat.jpg";
                   error := Some "文件上传失败: An error occurred (503)" |};
                {| failed_name := "cat.jpg";
                   error := Some "文件上传失败: An error occurred (503)" |} ] |}) |}.
Proof. vm_compute. reflexivity. Qed.

(** ** Rejections before any call *)

(** C4.  A single upload that fails validation (a missing file or field, or
    a file that [validate_file] rejects) and a batch that is turned down as
    a whole (in particular one with more files than [MAX_BATCH_COUNT]) are
    answered 400 with the world exactly as it was: no store call, no ledger
    call.  Inside a batch, a file that fails validation leaves the world as
    it was. *)
Theorem invalid_requests_touch_nothing
    (config : FILE_UPLOAD_CONFIG) (E : Env) (w : World) :
  (forall request,
     upload_invalid config request ->
     fst (FileUploadView_post config E request w) = w /\
     status (snd (FileUploadView_post config E request w)) = 400) /\
  (forall request,
     batch_rejected config request ->
     fst (FileBatchUploadView_post config E request w) = w /\
     status (snd (FileBatchUploadView_post config E request w)) = 400) /\
  (forall user project_name file_type description lists file_obj,
     fst (validate_file config file_obj) = false ->
     fst (batch_file config E user project_name file_type description
            lists file_obj w) = w).
Proof.
  split_and!.
  - intros request Hinv.
    destruct (upload_view_rejects config E request w Hinv) as [msg ->]. now split.
  - intros request Hrej.
    destruct (batch_view_rejects config E request w Hrej) as [msg ->]. now split.
  - intros u pn ft d lists f Hbad.
    destruct (batch_file_run config E u pn ft d lists f w)
      as (w' & lists' & -> & _ & _ & Hsame).
    now destruct (Hsame Hbad).
Qed.

Lemma invalid_requests_touch_nothing_witness :
  (fst (FileUploadView_post Demo.config Demo.env (Demo.upload [Demo.big]) Demo.one_file)
   = Demo.one_file /\
   status (snd (FileUploadView_post Demo.config Demo.env (Demo.upload [Demo.big])
                  Demo.one_file)) = 400) /\
  (fst (FileBatchUploadView_post Demo.config Demo.env
          (Demo.batch [Demo.cat; Demo.cat; Demo.cat; Demo.cat]) Demo.one_file)
   = Demo.one_file /\
   status (snd (FileBatchUploadView_post Demo.config Demo.env
                  (Demo.batch [Demo.cat; Demo.cat; Demo.cat; Demo.cat])
                  Demo.one_file)) = 400).
Proof.
  destruct (invalid_requests_touch_nothing Demo.config Demo.env Demo.one_file)
    as (Hone & Hbatch & _).
  split.
  - apply Hone. right. right. right. exists Demo.big.
    split; vm_compute; reflexivity.
  - apply Hbatch. right. right. right. vm_compute. reflexivity.
Defined.

(** C10.  A single-file upload request with more than one file under
    [file] is answered 400 with the message that points to the batch
    endpoint; the world is exactly as it was, so neither validation
    results nor store or ledger calls are involved. *)
Theorem upload_many_files_rejected
    (config : FILE_UPLOAD_CONFIG) (E : Env) (request : UploadRequest.t) (w : World) :
  (1 < length (UploadRequest.FILES_file request))%nat ->
  FileUploadView_post config E request w =
  (w, APIResponse.error
        "单文件上传接口只能上传一个文件，请使用批量上传接口 /upload/batch/" 400 400).
Proof.
  intros Hmany.
  unfold FileUploadView_post, run_view, FileUploadView_post_body, ret, FILES_get.
  destruct (last (UploadRequest.FILES_file request)) as [f |] eqn:Hlast.
  - apply Nat.ltb_lt in Hmany. now rewrite Hmany.
  - apply last_None in Hlast. rewrite Hlast in Hmany. simpl in Hmany. lia.
Qed.

Lemma upload_many_files_rejected_witness :
  FileUploadView_post Demo.config Demo.env (Demo.upload [Demo.cat; Demo.big]) Demo.empty =
  (Demo.empty,
   APIResponse.error
     "单文件上传接口只能上传一个文件，请使用批量上传接口 /upload/batch/" 400 400).
Proof.
  apply (upload_many_files_rejected Demo.config Demo.env
           (Demo.upload [Demo.cat; Demo.big]) Demo.empty).
  simpl. lia.
Defined.

(** ** A key that is already taken *)

(** C2 (as amended).  When a single upload passes every check, its store
    write succeeds and the generated key is already the path of a row, the
    insert fails on the uniqueness of [file_path] and nothing is tried
    again: the view made exactly one store write and one insert, the object
    under that key is the newly written one, the ledger is as before, and
    the failure is surfaced as the 500 envelope [上传失败: <error>]. *)
Theorem upload_collision_surfaces
    (config : FILE_UPLOAD_CONFIG) (E : Env) (request : UploadRequest.t)
    (f : UploadedFile.t) (w : World) :
  upload_collides config E request f w ->
  let key := request_key E request f w in
  let w' := fst (FileUploadView_post config E request w) in
  snd (FileUploadView_post config E request w)
    = APIResponse.error ("上传失败: " +:+ unique_violation E "file_path") 500 500 /\
  new_events w w' = [S3Put key; DbInsert key] /\
  rows w' = rows w /\
  (exists meta,
     bucket w' !! key = Some {| Body := UploadedFile.body f;
                                ContentType := UploadedFile.content_type f;
                                Metadata := meta |}).
Proof.
  intros (Hfiles & Hpn & Hft & Hvalid & Hs3 & Hdb & Htaken) key w'.
  subst w'. unfold FileUploadView_post, run_view, FileUploadView_post_body.
  rewrite Hfiles, Hpn, Hft.
  change (FILES_get [f]) with (Some f).
  change (1 <? length [f])%nat with false. guards.
  destruct (validate_file config f) as [is_valid error_msg].
  simpl in Hvalid. subst is_valid. guards.
  unfold bind. rewrite upload_file_run, Hs3. fold (request_key E request f w).
  fold key. cbv beta iota zeta.
  rewrite objects_create_collision.
  - unfold new_events. simpl. split_and!.
    + reflexivity.
    + rewrite <- app_assoc. now rewrite drop_app_length.
    + reflexivity.
    + eexists. apply lookup_insert_eq.
  - simpl. rewrite length_app. simpl. now rewrite Nat.add_1_r.
  - exact Htaken.
Qed.

Lemma upload_collision_surfaces_witness :
  let key := request_key Demo.env (Demo.upload [Demo.cat]) Demo.cat Demo.one_file in
  let w' := fst (FileUploadView_post Demo.config Demo.env (Demo.upload [Demo.cat])
                   Demo.one_file) in
  snd (FileUploadView_post Demo.config Demo.env (Demo.upload [Demo.cat]) Demo.one_file)
    = APIResponse.error ("上传失败: " +:+ unique_violation Demo.env "file_path") 500 500 /\
  new_events Demo.one_file w' = [S3Put key; DbInsert key] /\
  rows w' = rows Demo.one_file /\
  (exists meta,
     bucket w' !! key = Some {| Body := UploadedFile.body Demo.cat;
                                ContentType := UploadedFile.content_type Demo.cat;
                                Metadata := meta |}).
Proof.
  apply (upload_collision_surfaces Demo.config Demo.env (Demo.upload [Demo.cat])
           Demo.cat Demo.one_file).
  unfold upload_collides. split_and!; vm_compute; reflexivity.
Defined.

(** C2, the claim as stated, fails: a second upload of [cat.jpg] within the
    same second, with the same UUID prefix, collides with the first, and
    the store is written under no other key. *)
Lemma upload_collision_not_retried :
  upload_collides Demo.config Demo.env (Demo.upload [Demo.cat]) Demo.cat Demo.one_file /\
  ~ retried_with_fresh_key
      (request_key Demo.env (Demo.upload [Demo.cat]) Demo.cat Demo.one_file)
      Demo.one_file
      (fst (FileUploadView_post Demo.config Demo.env (Demo.upload [Demo.cat])
              Demo.one_file)).
Proof.
  split.
  - unfold upload_collides. split_and!; vm_compute; reflexivity.
  - intros (key' & Hfresh & Hput).
    assert (Hevents :
      new_events Demo.one_file
        (fst (FileUploadView_post Demo.config Demo.env (Demo.upload [Demo.cat])
                Demo.one_file))
      = [S3Put (request_key Demo.env (Demo.upload [Demo.cat]) Demo.cat Demo.one_file);
         DbInsert (request_key Demo.env (Demo.upload [Demo.cat]) Demo.cat Demo.one_file)])
      by (vm_compute; reflexivity).
    rewrite Hevents in Hput.
    apply list_elem_of_In in Hput. simpl in Hput.
    destruct Hput as [Heq | [Heq | []]].
    + injection Heq as Heq. congruence.
    + discriminate Heq.
Qed.

(** ** Delete *)

(** C3.  Deleting an owned record that is not yet deleted, which the
    request names by a truthy id (the number of the record, or a text
    that reads as it): the first call
    that the view makes is the store deletion of the record's path.  If it
    raises, that is the only call, the ledger and the bucket are as before
    (the row keeps [is_deleted = false] and no [deleted_at]) and the
    failure is surfaced as the 500 envelope [删除失败: <error>].  Only
    after the store deletion succeeded is the row updated: it is then
    marked deleted with the time of the deletion, unless the update itself
    fails, which leaves the rows as they were and is surfaced as 500. *)
Theorem delete_store_first
    (E : Env) (request : DeleteRequest.t) (w : World)
    (record_id : Z) (r : UserFileRecord.t) :
  named_id E request = Some record_id ->
  filter_id_user_first record_id (DeleteRequest.user request) w = Some r ->
  let w' := fst (FileDeleteView_delete E request w) in
  let response := snd (FileDeleteView_delete E request w) in
  let path := UserFileRecord.file_path r in
  match s3_fault E (length (trace w)) with
  | Some e =>
      new_events w w' = [S3Delete path] /\
      rows w' = rows w /\ bucket w' = bucket w /\
      response = APIResponse.error
                   ("删除失败: " +:+ str (wrap_ClientError "文件删除失败: " e)) 500 500
  | None =>
      new_events w w' = [S3Delete path; DbUpdate (UserFileRecord.id r)] /\
      bucket w' = delete path (bucket w) /\
      match db_fault E (S (length (trace w))) with
      | Some e =>
          rows w' = rows w /\
          response = APIResponse.error ("删除失败: " +:+ str e) 500 500
      | None =>
          rows w' = map (fun x => if UserFileRecord.id x =? UserFileRecord.id r
                                  then soft_deleted E r w else x) (rows w) /\
          UserFileRecord.is_deleted (soft_deleted E r w) = true /\
          UserFileRecord.deleted_at (soft_deleted E r w)
            = Some (now E (clock_reads w)) /\
          response = APIResponse.success None "删除成功"
      end
  end.
Proof.
  intros Hid Hfound w' response path. subst w' response.
  rewrite (delete_view_found E request w record_id r Hid Hfound). fold path.
  unfold new_events.
  destruct (s3_fault E (length (trace w))) as [e |].
  - simpl. rewrite drop_app_length. split_and!; reflexivity.
  - destruct (db_fault E (S (length (trace w)))) as [e |]; simpl;
      rewrite <- app_assoc, drop_app_length; split_and!; reflexivity.
Qed.

Lemma delete_store_first_witness :
  let w' := fst (FileDeleteView_delete Demo.env_store_down (Demo.delete_by 7 1)
                   Demo.one_file) in
  let response := snd (FileDeleteView_delete Demo.env_store_down (Demo.delete_by 7 1)
                         Demo.one_file) in
  let path := UserFileRecord.file_path Demo.cat_row in
  new_events Demo.one_file w' = [S3Delete path] /\
  rows w' = rows Demo.one_file /\ bucket w' = bucket Demo.one_file /\
  response = APIResponse.error
               ("删除失败: " +:+
                str (wrap_ClientError "文件删除失败: "
                       (ClientError "An error occurred (503)"))) 500 500.
Proof.
  apply (delete_store_first Demo.env_store_down (Demo.delete_by 7 1)
           Demo.one_file 1 Demo.cat_row).
  - reflexivity.
  - vm_compute. reflexivity.
Defined.

(** With a working store and database the same request deletes the object
    and marks the row. *)
Example delete_demo :
  FileDeleteView_delete Demo.env (Demo.delete_by 7 1) Demo.one_file
  = (Demo.one_deleted, APIResponse.success None "删除成功") /\
  rows Demo.one_deleted = [Demo.cat_row_deleted] /\
  bucket Demo.one_deleted = ∅ /\
  new_events Demo.one_file Demo.one_deleted
  = [S3Delete "user_avatar/images/20231114_221320_deadbeef_cat.jpg"; DbUpdate 1].
Proof. split_and!; vm_compute; reflexivity. Qed.

(** C6 (as amended).  A delete request whose id is truthy (a number other
    than [0], or a text that is not empty and reads as a number, the text
    ["0"] included) and names a record id for which no live row of the
    requester exists, because there is no
    row with that id, or the row is soft-deleted, or it belongs to another
    user, is answered in all three cases with the same 404 envelope
    [文件不存在或无权限删除]; the world is exactly as it was: no store call
    and no ledger change. *)
Theorem delete_unknown_not_found
    (E : Env) (request : DeleteRequest.t) (w : World) (record_id : Z) :
  named_id E request = Some record_id ->
  (forall r, r ∈ rows w -> UserFileRecord.id r = record_id ->
             UserFileRecord.is_deleted r = true \/
             UserFileRecord.user r <> DeleteRequest.user request) ->
  FileDeleteView_delete E request w =
  (w, APIResponse.error "文件不存在或无权限删除" 404 404).
Proof.
  intros Hid Habsent.
  apply (delete_view_absent E request w record_id Hid).
  exact (filter_id_user_first_None record_id _ w Habsent).
Qed.

Lemma delete_unknown_not_found_witness :
  FileDeleteView_delete Demo.env (Demo.delete_by 8 1) Demo.one_file =
  (Demo.one_file, APIResponse.error "文件不存在或无权限删除" 404 404).
Proof.
  apply (delete_unknown_not_found Demo.env (Demo.delete_by 8 1) Demo.one_file 1 eq_refl).
  assert (Hrows : rows Demo.one_file = [Demo.cat_row]) by (vm_compute; reflexivity).
  intros r Hin _. rewrite Hrows in Hin.
  apply list_elem_of_singleton in Hin. subst r. right. discriminate.
Defined.

(** C6, the claim as stated, fails for the number [0]: no row has that id,
    and the request is answered 400, as if the id were missing. *)
Lemma delete_id_zero_bad_request :
  FileDeleteView_delete Demo.env (Demo.delete_by 7 0) Demo.one_file
  = (Demo.one_file, APIResponse.error "缺少文件记录ID" 400 400) /\
  ~ absent_is_not_found Demo.env (Demo.delete_by 7 0) Demo.one_file 0.
Proof.
  assert (Hrun : FileDeleteView_delete Demo.env (Demo.delete_by 7 0) Demo.one_file
                 = (Demo.one_file, APIResponse.error "缺少文件记录ID" 400 400))
    by reflexivity.
  split; [exact Hrun |].
  intros Hclaim. unfold absent_is_not_found in Hclaim. rewrite Hrun in Hclaim.
  assert (Hrows : rows Demo.one_file = [Demo.cat_row]) by (vm_compute; reflexivity).
  assert (H404 : status (APIResponse.error "缺少文件记录ID" 400 400) = 404).
  { apply Hclaim; [now exists (DeleteRequest.Number 0) |].
    intros r Hin Hzero. rewrite Hrows in Hin.
    apply list_elem_of_singleton in Hin. subst r. discriminate Hzero. }
  discriminate H404.
Qed.

(** The three cases receive the same answer: a row of another user, a row
    that is already deleted, and an id that no row has. *)
Example delete_not_found_demo :
  snd (FileDeleteView_delete Demo.env (Demo.delete_by 8 1) Demo.one_file)
  = APIResponse.error "文件不存在或无权限删除" 404 404 /\
  snd (FileDeleteView_delete Demo.env (Demo.delete_by 7 1) Demo.one_deleted)
  = APIResponse.error "文件不存在或无权限删除" 404 404 /\
  snd (FileDeleteView_delete Demo.env (Demo.delete_by 7 5) Demo.one_file)
  = APIResponse.error "文件不存在或无权限删除" 404 404.
Proof. split_and!; vm_compute; reflexivity. Qed.

(** An id that arrives as text, as in a form body.  The text ["0"] is
    truthy: it reaches the lookup, which finds no row, and is answered 404
    where the number [0] is answered 400.  The empty text is falsy and is
    answered 400.  A text that is not a number stops the lookup, and the
    view answers 500 with the words of the exception.  The text of an
    existing id deletes the record as the number does.  None of the first
    three touches the store or the ledger. *)
Example delete_text_id_demo :
  FileDeleteView_delete Demo.env (Demo.delete_by_text 7 "0") Demo.one_file
  = (Demo.one_file, APIResponse.error "文件不存在或无权限删除" 404 404) /\
  FileDeleteView_delete Demo.env (Demo.delete_by 7 0) Demo.one_file
  = (Demo.one_file, APIResponse.error "缺少文件记录ID" 400 400) /\
  FileDeleteView_delete Demo.env (Demo.delete_by_text 7 "") Demo.one_file
  = (Demo.one_file, APIResponse.error "缺少文件记录ID" 400 400) /\
  FileDeleteView_delete Demo.env (Demo.delete_by_text 7 "abc") Demo.one_file
  = (Demo.one_file,
     APIResponse.error
       "删除失败: Field 'id' expected a number but got 'abc'." 500 500) /\
  FileDeleteView_delete Demo.env (Demo.delete_by_text 7 "1") Demo.one_file
  = FileDeleteView_delete Demo.env (Demo.delete_by 7 1) Demo.one_file.
Proof. split_and!; vm_compute; reflexivity. Qed.

(** ** Soft-deleted rows *)

(** C7.  In every world that the endpoints can reach, the paths of the
    rows, deleted or not, are pairwise distinct; and for a row that is
    soft-deleted: no file of any listing shows it (neither its id nor its
    path); an insert with its path always fails and adds no row; and after
    any single or batch upload the only row with its path is still that
    deleted row, so no upload creates a record with that path. *)
Theorem soft_deleted_hidden_and_reserved
    (config : FILE_UPLOAD_CONFIG) (E : Env) (w : World) (r : UserFileRecord.t) :
  reachable config E w -> r ∈ rows w -> UserFileRecord.is_deleted r = true ->
  NoDup (map UserFileRecord.file_path (rows w)) /\
  (forall request item,
     item ∈ listed (snd (UserFileListView_get E request w)) ->
     FileItem.id item <> UserFileRecord.id r /\
     FileItem.file_path item <> UserFileRecord.file_path r) /\
  (forall user file_name file_url file_size content_type project_name
          file_type description,
     exists w' e,
       objects_create E user file_name (UserFileRecord.file_path r) file_url
         file_size content_type project_name file_type description w
       = (w', Raised e) /\
       rows w' = rows w) /\
  (forall request r',
     r' ∈ rows (fst (FileUploadView_post config E request w)) ->
     UserFileRecord.file_path r' = UserFileRecord.file_path r -> r' = r) /\
  (forall request r',
     r' ∈ rows (fst (FileBatchUploadView_post config E request w)) ->
     UserFileRecord.file_path r' = UserFileRecord.file_path r -> r' = r).
Proof.
  intros Hreach Hin Hdel.
  pose proof (reachable_ledger_ok config E w Hreach) as Hok.
  assert (Hafter : forall w', ledger_grows w w' ->
            forall r', r' ∈ rows w' ->
              UserFileRecord.file_path r' = UserFileRecord.file_path r -> r' = r).
  { intros w' [Hok' [new Hnew]] r' Hr' Hpath.
    apply (ledger_ok_path_inj w'); [auto | | assumption..].
    rewrite Hnew. apply elem_of_app. now left. }
  split_and!.
  - apply Hok.
  - intros request item Hitem.
    destruct (list_view_run E request w) as [_ Hlist].
    destruct (Hlist item Hitem) as (r0 & Hr0 & Hlive & _ & Hid & Hpath).
    split; intros Heq.
    + assert (r0 = r) by (apply (ledger_ok_id_inj w); [assumption.. | congruence]).
      congruence.
    + assert (r0 = r) by (apply (ledger_ok_path_inj w); [assumption.. | congruence]).
      congruence.
  - intros u fn fu fs ct pn ft d.
    destruct (objects_create_cases E u fn (UserFileRecord.file_path r) fu fs ct pn ft d w)
      as [(e & w' & Hrun & Hrows & _) | (record & w' & _ & _ & _ & _ & _ & _ & _ & _ & _ & Hfree)].
    + now exists w', e.
    + assert (Htaken : path_taken (UserFileRecord.file_path r) w = true).
      { apply path_taken_spec. now apply list_elem_of_fmap_2. }
      congruence.
  - intros request. apply Hafter, upload_view_grows.
  - intros request. apply Hafter, batch_view_grows.
Qed.

Lemma soft_deleted_hidden_and_reserved_witness :
  NoDup (map UserFileRecord.file_path (rows Demo.one_deleted)) /\
  (forall request item,
     item ∈ listed (snd (UserFileListView_get Demo.env request Demo.one_deleted)) ->
     FileItem.id item <> UserFileRecord.id Demo.cat_row_deleted /\
     FileItem.file_path item <> UserFileRecord.file_path Demo.cat_row_deleted) /\
  (forall user file_name file_url file_size content_type project_name
          file_type description,
     exists w' e,
       objects_create Demo.env user file_name
         (UserFileRecord.file_path Demo.cat_row_deleted) file_url
         file_size content_type project_name file_type description Demo.one_deleted
       = (w', Raised e) /\
       rows w' = rows Demo.one_deleted) /\
  (forall request r',
     r' ∈ rows (fst (FileUploadView_post Demo.config Demo.env request Demo.one_deleted)) ->
     UserFileRecord.file_path r' = UserFileRecord.file_path Demo.cat_row_deleted ->
     r' = Demo.cat_row_deleted) /\
  (forall request r',
     r' ∈ rows (fst (FileBatchUploadView_post Demo.config Demo.env request
                       Demo.one_deleted)) ->
     UserFileRecord.file_path r' = UserFileRecord.file_path Demo.cat_row_deleted ->
     r' = Demo.cat_row_deleted).
Proof.
  apply (soft_deleted_hidden_and_reserved Demo.config Demo.env Demo.one_deleted
           Demo.cat_row_deleted).
  - apply reach_delete, reach_upload, reach_empty; reflexivity.
  - assert (Hrows : rows Demo.one_deleted = [Demo.cat_row_deleted])
      by (vm_compute; reflexivity).
    rewrite Hrows. apply list_elem_of_here.
  - reflexivity.
Defined.

(** After the deletion the listing of user 7 is empty, and a new upload of
    the same file under the same key is refused by the ledger. *)
Example soft_deleted_demo :
  listed (snd (UserFileListView_get Demo.env (Demo.list_all 7) Demo.one_file))
  <> [] /\
  listed (snd (UserFileListView_get Demo.env (Demo.list_all 7) Demo.one_deleted))
  = [] /\
  snd (FileUploadView_post Demo.config Demo.env (Demo.upload [Demo.cat]) Demo.one_deleted)
  = APIResponse.error
      "上传失败: UNIQUE constraint failed: user_file_record.file_path" 500 500.
Proof.
  split_and!; [vm_compute; discriminate | vm_compute; reflexivity ..].
Qed.

(** * Further properties *)

(** ** The validator *)

Lemma flatten_values_spec (d : list (string * list string)) (x : string) :
  x ∈ flatten_values d <-> some_category_lists d x.
Proof.
  unfold flatten_values, some_category_lists.
  rewrite list_elem_of_In, in_concat. split.
  - intros (l & Hl & Hx). apply in_map_iff in Hl as ([category l'] & <- & Hin).
    exists category, l'. split; now apply list_elem_of_In.
  - intros (category & l & Hin & Hx). exists l. split.
    + apply in_map_iff. exists (category, l). split; [reflexivity |].
      now apply list_elem_of_In.
    + now apply list_elem_of_In.
Qed.

Lemma rfind_from_found (c : ascii) (s : string) :
  forall i acc, 0 <= i ->
    Py.rfind_from c s i acc = acc \/
    (i <= Py.rfind_from c s i acc /\
     String.get (Z.to_nat (Py.rfind_from c s i acc - i)) s = Some c).
Proof.
  induction s as [| a s IH]; intros i acc Hi; simpl; [now left |].
  destruct (IH (i + 1) (if Ascii.eqb a c then i else acc) ltac:(lia))
    as [Heq | [Hle Hget]].
  - rewrite Heq. destruct (Ascii.eqb a c) eqn:Hac; [| now left].
    right. split; [lia |]. rewrite Z.sub_diag. simpl.
    apply Ascii.eqb_eq in Hac. now subst.
  - right. split; [lia |].
    set (r := Py.rfind_from c s (i + 1) (if Ascii.eqb a c then i else acc)) in *.
    replace (Z.to_nat (r - i)) with (S (Z.to_nat (r - (i + 1)))) by lia.
    exact Hget.
Qed.

Lemma substring_from_get (s : string) :
  forall n c, String.get n s = Some c ->
    exists t, substring n (String.length s - n) s = String c t.
Proof.
  induction s as [| a s IH]; intros n c Hget; [destruct n; discriminate |].
  destruct n as [| n]; simpl in *.
  - injection Hget as ->. eexists. reflexivity.
  - apply IH. exact Hget.
Qed.

(** The extension that [splitext] finds is empty or starts with a dot. *)
Lemma splitext_ext_dot (p : string) :
  snd (Py.splitext p) = "" \/ exists t, snd (Py.splitext p) = String "." t.
Proof.
  unfold Py.splitext, Py.rfind.
  destruct (_ && _) eqn:Hcond; [| now left]. right. simpl.
  apply andb_true_iff in Hcond as [Hlt _]. apply Z.ltb_lt in Hlt.
  pose proof (rfind_from_lower_bound "/" p 0 (-1) ltac:(lia) ltac:(lia)) as Hsep.
  destruct (rfind_from_found "." p 0 (-1) ltac:(lia)) as [Heq | [Hle Hget]]; [lia |].
  rewrite Z.sub_0_r in Hget. unfold Py.slice_from.
  now apply substring_from_get.
Qed.

(** A lower-cased extension is an entry that can be matched. *)
Lemma lower_ext_matchable (p : string) :
  Py.lower (snd (Py.splitext p)) <> "" ->
  matchable (Py.lower (snd (Py.splitext p))) = true.
Proof.
  intros Hne. unfold matchable. rewrite lower_AZ_lower, String.eqb_refl, andb_true_r.
  destruct (splitext_ext_dot p) as [Hempty | [t Ht]].
  - rewrite Hempty in Hne. now contradiction Hne.
  - rewrite Ht. destruct (lower_dot t) as [rest ->]. destruct rest; reflexivity.
Qed.

Lemma flatten_values_prune (d : list (string * list string)) :
  flatten_values (prune d) = List.filter matchable (flatten_values d).
Proof.
  unfold flatten_values, prune.
  induction d as [| [category l] d IH]; simpl; [reflexivity |].
  now rewrite List.filter_app, IH.
Qed.

(** X1.  [validate_file] accepts a file exactly when its size is at most
    [MAX_FILE_SIZE], some category of [ALLOWED_TYPES] lists its MIME type,
    and its name has no extension or some category of
    [ALLOWED_EXTENSIONS] lists the extension in lower case, as
    [str.lower()] writes it (letters of every script, not only [A] to
    [Z]).  The two categories need not be the same. *)
Theorem validate_file_accepts_iff (config : FILE_UPLOAD_CONFIG) (f : UploadedFile.t) :
  fst (validate_file config f) = true <->
  (UploadedFile.size f <= MAX_FILE_SIZE config)%N /\
  some_category_lists (ALLOWED_TYPES config) (UploadedFile.content_type f) /\
  (snd (Py.splitext (UploadedFile.name f)) = "" \/
   some_category_lists (ALLOWED_EXTENSIONS config)
     (Py.lower (snd (Py.splitext (UploadedFile.name f))))).
Proof.
  rewrite <- !flatten_values_spec. unfold validate_file.
  destruct (N.ltb_spec (MAX_FILE_SIZE config) (UploadedFile.size f)) as [Hbig | Hfit].
  { simpl. split; [discriminate | intros [H _]; lia]. }
  destruct (Py.str_in (UploadedFile.content_type f) _) eqn:Hmime; simpl.
  2:{ apply str_in_false in Hmime. split; [discriminate | intros (_ & H & _); contradiction]. }
  apply str_in_true in Hmime.
  destruct (Py.lower (snd (Py.splitext (UploadedFile.name f)))) as [| c ext] eqn:Hext.
  { simpl. apply (proj1 (lower_empty_iff _)) in Hext. split; auto. }
  assert (Hne : snd (Py.splitext (UploadedFile.name f)) <> "").
  { intros Hempty. rewrite Hempty in Hext. discriminate. }
  cbn [Py.truthy andb].
  destruct (Py.str_in (String c ext) _) eqn:Hin; simpl.
  - apply str_in_true in Hin. split; auto.
  - apply str_in_false in Hin. split; [discriminate |].
    intros (_ & _ & [H | H]); contradiction.
Qed.

(** The extension is lower-cased as a text, not byte by byte: [.É] is
    looked up as [.é], and a capital sigma at the end of a word becomes
    the final small sigma. *)
Example lower_demo :
  Py.lower ".JPG" = ".jpg" /\
  Py.lower ".É" = ".é" /\
  Py.lower ".ΟΔΟΣ" = ".οδος" /\
  fst (validate_file (with_extensions [("images", [".é"])] Demo.config)
         {| UploadedFile.name := "x.É"; UploadedFile.size := 1;
            UploadedFile.content_type := "image/jpeg";
            UploadedFile.body := "" |}) = true /\
  fst (validate_file (with_extensions [("images", [".É"])] Demo.config)
         {| UploadedFile.name := "x.É"; UploadedFile.size := 1;
            UploadedFile.content_type := "image/jpeg";
            UploadedFile.body := "" |}) = false.
Proof. split_and!; vm_compute; reflexivity. Qed.

(** X2.  An entry of [ALLOWED_EXTENSIONS] that does not start with a dot,
    or that contains one of the upper-case letters [A] to [Z], is never
    matched: the extension
    that is looked up starts with a dot and is lower-cased.  Removing all
    such entries changes the outcome of [validate_file] for no file. *)
Theorem validate_file_dead_entries (config : FILE_UPLOAD_CONFIG) (f : UploadedFile.t) :
  validate_file (with_extensions (prune (ALLOWED_EXTENSIONS config)) config) f
  = validate_file config f.
Proof.
  unfold validate_file. simpl.
  destruct (_ <? _)%N; [reflexivity |].
  destruct (negb _); [reflexivity |].
  destruct (Py.lower (snd (Py.splitext (UploadedFile.name f)))) as [| c ext] eqn:Hext;
    [reflexivity |].
  assert (Hm : matchable (String c ext) = true).
  { rewrite <- Hext. apply lower_ext_matchable. rewrite Hext. discriminate. }
  assert (Hsame : Py.str_in (String c ext) (flatten_values (prune (ALLOWED_EXTENSIONS config)))
                  = Py.str_in (String c ext) (flatten_values (ALLOWED_EXTENSIONS config))).
  { unfold Py.str_in. apply bool_decide_ext.
    rewrite flatten_values_prune, !list_elem_of_In, filter_In. tauto. }
  now rewrite Hsame.
Qed.

(** ** The store client *)

(** X3.  When the store accepts the write, [upload_file] returns the key
    [<project>/<type>/<timestamp>_<first 8 characters of the UUID>_<name>],
    where <name> is the custom name if one is given and the file's name
    otherwise; the URL it returns is [get_file_url] of that key; looking the
    key up in the bucket gives the file's bytes with its content type and
    the three metadata tags; every other key of the bucket and the ledger
    are as before. *)
Theorem upload_file_round_trip
    (E : Env) (f : UploadedFile.t) (pn ft : string) (cn : option string) (w : World) :
  s3_fault E (length (trace w)) = None ->
  exists w' result,
    upload_file E f pn ft cn w = (w', Returned result) /\
    UploadResult.original_name result = Py.or_else cn (UploadedFile.name f) /\
    UploadResult.file_name result
      = strftime E (now E (clock_reads w)) +:+ "_" +:+
        substring 0 8 (uuid4 E (uuid_draws w)) +:+ "_" +:+
        UploadResult.original_name result /\
    UploadResult.file_path result
      = pn +:+ "/" +:+ ft +:+ "/" +:+ UploadResult.file_name result /\
    UploadResult.url result = get_file_url E (UploadResult.file_path result) /\
    UploadResult.file_size result = UploadedFile.size f /\
    UploadResult.content_type result = UploadedFile.content_type f /\
    bucket w' !! UploadResult.file_path result = Some (stored_object E pn ft f w) /\
    (forall key, key <> UploadResult.file_path result ->
                 bucket w' !! key = bucket w !! key) /\
    rows w' = rows w /\ next_pk w' = next_pk w.
Proof.
  intros Hs3. rewrite upload_file_run, Hs3. eexists _, _.
  split; [reflexivity |]. simpl. unfold object_key, get_file_url, stored_object.
  split_and!; try reflexivity.
  - apply lookup_insert_eq.
  - intros key Hkey. now apply lookup_insert_ne.
Qed.

Lemma upload_file_round_trip_witness :
  exists w' result,
    upload_file Demo.env Demo.cat "user_avatar" "images" (Some "pet.jpg") Demo.empty
      = (w', Returned result) /\
    UploadResult.original_name result
      = Py.or_else (Some "pet.jpg") (UploadedFile.name Demo.cat) /\
    UploadResult.file_name result
      = strftime Demo.env (now Demo.env (clock_reads Demo.empty)) +:+ "_" +:+
        substring 0 8 (uuid4 Demo.env (uuid_draws Demo.empty)) +:+ "_" +:+
        UploadResult.original_name result /\
    UploadResult.file_path result
      = "user_avatar" +:+ "/" +:+ "images" +:+ "/" +:+ UploadResult.file_name result /\
    UploadResult.url result = get_file_url Demo.env (UploadResult.file_path result) /\
    UploadResult.file_size result = UploadedFile.size Demo.cat /\
    UploadResult.content_type result = UploadedFile.content_type Demo.cat /\
    bucket w' !! UploadResult.file_path result
      = Some (stored_object Demo.env "user_avatar" "images" Demo.cat Demo.empty) /\
    (forall key, key <> UploadResult.file_path result ->
                 bucket w' !! key = bucket Demo.empty !! key) /\
    rows w' = rows Demo.empty /\ next_pk w' = next_pk Demo.empty.
Proof.
  apply (upload_file_round_trip Demo.env Demo.cat "user_avatar" "images"
           (Some "pet.jpg") Demo.empty).
  reflexivity.
Defined.

(** X4.  When the store call fails, [upload_file] and [delete_file] make
    that one call and nothing else: the bucket, the ledger and the next key
    are as before.  A [ClientError] is raised again as an [Exception] whose
    text is the error's text behind [文件上传失败: ] or [文件删除失败: ]; an
    exception of another class passes through as it is. *)
Theorem store_client_failure
    (E : Env) (f : UploadedFile.t) (pn ft : string) (cn : option string)
    (key : string) (w : World) (e : Exc) :
  s3_fault E (length (trace w)) = Some e ->
  (exists w',
     upload_file E f pn ft cn w = (w', Raised (wrap_ClientError "文件上传失败: " e)) /\
     new_events w w' = [S3Put (object_key E pn ft cn f w)] /\
     bucket w' = bucket w /\ rows w' = rows w /\ next_pk w' = next_pk w) /\
  (exists w',
     delete_file E key w = (w', Raised (wrap_ClientError "文件删除失败: " e)) /\
     new_events w w' = [S3Delete key] /\
     bucket w' = bucket w /\ rows w' = rows w /\ next_pk w' = next_pk w).
Proof.
  intros Hs3. split.
  - rewrite upload_file_run, Hs3. eexists. split; [reflexivity |].
    unfold new_events. simpl. rewrite drop_app_length. split_and!; reflexivity.
  - rewrite delete_file_run, Hs3. eexists. split; [reflexivity |].
    unfold new_events. simpl. rewrite drop_app_length. split_and!; reflexivity.
Qed.

Lemma store_client_failure_witness :
  (exists w',
     upload_file Demo.env_store_down Demo.cat "user_avatar" "images" None Demo.one_file
       = (w', Raised (wrap_ClientError "文件上传失败: "
                        (ClientError "An error occurred (503)"))) /\
     new_events Demo.one_file w'
       = [S3Put (object_key Demo.env_store_down "user_avatar" "images" None Demo.cat
                   Demo.one_file)] /\
     bucket w' = bucket Demo.one_file /\ rows w' = rows Demo.one_file /\
     next_pk w' = next_pk Demo.one_file) /\
  (exists w',
     delete_file Demo.env_store_down "some/key" Demo.one_file
       = (w', Raised (wrap_ClientError "文件删除失败: "
                        (ClientError "An error occurred (503)"))) /\
     new_events Demo.one_file w' = [S3Delete "some/key"] /\
     bucket w' = bucket Demo.one_file /\ rows w' = rows Demo.one_file /\
     next_pk w' = next_pk Demo.one_file).
Proof.
  apply (store_client_failure Demo.env_store_down Demo.cat "user_avatar" "images" None
           "some/key" Demo.one_file (ClientError "An error occurred (503)")).
  reflexivity.
Defined.

(** X5.  Uploading a file and then deleting the returned path, both
    accepted by the store, leaves the bucket without that key and with
    every other key as before: when the key was free before the upload,
    the bucket is exactly what it was. *)
Theorem upload_then_delete_file
    (E : Env) (f : UploadedFile.t) (pn ft : string) (cn : option string) (w : World) :
  s3_fault E (length (trace w)) = None ->
  s3_fault E (S (length (trace w))) = None ->
  exists w1 result w2,
    upload_file E f pn ft cn w = (w1, Returned result) /\
    delete_file E (UploadResult.file_path result) w1 = (w2, Returned true) /\
    bucket w2 = delete (UploadResult.file_path result) (bucket w) /\
    (bucket w !! UploadResult.file_path result = None -> bucket w2 = bucket w) /\
    new_events w w2
      = [S3Put (UploadResult.file_path result); S3Delete (UploadResult.file_path result)].
Proof.
  intros Hput Hdel. rewrite upload_file_run, Hput. eexists _, _, _.
  split; [reflexivity |]. rewrite delete_file_run. simpl.
  rewrite length_app. simpl. rewrite Nat.add_1_r, Hdel.
  split; [reflexivity |]. simpl. split_and!.
  - apply delete_insert_eq.
  - intros Hfree. rewrite delete_insert_eq. now apply delete_id.
  - unfold new_events. simpl. now rewrite <- app_assoc, drop_app_length.
Qed.

Lemma upload_then_delete_file_witness :
  exists w1 result w2,
    upload_file Demo.env Demo.cat "user_avatar" "images" None Demo.empty
      = (w1, Returned result) /\
    delete_file Demo.env (UploadResult.file_path result) w1 = (w2, Returned true) /\
    bucket w2 = delete (UploadResult.file_path result) (bucket Demo.empty) /\
    (bucket Demo.empty !! UploadResult.file_path result = None ->
     bucket w2 = bucket Demo.empty) /\
    new_events Demo.empty w2
      = [S3Put (UploadResult.file_path result); S3Delete (UploadResult.file_path result)].
Proof.
  apply (upload_then_delete_file Demo.env Demo.cat "user_avatar" "images" None Demo.empty);
    reflexivity.
Defined.

(** ** The single upload *)

(** Past its guards the view is the store write followed by the insert. *)
Lemma upload_view_admitted (config : FILE_UPLOAD_CONFIG) (E : Env)
    (request : UploadRequest.t) (f : UploadedFile.t) (w : World) :
  upload_admitted config request f ->
  FileUploadView_post config E request w =
  match upload_file E f
          (Py.get_default (UploadRequest.project_name request) "")
          (Py.get_default (UploadRequest.file_type request) "")
          (or_None (UploadRequest.custom_name request)) w with
  | (w1, Raised e) => (w1, APIResponse.error ("上传失败: " +:+ str e) 500 500)
  | (w1, Returned ur) =>
      match objects_create E (UploadRequest.user request)
              (UploadResult.original_name ur) (UploadResult.file_path ur)
              (UploadResult.url ur) (UploadResult.file_size ur)
              (UploadResult.content_type ur)
              (Py.get_default (UploadRequest.project_name request) "")
              (Py.get_default (UploadRequest.file_type request) "")
              (Py.get_default (UploadRequest.description request) "") w1 with
      | (w2, Raised e) => (w2, APIResponse.error ("上传失败: " +:+ str e) 500 500)
      | (w2, Returned record) =>
          (w2, APIResponse.success
                 (Some (UploadData {| upload_result := ur;
                                      record_id := UserFileRecord.id record |}))
                 "上传成功")
      end
  end.
Proof.
  intros (Hfiles & Hpn & Hft & Hvalid).
  unfold FileUploadView_post, run_view, FileUploadView_post_body.
  rewrite Hfiles, Hpn, Hft.
  change (FILES_get [f]) with (Some f).
  change (1 <? length [f])%nat with false. guards.
  destruct (validate_file config f) as [is_valid error_msg].
  simpl in Hvalid. subst is_valid. guards.
  unfold bind.
  destruct (upload_file E f _ _ _ w) as [w1 [ur | e]]; [| reflexivity].
  destruct (objects_create E _ _ _ _ _ _ _ _ _ w1) as [w2 [record | e]]; reflexivity.
Qed.

(** X6.  A single upload that passes the guards, whose store write and
    insert succeed: the answer is the 200 envelope [上传成功] with the
    upload result and the id of the new record, which is the next primary
    key; the ledger gains exactly one row, live, owned by the requester,
    with the generated key as path, the URL of that key, and the file's
    name (or the custom name), size and content type; the bucket holds the
    file under the key. *)
Theorem upload_success
    (config : FILE_UPLOAD_CONFIG) (E : Env) (request : UploadRequest.t)
    (f : UploadedFile.t) (w : World) :
  upload_admitted config request f ->
  s3_fault E (length (trace w)) = None ->
  db_fault E (S (length (trace w))) = None ->
  path_taken (request_key E request f w) w = false ->
  uuid_taken (uuid4 E (S (uuid_draws w))) w = false ->
  let key := request_key E request f w in
  exists w' ur record,
    FileUploadView_post config E request w
      = (w', APIResponse.success
               (Some (UploadData {| upload_result := ur; record_id := next_pk w |}))
               "上传成功") /\
    UploadResult.file_path ur = key /\
    rows w' = (rows w ++ [record])%list /\
    next_pk w' = next_pk w + 1 /\
    UserFileRecord.id record = next_pk w /\
    UserFileRecord.user record = UploadRequest.user request /\
    UserFileRecord.file_path record = key /\
    UserFileRecord.file_url record = get_file_url E key /\
    UserFileRecord.file_name record
      = Py.or_else (or_None (UploadRequest.custom_name request)) (UploadedFile.name f) /\
    UserFileRecord.file_size record = UploadedFile.size f /\
    UserFileRecord.content_type record = UploadedFile.content_type f /\
    UserFileRecord.description record
      = Py.get_default (UploadRequest.description request) "" /\
    UserFileRecord.is_deleted record = false /\
    (exists meta,
       bucket w' !! key = Some {| Body := UploadedFile.body f;
                                  ContentType := UploadedFile.content_type f;
                                  Metadata := meta |}) /\
    new_events w w' = [S3Put key; DbInsert key].
Proof.
  intros Hadm Hs3 Hdb Hfree Huuid key. subst key.
  rewrite (upload_view_admitted config E request f w Hadm).
  rewrite upload_file_run, Hs3. fold (request_key E request f w).
  rewrite objects_create_run. simpl.
  rewrite length_app. simpl. rewrite Nat.add_1_r, Hdb.
  unfold path_taken, uuid_taken in *. simpl. rewrite Hfree, Huuid.
  eexists _, _, _. split; [reflexivity |]. simpl.
  unfold get_file_url, new_events. simpl.
  split_and!; try reflexivity.
  - eexists. apply lookup_insert_eq.
  - now rewrite <- app_assoc, drop_app_length.
Qed.

Lemma upload_success_witness :
  let key := request_key Demo.env (Demo.upload [Demo.cat]) Demo.cat Demo.empty in
  exists w' ur record,
    FileUploadView_post Demo.config Demo.env (Demo.upload [Demo.cat]) Demo.empty
      = (w', APIResponse.success
               (Some (UploadData {| upload_result := ur;
                                    record_id := next_pk Demo.empty |}))
               "上传成功") /\
    UploadResult.file_path ur = key /\
    rows w' = (rows Demo.empty ++ [record])%list /\
    next_pk w' = next_pk Demo.empty + 1 /\
    UserFileRecord.id record = next_pk Demo.empty /\
    UserFileRecord.user record = UploadRequest.user (Demo.upload [Demo.cat]) /\
    UserFileRecord.file_path record = key /\
    UserFileRecord.file_url record = get_file_url Demo.env key /\
    UserFileRecord.file_name record
      = Py.or_else (or_None (UploadRequest.custom_name (Demo.upload [Demo.cat])))
          (UploadedFile.name Demo.cat) /\
    UserFileRecord.file_size record = UploadedFile.size Demo.cat /\
    UserFileRecord.content_type record = UploadedFile.content_type Demo.cat /\
    UserFileRecord.description record
      = Py.get_default (UploadRequest.description (Demo.upload [Demo.cat])) "" /\
    UserFileRecord.is_deleted record = false /\
    (exists meta,
       bucket w' !! key = Some {| Body := UploadedFile.body Demo.cat;
                                  ContentType := UploadedFile.content_type Demo.cat;
                                  Metadata := meta |}) /\
    new_events Demo.empty w' = [S3Put key; DbInsert key].
Proof.
  apply (upload_success Demo.config Demo.env (Demo.upload [Demo.cat]) Demo.cat Demo.empty).
  - unfold upload_admitted. split_and!; vm_compute; reflexivity.
  - reflexivity.
  - reflexivity.
  - reflexivity.
  - reflexivity.
Defined.

(** X7.  A single upload that passes the guards and whose store write
    fails is answered 500 with [上传失败: ] and the error's text; the store
    call is the only call made: nothing is written to the ledger and the
    bucket is as before. *)
Theorem upload_store_failure
    (config : FILE_UPLOAD_CONFIG) (E : Env) (request : UploadRequest.t)
    (f : UploadedFile.t) (w : World) (e : Exc) :
  upload_admitted config request f ->
  s3_fault E (length (trace w)) = Some e ->
  exists w',
    FileUploadView_post config E request w
      = (w', APIResponse.error
               ("上传失败: " +:+ str (wrap_ClientError "文件上传失败: " e)) 500 500) /\
    new_events w w' = [S3Put (request_key E request f w)] /\
    rows w' = rows w /\ next_pk w' = next_pk w /\ bucket w' = bucket w.
Proof.
  intros Hadm Hs3.
  rewrite (upload_view_admitted config E request f w Hadm).
  rewrite upload_file_run, Hs3. eexists. split; [reflexivity |].
  unfold new_events. simpl. rewrite drop_app_length. split_and!; reflexivity.
Qed.

Lemma upload_store_failure_witness :
  exists w',
    FileUploadView_post Demo.config Demo.env_store_down (Demo.upload [Demo.cat]) Demo.empty
      = (w', APIResponse.error
               ("上传失败: " +:+
                str (wrap_ClientError "文件上传失败: "
                       (ClientError "An error occurred (503)"))) 500 500) /\
    new_events Demo.empty w'
      = [S3Put (request_key Demo.env_store_down (Demo.upload [Demo.cat]) Demo.cat
                  Demo.empty)] /\
    rows w' = rows Demo.empty /\ next_pk w' = next_pk Demo.empty /\
    bucket w' = bucket Demo.empty.
Proof.
  apply (upload_store_failure Demo.config Demo.env_store_down (Demo.upload [Demo.cat])
           Demo.cat Demo.empty (ClientError "An error occurred (503)")).
  - unfold upload_admitted. split_and!; vm_compute; reflexivity.
  - reflexivity.
Defined.

(** X8.  A single upload that passes the guards, whose store write
    succeeds and whose insert is refused by the database, is answered 500
    with the database error's text; no row is added, and the object stays
    in the bucket: when no row had the generated key as path before, the
    object is left without any row that refers to it. *)
Theorem upload_insert_failure_leaves_object
    (config : FILE_UPLOAD_CONFIG) (E : Env) (request : UploadRequest.t)
    (f : UploadedFile.t) (w : World) (e : Exc) :
  upload_admitted config request f ->
  s3_fault E (length (trace w)) = None ->
  db_fault E (S (length (trace w))) = Some e ->
  let key := request_key E request f w in
  exists w',
    FileUploadView_post config E request w
      = (w', APIResponse.error ("上传失败: " +:+ str e) 500 500) /\
    rows w' = rows w /\ next_pk w' = next_pk w /\
    is_Some (bucket w' !! key) /\
    (path_taken key w = false -> path_taken key w' = false) /\
    new_events w w' = [S3Put key; DbInsert key].
Proof.
  intros Hadm Hs3 Hdb key.
  rewrite (upload_view_admitted config E request f w Hadm).
  rewrite upload_file_run, Hs3. fold (request_key E request f w). fold key.
  rewrite objects_create_run. simpl.
  rewrite length_app. simpl. rewrite Nat.add_1_r, Hdb.
  eexists. split; [reflexivity |]. unfold new_events, path_taken. simpl.
  split_and!; try reflexivity.
  - eexists. apply lookup_insert_eq.
  - auto.
  - now rewrite <- app_assoc, drop_app_length.
Qed.

Lemma upload_insert_failure_leaves_object_witness :
  let key := request_key Sample.env_db_down (Demo.upload [Demo.cat]) Demo.cat Demo.empty in
  exists w',
    FileUploadView_post Demo.config Sample.env_db_down (Demo.upload [Demo.cat]) Demo.empty
      = (w', APIResponse.error
               ("上传失败: " +:+ str (OtherError "connection refused")) 500 500) /\
    rows w' = rows Demo.empty /\ next_pk w' = next_pk Demo.empty /\
    is_Some (bucket w' !! key) /\
    (path_taken key Demo.empty = false -> path_taken key w' = false) /\
    new_events Demo.empty w' = [S3Put key; DbInsert key].
Proof.
  apply (upload_insert_failure_leaves_object Demo.config Sample.env_db_down
           (Demo.upload [Demo.cat]) Demo.cat Demo.empty
           (OtherError "connection refused")).
  - unfold upload_admitted. split_and!; vm_compute; reflexivity.
  - reflexivity.
  - reflexivity.
Defined.

Example three_files_demo :
  map (fun r => (UserFileRecord.id r, UserFileRecord.user r, UserFileRecord.file_name r,
                 UserFileRecord.uploaded_at r))
    (rows Sample.three_files)
  = [(1, 7, "cat.jpg", 1700000002); (2, 8, "dog.PNG", 1700000006);
     (3, 7, "dog.PNG", 1700000010)].
Proof. vm_compute. reflexivity. Qed.

(** ** The batch upload *)

Lemma adds_only_refl (n : nat) (w : World) : adds_only n w w.
Proof.
  split_and!.
  - exists []. rewrite app_nil_r. split; [reflexivity | simpl; lia].
  - auto.
  - exists []. rewrite app_nil_r. split_and!; [reflexivity | simpl; lia | constructor].
Qed.

Lemma adds_only_intro (n : nat) (w w' : World)
    (new : list UserFileRecord.t) (events : list Event) :
  rows w' = (rows w ++ new)%list -> (length new <= n)%nat ->
  (forall key, is_Some (bucket w !! key) -> is_Some (bucket w' !! key)) ->
  trace w' = (trace w ++ events)%list -> (length events <= 2 * n)%nat ->
  Forall is_upload_event events ->
  adds_only n w w'.
Proof. intros. split_and!; eauto. Qed.

Lemma lookup_insert_keeps {V : Type} (m : gmap string V) (key k : string) (v : V) :
  is_Some (m !! k) -> is_Some (<[key := v]> m !! k).
Proof. intros Hsome. rewrite lookup_insert. case_decide; [eauto | exact Hsome]. Qed.

Lemma adds_only_trans (n m : nat) (w1 w2 w3 : World) :
  adds_only n w1 w2 -> adds_only m w2 w3 -> adds_only (n + m) w1 w3.
Proof.
  intros ((new1 & Hr1 & Hl1) & Hb1 & (ev1 & Ht1 & Hn1 & Hf1))
         ((new2 & Hr2 & Hl2) & Hb2 & (ev2 & Ht2 & Hn2 & Hf2)).
  split_and!.
  - exists (new1 ++ new2)%list. rewrite Hr2, Hr1, <- app_assoc, length_app.
    split; [reflexivity | lia].
  - auto.
  - exists (ev1 ++ ev2)%list. rewrite Ht2, Ht1, <- app_assoc, length_app.
    split_and!; [reflexivity | lia | now apply Forall_app].
Qed.

Lemma recorded_grows (w w' : World) (u : Uploaded) :
  (exists new, rows w' = (rows w ++ new)%list) -> recorded w u -> recorded w' u.
Proof.
  intros [new Hnew] (r & Hin & Hrest). exists r. split; [| exact Hrest].
  rewrite Hnew. apply elem_of_app. now left.
Qed.

(** One turn of the loop reports the file under its own name, in exactly
    one of the two lists; a success entry names a row of the ledger. *)
Lemma batch_file_report (config : FILE_UPLOAD_CONFIG) (E : Env) (u : Z)
    (pn ft d : string) (success_list : list Uploaded) (failed_list : list Failed)
    (f : UploadedFile.t) (w : World) :
  exists w' success_list' failed_list',
    batch_file config E u pn ft d (success_list, failed_list) f w
      = (w', Returned (success_list', failed_list')) /\
    ((exists entry, success_list' = (success_list ++ [entry])%list /\
                    failed_list' = failed_list /\
                    UploadResult.original_name (upload_result entry)
                      = UploadedFile.name f /\
                    recorded w' entry) \/
     (exists entry, success_list' = success_list /\
                    failed_list' = (failed_list ++ [entry])%list /\
                    failed_name entry = UploadedFile.name f)) /\
    adds_only 1 w w'.
Proof.
  unfold batch_file, try_except.
  destruct (validate_file config f) as [[|] error_msg]; simpl.
  2:{ eexists _, _, _. split; [reflexivity |]. split; [| apply adds_only_refl].
      right. eexists. split_and!; reflexivity. }
  unfold bind. rewrite upload_file_run.
  set (key := object_key E pn ft None f w).
  destruct (s3_fault E (length (trace w))) as [e |].
  { eexists _, _, _. split; [reflexivity |]. split.
    - right. eexists. split_and!; reflexivity.
    - apply (adds_only_intro 1 _ _ [] [S3Put key]); simpl;
        [now rewrite app_nil_r | lia | auto | reflexivity | lia | repeat constructor]. }
  rewrite objects_create_run. simpl.
  destruct (db_fault E _) as [e |];
    [| unfold path_taken, uuid_taken; simpl;
       destruct (existsb _ (rows w)); [| destruct (existsb _ (rows w))]].
  1-3: eexists _, _, _; (split; [reflexivity |]); split;
    [ right; eexists; split_and!; reflexivity
    | apply (adds_only_intro 1 _ _ [] [S3Put key; DbInsert key]); simpl;
      [ now rewrite app_nil_r | lia | intros k Hsome; now apply lookup_insert_keeps
      | now rewrite <- app_assoc | lia | repeat constructor ] ].
  eexists _, _, _. split; [reflexivity |]. split.
  - left. eexists. split_and!; try reflexivity.
    eexists. simpl. split; [apply elem_of_app; right; apply list_elem_of_here |].
    split_and!; reflexivity.
  - eapply (adds_only_intro 1 _ _ [_] [S3Put key; DbInsert key]); simpl;
      [ reflexivity | lia | intros k Hsome; now apply lookup_insert_keeps
      | now rewrite <- app_assoc | lia | repeat constructor ].
Qed.

Lemma batch_loop_report (config : FILE_UPLOAD_CONFIG) (E : Env) (u : Z)
    (pn ft d : string) (files : list UploadedFile.t) :
  forall (success_list : list Uploaded) (failed_list : list Failed) (w : World),
    Forall (recorded w) success_list ->
    exists w' success_list' failed_list',
      batch_loop config E u pn ft d files (success_list, failed_list) w
        = (w', Returned (success_list', failed_list')) /\
      reported_names success_list' failed_list'
        ≡ₚ (reported_names success_list failed_list ++ map UploadedFile.name files)%list /\
      Forall (recorded w') success_list' /\
      adds_only (length files) w w'.
Proof.
  induction files as [| f files IH]; intros success_list failed_list w Hrec;
    cbn [batch_loop map length].
  - eexists _, _, _. split; [reflexivity |]. rewrite app_nil_r.
    split_and!; [reflexivity | exact Hrec | apply adds_only_refl].
  - destruct (batch_file_report config E u pn ft d success_list failed_list f w)
      as (w1 & sl1 & fl1 & Hrun1 & Hcase & Hadd1).
    assert (Hrec1 : Forall (recorded w1) sl1).
    { destruct Hadd1 as ((new & Hnew & _) & _).
      assert (Hold : Forall (recorded w1) success_list).
      { eapply Forall_impl; [exact Hrec |]. intros x. apply recorded_grows. eauto. }
      destruct Hcase as [(entry & -> & _ & _ & Hentry) | (entry & -> & _)];
        [| exact Hold].
      apply Forall_app. split; [exact Hold | now constructor]. }
    destruct (IH sl1 fl1 w1 Hrec1) as (w2 & sl2 & fl2 & Hrun2 & Hperm & Hrec2 & Hadd2).
    exists w2, sl2, fl2. unfold bind. rewrite Hrun1. split; [exact Hrun2 |].
    split_and!; [| exact Hrec2 | exact (adds_only_trans 1 _ _ _ _ Hadd1 Hadd2)].
    rewrite Hperm. unfold reported_names.
    destruct Hcase as [(entry & -> & -> & Hname & _) | (entry & -> & -> & Hname)];
      rewrite map_app; simpl; rewrite Hname.
    + rewrite <- !app_assoc. apply Permutation_app_head. simpl.
      apply Permutation_middle.
    + rewrite <- !app_assoc. reflexivity.
Qed.

(** Past the pre-checks the view answers with what the loop built. *)
Lemma batch_view_unfold (config : FILE_UPLOAD_CONFIG) (E : Env)
    (request : BatchRequest.t) (w w' : World)
    (success_list : list Uploaded) (failed_list : list Failed) :
  batch_prechecks config request ->
  batch_loop config E (BatchRequest.user request)
    (Py.get_default (BatchRequest.project_name request) "")
    (Py.get_default (BatchRequest.file_type request) "")
    (Py.get_default (BatchRequest.description request) "")
    (BatchRequest.FILES_files request) ([], []) w
    = (w', Returned (success_list, failed_list)) ->
  fst (FileBatchUploadView_post config E request w) = w' /\
  data (snd (FileBatchUploadView_post config E request w))
    = Some (BatchData
              {| total := length (BatchRequest.FILES_files request);
                 success_count := length success_list;
                 failed_count := length failed_list;
                 success_files := success_list;
                 failed_files := failed_list |}).
Proof.
  intros (Hfiles & Hpn & Hft & Hcount) Hrun.
  unfold FileBatchUploadView_post, run_view, FileBatchUploadView_post_body.
  destruct (BatchRequest.FILES_files request) as [| f files] eqn:Heq;
    [contradiction |].
  rewrite Hpn, Hft. apply Z.ltb_ge in Hcount. rewrite Hcount.
  unfold bind. guards. rewrite Hrun. unfold ret. now split.
Qed.

(** X10.  The two upload endpoints only add.  Whatever the request, the
    old table is the beginning of the new one (no row is changed or
    removed) with at most one new row per submitted file; no key leaves the
    bucket; and the calls made are at most two per file, store writes and
    inserts only: never a store deletion, never an update. *)
Theorem uploads_only_add
    (config : FILE_UPLOAD_CONFIG) (E : Env) (w : World) :
  (forall request,
     adds_only 1 w (fst (FileUploadView_post config E request w))) /\
  (forall request,
     adds_only (length (BatchRequest.FILES_files request)) w
       (fst (FileBatchUploadView_post config E request w))).
Proof.
  split; intros request.
  - unfold FileUploadView_post, run_view, FileUploadView_post_body, ret.
    destruct (FILES_get (UploadRequest.FILES_file request)) as [f |];
      [| apply adds_only_refl].
    destruct (1 <? length (UploadRequest.FILES_file request))%nat;
      [apply adds_only_refl |].
    destruct (Py.truthy (UploadRequest.project_name request));
      [| apply adds_only_refl].
    destruct (Py.truthy (UploadRequest.file_type request));
      [| apply adds_only_refl].
    destruct (validate_file config f) as [[|] error_msg];
      [| apply adds_only_refl].
    guards. unfold bind. rewrite upload_file_run.
    set (key := object_key E _ _ _ f w).
    destruct (s3_fault E (length (trace w))) as [e |].
    { apply (adds_only_intro 1 _ _ [] [S3Put key]); simpl;
        [now rewrite app_nil_r | lia | auto | reflexivity | lia | repeat constructor]. }
    rewrite objects_create_run. simpl.
    destruct (db_fault E _) as [e |];
      [| unfold path_taken, uuid_taken; simpl;
         destruct (existsb _ (rows w)); [| destruct (existsb _ (rows w))]].
    1-3: apply (adds_only_intro 1 _ _ [] [S3Put key; DbInsert key]); simpl;
      [ now rewrite app_nil_r | lia | intros k Hsome; now apply lookup_insert_keeps
      | now rewrite <- app_assoc | lia | repeat constructor ].
    eapply (adds_only_intro 1 _ _ [_] [S3Put key; DbInsert key]); simpl;
      [ reflexivity | lia | intros k Hsome; now apply lookup_insert_keeps
      | now rewrite <- app_assoc | lia | repeat constructor ].
  - destruct (batch_prechecks_or_rejected config request) as [Hpre | Hrej].
    + destruct (batch_loop_report config E (BatchRequest.user request)
                  (Py.get_default (BatchRequest.project_name request) "")
                  (Py.get_default (BatchRequest.file_type request) "")
                  (Py.get_default (BatchRequest.description request) "")
                  (BatchRequest.FILES_files request) [] [] w (List.Forall_nil _))
        as (w' & sl & fl & Hrun & _ & _ & Hadd).
      destruct (batch_view_unfold config E request w w' sl fl Hpre Hrun) as [-> _].
      exact Hadd.
    + destruct (batch_view_rejects config E request w Hrej) as [msg ->].
      apply adds_only_refl.
Qed.

(** ** The delete endpoint *)

(** The four ways through the delete view: the id is missing or falsy
    (400); it is not a number (500); it names no live row of the requester
    (404); it names one. *)
Lemma delete_view_cases (E : Env) (request : DeleteRequest.t) (w : World) :
  (falsy_id (DeleteRequest.id request) = true /\
   named_id E request = None /\
   FileDeleteView_delete E request w
     = (w, APIResponse.error "缺少文件记录ID" 400 400)) \/
  (exists v text,
     DeleteRequest.id request = Some v /\ lookup_key E v = inl text /\
     named_id E request = None /\
     FileDeleteView_delete E request w
       = (w, APIResponse.error ("删除失败: " +:+ text) 500 500)) \/
  (exists record_id,
     named_id E request = Some record_id /\
     filter_id_user_first record_id (DeleteRequest.user request) w = None /\
     FileDeleteView_delete E request w
       = (w, APIResponse.error "文件不存在或无权限删除" 404 404)) \/
  (exists record_id r,
     named_id E request = Some record_id /\
     filter_id_user_first record_id (DeleteRequest.user request) w = Some r).
Proof.
  destruct (named_id E request) as [record_id |] eqn:Hid.
  - right. right.
    destruct (filter_id_user_first record_id (DeleteRequest.user request) w)
      as [r |] eqn:Hfound.
    + right. now exists record_id, r.
    + left. exists record_id. split_and!; [reflexivity | exact Hfound |].
      now apply (delete_view_absent E request w record_id).
  - pose proof Hid as Hnone.
    apply named_id_None in Hid as [Hfalsy | (v & text & Hv & Htruth & Hkey)].
    + left. split_and!; [exact Hfalsy | reflexivity |].
      now apply delete_view_falsy.
    + right. left. exists v, text. split_and!; [exact Hv | exact Hkey | reflexivity |].
      now apply (delete_view_unreadable E request w v text).
Qed.

(** X11.  A delete request touches at most the one row it names.  In a
    ledger with unique keys and paths, whatever the request and its
    outcome: the number of rows and the next key are as before; every row
    of another user, and every row with another id, is still in the table
    unchanged; and the objects of the other users' rows are still in the
    bucket as they were. *)
Theorem delete_touches_one_row (E : Env) (request : DeleteRequest.t) (w : World) :
  ledger_ok w ->
  let w' := fst (FileDeleteView_delete E request w) in
  length (rows w') = length (rows w) /\
  next_pk w' = next_pk w /\
  (forall r, r ∈ rows w ->
             UserFileRecord.user r <> DeleteRequest.user request ->
             r ∈ rows w' /\
             bucket w' !! UserFileRecord.file_path r
               = bucket w !! UserFileRecord.file_path r) /\
  (forall r, r ∈ rows w ->
             named_id E request <> Some (UserFileRecord.id r) ->
             r ∈ rows w').
Proof.
  intros Hok w'. subst w'.
  destruct (delete_view_cases E request w)
    as [(_ & _ & ->) | [(v & text & _ & _ & _ & ->)
      | [(rid & _ & _ & ->) | (rid & r0 & Hid & Hfound)]]];
    [simpl; auto .. |].
  rewrite (delete_view_found E request w rid r0 Hid Hfound).
  destruct (filter_id_user_first_Some _ _ _ _ Hfound) as (Hin0 & Hrid & Huser0 & _).
  destruct (s3_fault E (length (trace w))) as [e |]; [simpl; auto |].
  assert (Hbucket : forall r, r ∈ rows w ->
            UserFileRecord.user r <> DeleteRequest.user request ->
            delete (UserFileRecord.file_path r0) (bucket w)
              !! UserFileRecord.file_path r
            = bucket w !! UserFileRecord.file_path r).
  { intros r Hin Huser. apply lookup_delete_ne. intros Hpath.
    assert (r = r0) by (apply (ledger_ok_path_inj w); auto). congruence. }
  destruct (db_fault E (S (length (trace w)))) as [e |]; simpl.
  { split_and!; auto. }
  assert (Hkeep : forall r, r ∈ rows w ->
            UserFileRecord.id r <> UserFileRecord.id r0 ->
            r ∈ map (fun x => if UserFileRecord.id x =? UserFileRecord.id r0
                              then soft_deleted E r0 w else x) (rows w)).
  { intros r Hin Hne. apply list_elem_of_In, in_map_iff. exists r.
    apply Z.eqb_neq in Hne. rewrite Hne. split; [reflexivity |].
    now apply list_elem_of_In. }
  split_and!.
  - apply length_map.
  - reflexivity.
  - intros r Hin Huser. split; [| now apply Hbucket].
    apply Hkeep; [exact Hin |]. intros Heq.
    assert (r = r0) by (apply (ledger_ok_id_inj w); auto). congruence.
  - intros r Hin Hne. apply Hkeep; [exact Hin |]. congruence.
Qed.

(** X12.  Deleting twice: once a delete request was answered 200, the same
    request sent again finds nothing: it is answered with the 404 envelope
    and changes nothing, so the store is not called a second time. *)
Theorem delete_twice_not_found (E : Env) (request : DeleteRequest.t) (w : World) :
  status (snd (FileDeleteView_delete E request w)) = 200 ->
  let w1 := fst (FileDeleteView_delete E request w) in
  FileDeleteView_delete E request w1
  = (w1, APIResponse.error "文件不存在或无权限删除" 404 404).
Proof.
  intros Hok w1. subst w1. revert Hok.
  destruct (delete_view_cases E request w)
    as [(_ & _ & ->) | [(v & text & _ & _ & _ & ->)
      | [(rid & _ & _ & ->) | (rid & r0 & Hid & Hfound)]]];
    [discriminate .. |].
  rewrite (delete_view_found E request w rid r0 Hid Hfound).
  destruct (s3_fault E (length (trace w))) as [e |]; [discriminate |].
  destruct (db_fault E (S (length (trace w)))) as [e |]; [discriminate |].
  intros _. simpl fst.
  destruct (filter_id_user_first_Some _ _ _ _ Hfound) as (_ & Hrid & _).
  apply (delete_view_absent E request _ rid Hid).
  apply filter_id_user_first_None.
  simpl. intros x' Hin' Hid'.
  apply list_elem_of_In, in_map_iff in Hin' as (x & Hx & _).
  destruct (UserFileRecord.id x =? UserFileRecord.id r0) eqn:Heq.
  - subst x'. now left.
  - subst x'. apply Z.eqb_neq in Heq. congruence.
Qed.

Lemma three_files_ledger_ok : ledger_ok Sample.three_files.
Proof.
  apply (reachable_ledger_ok Demo.config Sample.env_ticking).
  apply reach_upload, reach_upload, reach_upload, reach_empty; reflexivity.
Qed.

Lemma delete_touches_one_row_witness :
  let w' := fst (FileDeleteView_delete Sample.env_ticking (Demo.delete_by 7 3)
                   Sample.three_files) in
  length (rows w') = length (rows Sample.three_files) /\
  next_pk w' = next_pk Sample.three_files /\
  (forall r, r ∈ rows Sample.three_files ->
             UserFileRecord.user r <> DeleteRequest.user (Demo.delete_by 7 3) ->
             r ∈ rows w' /\
             bucket w' !! UserFileRecord.file_path r
               = bucket Sample.three_files !! UserFileRecord.file_path r) /\
  (forall r, r ∈ rows Sample.three_files ->
             named_id Sample.env_ticking (Demo.delete_by 7 3)
               <> Some (UserFileRecord.id r) ->
             r ∈ rows w').
Proof.
  apply (delete_touches_one_row Sample.env_ticking (Demo.delete_by 7 3)
           Sample.three_files).
  exact three_files_ledger_ok.
Defined.

Lemma delete_twice_not_found_witness :
  let w1 := fst (FileDeleteView_delete Demo.env (Demo.delete_by 7 1) Demo.one_file) in
  FileDeleteView_delete Demo.env (Demo.delete_by 7 1) w1
  = (w1, APIResponse.error "文件不存在或无权限删除" 404 404).
Proof.
  apply (delete_twice_not_found Demo.env (Demo.delete_by 7 1) Demo.one_file).
  vm_compute. reflexivity.
Defined.

(** ** The envelope *)

Lemma envelope_ok_error (msg : string) (c : Z) :
  c = 400 \/ c = 404 \/ c = 500 -> envelope_ok (APIResponse.error msg c c).
Proof.
  intros Hc. unfold envelope_ok. simpl. split_and!; [reflexivity | lia | reflexivity].
Qed.

Lemma envelope_ok_success (d : option Data) (msg : string) :
  envelope_ok (APIResponse.success d msg).
Proof.
  unfold envelope_ok. simpl. split_and!; [reflexivity | lia | congruence].
Qed.

(** X13.  Every answer of the four endpoints has a sound envelope: the
    [code] of the body is the HTTP status, the status is 200, 400, 404 or
    500, and [data] is null unless the status is 200. *)
Theorem responses_have_sound_envelope
    (config : FILE_UPLOAD_CONFIG) (E : Env) (w : World) :
  (forall request, envelope_ok (snd (FileUploadView_post config E request w))) /\
  (forall request, envelope_ok (snd (FileBatchUploadView_post config E request w))) /\
  (forall request, envelope_ok (snd (FileDeleteView_delete E request w))) /\
  (forall request, envelope_ok (snd (UserFileListView_get E request w))).
Proof.
  split_and!; intros request.
  - unfold FileUploadView_post, run_view, FileUploadView_post_body, ret.
    destruct (FILES_get (UploadRequest.FILES_file request)) as [f |];
      [| apply envelope_ok_error; lia].
    destruct (1 <? length (UploadRequest.FILES_file request))%nat;
      [apply envelope_ok_error; lia |].
    destruct (Py.truthy (UploadRequest.project_name request));
      [| apply envelope_ok_error; lia].
    destruct (Py.truthy (UploadRequest.file_type request));
      [| apply envelope_ok_error; lia].
    destruct (validate_file config f) as [[|] error_msg];
      [| apply envelope_ok_error; lia].
    guards. unfold bind.
    destruct (upload_file E f _ _ _ w) as [w1 [ur | e]];
      [| apply envelope_ok_error; lia].
    destruct (objects_create E _ _ _ _ _ _ _ _ _ w1) as [w2 [record | e]];
      [apply envelope_ok_success | apply envelope_ok_error; lia].
  - destruct (batch_prechecks_or_rejected config request) as [Hpre | Hrej].
    + destruct (batch_view_run config E request w Hpre)
        as (w' & sl & fl & msg & -> & _). apply envelope_ok_success.
    + destruct (batch_view_rejects config E request w Hrej) as [msg ->].
      apply envelope_ok_error. lia.
  - destruct (delete_view_cases E request w)
      as [(_ & _ & ->) | [(v & text & _ & _ & _ & ->)
      | [(rid & _ & _ & ->) | (rid & r0 & Hid & Hfound)]]];
      [apply envelope_ok_error; lia .. |].
    rewrite (delete_view_found E request w rid r0 Hid Hfound).
    destruct (s3_fault E (length (trace w))) as [e |];
      [apply envelope_ok_error; lia |].
    destruct (db_fault E (S (length (trace w)))) as [e |];
      [apply envelope_ok_error; lia | apply envelope_ok_success].
  - unfold UserFileListView_get, run_view, UserFileListView_get_body, bind, get_page.
    destruct (default 20 (ListRequest.page_size request) <? 1);
      [apply envelope_ok_error; lia |].
    unfold ret. cbv beta iota.
    match goal with
    | |- context [serialize_all E ?page ?w0] =>
        destruct (serialize_all_run E page w0) as (w' & items & -> & _)
    end.
    apply envelope_ok_success.
Qed.

(** ** The list endpoint *)

Lemma list_queryset_spec (request : ListRequest.t) (w : World) (r : UserFileRecord.t) :
  In r (list_queryset request w) <-> r ∈ rows w /\ matches request r.
Proof.
  unfold list_queryset, get_queryset, matches. rewrite list_elem_of_In.
  destruct (Py.truthy (ListRequest.file_type request));
    destruct (Py.truthy (ListRequest.project_name request));
    rewrite ?filter_In, ?String.eqb_eq, Z.eqb_eq, negb_true_iff;
    intuition congruence.
Qed.

Lemma matching_rows_spec (request : ListRequest.t) (w : World) (r : UserFileRecord.t) :
  r ∈ matching_rows request w <-> r ∈ rows w /\ matches request r.
Proof.
  unfold matching_rows, ordered. rewrite merge_sort_Permutation, list_elem_of_In.
  apply list_queryset_spec.
Qed.

Lemma matching_rows_sorted (request : ListRequest.t) (w : World) :
  StronglySorted newer_first (matching_rows request w).
Proof.
  assert (Htrans : Transitive newer_first).
  { intros a b c. unfold newer_first. lia. }
  assert (Htotal : Total newer_first).
  { intros a b. unfold newer_first. lia. }
  apply StronglySorted_merge_sort; assumption.
Qed.

Lemma serialize_all_renders (E : Env) (l : list UserFileRecord.t) :
  forall w, exists w' items,
    serialize_all E l w = (w', Returned items) /\
    same_data w w' /\ Forall2 (renders E) l items /\
    (Forall plain_row l -> w' = w /\ items = map (fun r => item_of E r false) l).
Proof.
  induction l as [| r l IH]; intros w; simpl.
  - exists w, []. split_and!; [reflexivity | done | constructor | done].
  - unfold bind, serialize, is_expired, datetime_now, ret.
    destruct (UserFileRecord.expires_at r) as [t |] eqn:Hexp; simpl.
    + destruct (IH (set_clock_reads (S (clock_reads w)) w))
        as (w' & items & Hrun & Hsame & Hall & _).
      rewrite Hrun. eexists _, _. split_and!; [reflexivity | exact Hsame | |].
      * constructor; [| exact Hall]. eexists. unfold item_of. reflexivity.
      * intros Hplain. apply Forall_cons in Hplain as [(Hnone & _) _]. congruence.
    + destruct (IH w) as (w' & items & Hrun & Hsame & Hall & Hplain').
      rewrite Hrun. eexists _, _. split_and!; [reflexivity | exact Hsame | |].
      * constructor; [| exact Hall]. exists false. reflexivity.
      * intros Hplain. apply Forall_cons in Hplain as [_ Hrest].
        destruct (Hplain' Hrest) as [-> ->]. now split.
Qed.

(** With a page size of at least one, the view serializes the slice of the
    page that is served. *)
Lemma list_view_page (E : Env) (request : ListRequest.t) (w : World) :
  1 <= asked_page_size request ->
  UserFileListView_get E request w =
  match serialize_all E
          (page_slice (matching_rows request w) (asked_page_size request)
             (asked_page request)) w with
  | (w', Returned files) =>
      (w', APIResponse.success
             (Some (ListData files
                      {| page := asked_page request;
                         page_size := asked_page_size request;
                         pg_total := Z.of_nat (length (matching_rows request w));
                         total_pages :=
                           num_pages (Z.of_nat (length (matching_rows request w)))
                             (asked_page_size request) |}))
             "获取成功")
  | (w', Raised e) => (w', APIResponse.error ("获取失败: " +:+ str e) 500 500)
  end.
Proof.
  intros Hsize.
  unfold UserFileListView_get, run_view, UserFileListView_get_body, bind, get_page.
  fold (asked_page_size request). fold (asked_page request).
  fold (matching_rows request w).
  apply Z.ltb_ge in Hsize. rewrite Hsize. unfold ret. cbv beta iota.
  unfold page_slice, served_page.
  destruct (serialize_all E _ w) as [w' [files | e]]; reflexivity.
Qed.

Lemma page_slice_subset (l : list UserFileRecord.t) (per_page number : Z) :
  page_slice l per_page number ⊆ l.
Proof.
  unfold page_slice. etransitivity; [apply subseteq_take | apply subseteq_drop].
Qed.

Lemma page_slice_length (l : list UserFileRecord.t) (per_page number : Z) :
  Z.of_nat (length (page_slice l per_page number)) <= Z.max 0 per_page.
Proof.
  unfold page_slice. rewrite length_take.
  set (bottom := (served_page _ per_page number - 1) * per_page).
  destruct (Z.of_nat (length l) <=? bottom + per_page) eqn:Hle.
  - apply Z.leb_le in Hle. lia.
  - lia.
Qed.

Lemma page_slice_sorted (l : list UserFileRecord.t) (per_page number : Z) :
  StronglySorted newer_first l ->
  StronglySorted newer_first (page_slice l per_page number).
Proof.
  intros Hsorted. unfold page_slice.
  set (n := Z.to_nat _). set (m := Z.to_nat _).
  assert (Hdrop : StronglySorted newer_first (drop m l)).
  { rewrite <- (take_drop m l) in Hsorted. now apply StronglySorted_app_1_r in Hsorted. }
  rewrite <- (take_drop n (drop m l)) in Hdrop.
  now apply StronglySorted_app_1_l in Hdrop.
Qed.

(** X14.  The list endpoint never writes: for every request the bucket,
    the rows, the next key and the trace are as before.  A page size below
    one is answered 500 with [获取失败: ] and the paginator's error, the
    world being exactly as it was. *)
Theorem list_is_read_only (E : Env) (request : ListRequest.t) (w : World) :
  same_data w (fst (UserFileListView_get E request w)) /\
  (asked_page_size request < 1 ->
   UserFileListView_get E request w
   = (w, APIResponse.error
           ("获取失败: " +:+ bad_page_size E (asked_page_size request)) 500 500)).
Proof.
  split.
  - apply list_view_run.
  - intros Hsize.
    unfold UserFileListView_get, run_view, UserFileListView_get_body, bind, get_page.
    fold (asked_page_size request). apply Z.ltb_lt in Hsize. now rewrite Hsize.
Qed.

(** X15.  With a page size of at least one the list endpoint answers 200
    with one file per row of the page it serves, each file rendering its
    row field by field.  The rows of the page are at most [page_size]; each
    is a live row of the requester that carries the project name and the
    file type asked for, where the request gives them; and they come newest
    first. *)
Theorem list_page_content (E : Env) (request : ListRequest.t) (w : World) :
  1 <= asked_page_size request ->
  exists page_rows pagination,
    snd (UserFileListView_get E request w)
      = APIResponse.success
          (Some (ListData (listed (snd (UserFileListView_get E request w))) pagination))
          "获取成功" /\
    Forall2 (renders E) page_rows (listed (snd (UserFileListView_get E request w))) /\
    Z.of_nat (length page_rows) <= asked_page_size request /\
    Forall (fun r => r ∈ rows w /\ matches request r) page_rows /\
    StronglySorted newer_first page_rows.
Proof.
  intros Hsize. rewrite (list_view_page E request w Hsize).
  set (page_rows := page_slice _ _ _).
  destruct (serialize_all_renders E page_rows w) as (w' & items & -> & _ & Hall & _).
  exists page_rows. eexists. simpl. split_and!.
  - reflexivity.
  - exact Hall.
  - pose proof (page_slice_length (matching_rows request w)
                  (asked_page_size request) (asked_page request)).
    fold page_rows in H. lia.
  - apply Forall_forall. intros r Hr.
    apply page_slice_subset in Hr. now apply matching_rows_spec.
  - apply page_slice_sorted, matching_rows_sorted.
Qed.

Lemma list_page_content_witness :
  exists page_rows pagination,
    snd (UserFileListView_get Sample.env_ticking (Sample.list_page 7 1 1)
           Sample.three_files)
      = APIResponse.success
          (Some (ListData
                   (listed (snd (UserFileListView_get Sample.env_ticking
                                   (Sample.list_page 7 1 1) Sample.three_files)))
                   pagination))
          "获取成功" /\
    Forall2 (renders Sample.env_ticking) page_rows
      (listed (snd (UserFileListView_get Sample.env_ticking (Sample.list_page 7 1 1)
                      Sample.three_files))) /\
    Z.of_nat (length page_rows) <= asked_page_size (Sample.list_page 7 1 1) /\
    Forall (fun r => r ∈ rows Sample.three_files /\ matches (Sample.list_page 7 1 1) r)
      page_rows /\
    StronglySorted newer_first page_rows.
Proof.
  apply (list_page_content Sample.env_ticking (Sample.list_page 7 1 1) Sample.three_files).
  vm_compute. discriminate.
Defined.

(** User 7 has two files; with one file per page, page 1 is the newer one,
    page 2 the older one, and pages 3 and 0 are page 2 again. *)
Example list_pages_demo :
  map (fun p => map FileItem.id
                  (listed (snd (UserFileListView_get Sample.env_ticking
                                  (Sample.list_page 7 p 1) Sample.three_files))))
    [1; 2; 3; 0]
  = [[3]; [1]; [1]; [1]].
Proof. vm_compute. reflexivity. Qed.

(** *** Page arithmetic *)

Lemma num_pages_bounds (count per_page : Z) :
  1 <= per_page ->
  1 <= num_pages count per_page /\
  (num_pages count per_page - 1) * per_page < Z.max 1 count
    <= num_pages count per_page * per_page.
Proof.
  intros Hper. unfold num_pages, ceil_div.
  set (a := Z.max 1 count). assert (Ha : 1 <= a) by lia.
  pose proof (Z.div_mod (- a) per_page ltac:(lia)) as Hdm.
  pose proof (Z.mod_pos_bound (- a) per_page ltac:(lia)) as Hb.
  set (q := - a / per_page) in *. set (r := (- a) mod per_page) in *.
  nia.
Qed.

Lemma num_pages_one (count per_page : Z) :
  1 <= per_page -> count <= per_page -> num_pages count per_page = 1.
Proof.
  intros Hper Hcount.
  pose proof (num_pages_bounds count per_page Hper) as (Hge & Hlt & _).
  nia.
Qed.

Lemma served_page_in_range (count per_page number : Z) :
  1 <= number <= num_pages count per_page ->
  served_page count per_page number = number.
Proof.
  intros [Hlo Hhi]. unfold served_page.
  apply Z.ltb_ge in Hlo. apply Z.ltb_ge in Hhi. now rewrite Hlo, Hhi.
Qed.

Lemma served_page_out_of_range (count per_page number : Z) :
  number < 1 \/ num_pages count per_page < number ->
  served_page count per_page number = num_pages count per_page.
Proof.
  intros Hout. unfold served_page.
  destruct (number <? 1) eqn:Hlo; [reflexivity |].
  destruct (num_pages count per_page <? number) eqn:Hhi; [reflexivity |].
  apply Z.ltb_ge in Hlo. apply Z.ltb_ge in Hhi. lia.
Qed.

(** A page in range is the next [per_page] rows after the pages before. *)
Lemma page_slice_chunk (l : list UserFileRecord.t) (per_page number : Z) :
  1 <= per_page ->
  1 <= number <= num_pages (Z.of_nat (length l)) per_page ->
  page_slice l per_page number
  = take (Z.to_nat per_page) (drop (Z.to_nat ((number - 1) * per_page)) l).
Proof.
  intros Hper Hrange. unfold page_slice.
  rewrite (served_page_in_range _ _ _ Hrange).
  set (bottom := (number - 1) * per_page). assert (Hb : 0 <= bottom) by nia.
  destruct (Z.of_nat (length l) <=? bottom + per_page) eqn:Hle.
  - apply Z.leb_le in Hle.
    rewrite !take_ge; [reflexivity | |]; rewrite length_drop; lia.
  - f_equal. lia.
Qed.

Lemma pages_upto_take (l : list UserFileRecord.t) (per_page : Z) (n : nat) :
  1 <= per_page ->
  Z.of_nat n <= num_pages (Z.of_nat (length l)) per_page ->
  pages_upto l per_page n = take (n * Z.to_nat per_page) l.
Proof.
  intros Hper. unfold pages_upto. induction n as [| n IH]; intros Hn.
  - reflexivity.
  - rewrite seq_S, map_app, concat_app, IH by lia. simpl.
    rewrite app_nil_r, page_slice_chunk by lia.
    replace (Z.to_nat ((Z.of_nat (S n) - 1) * per_page))
      with (n * Z.to_nat per_page)%nat by nia.
    rewrite take_take_drop. f_equal. lia.
Qed.

(** X16.  A page number out of range does not fail: a number below one or
    beyond the last page is served the last page.  The request leaves the
    same world and lists the same files as the request for page
    [total_pages]; the pagination block of the answer still carries the
    number that was asked, not the number of the page that was served. *)
Theorem list_page_out_of_range (E : Env) (request : ListRequest.t) (w : World)
    (number : Z) :
  1 <= asked_page_size request ->
  let total := Z.of_nat (length (matching_rows request w)) in
  let last_page := num_pages total (asked_page_size request) in
  number < 1 \/ last_page < number ->
  fst (UserFileListView_get E (with_page number request) w)
    = fst (UserFileListView_get E (with_page last_page request) w) /\
  listed (snd (UserFileListView_get E (with_page number request) w))
    = listed (snd (UserFileListView_get E (with_page last_page request) w)) /\
  pagination_of (snd (UserFileListView_get E (with_page number request) w))
    = Some {| page := number;
              page_size := asked_page_size request;
              pg_total := total;
              total_pages := last_page |}.
Proof.
  intros Hsize total last_page Hout. subst last_page total.
  set (last_page := num_pages (Z.of_nat (length (matching_rows request w)))
                      (asked_page_size request)) in *.
  rewrite (list_view_page E (with_page number request) w Hsize).
  rewrite (list_view_page E (with_page last_page request) w Hsize).
  change (matching_rows (with_page number request) w) with (matching_rows request w).
  change (matching_rows (with_page last_page request) w) with (matching_rows request w).
  change (asked_page_size (with_page number request)) with (asked_page_size request).
  change (asked_page_size (with_page last_page request)) with (asked_page_size request).
  change (asked_page (with_page number request)) with number.
  change (asked_page (with_page last_page request)) with last_page.
  assert (Hsame : page_slice (matching_rows request w) (asked_page_size request) number
                  = page_slice (matching_rows request w) (asked_page_size request)
                      last_page).
  { unfold page_slice. rewrite (served_page_out_of_range _ _ number Hout).
    rewrite served_page_in_range; [reflexivity |].
    pose proof (num_pages_bounds (Z.of_nat (length (matching_rows request w)))
                  (asked_page_size request) Hsize) as (Hge & _).
    fold last_page in Hge |- *. lia. }
  rewrite Hsame.
  destruct (serialize_all_renders E
              (page_slice (matching_rows request w) (asked_page_size request) last_page)
              w) as (w' & items & -> & _).
  split_and!; reflexivity.
Qed.

Lemma list_page_out_of_range_witness :
  let total :=
    Z.of_nat (length (matching_rows (Sample.list_page 7 1 1) Sample.three_files)) in
  let last_page := num_pages total (asked_page_size (Sample.list_page 7 1 1)) in
  fst (UserFileListView_get Sample.env_ticking
         (with_page 0 (Sample.list_page 7 1 1)) Sample.three_files)
    = fst (UserFileListView_get Sample.env_ticking
             (with_page last_page (Sample.list_page 7 1 1)) Sample.three_files) /\
  listed (snd (UserFileListView_get Sample.env_ticking
                 (with_page 0 (Sample.list_page 7 1 1)) Sample.three_files))
    = listed (snd (UserFileListView_get Sample.env_ticking
                     (with_page last_page (Sample.list_page 7 1 1))
                     Sample.three_files)) /\
  pagination_of (snd (UserFileListView_get Sample.env_ticking
                        (with_page 0 (Sample.list_page 7 1 1)) Sample.three_files))
    = Some {| page := 0;
              page_size := asked_page_size (Sample.list_page 7 1 1);
              pg_total := total;
              total_pages := last_page |}.
Proof.
  apply (list_page_out_of_range Sample.env_ticking (Sample.list_page 7 1 1)
           Sample.three_files 0).
  - vm_compute. discriminate.
  - left. lia.
Defined.

(** X17.  The pages partition the result.  With a page size of at least
    one, [total_pages] is the least number of pages of that size that hold
    all the rows asked for (one page when there is none); the request for
    page [i] lists the rows of the [i]-th slice; and the slices of the
    pages [1 .. total_pages], one after the other, are exactly the rows
    asked for, newest first: no row is skipped and none is listed twice.
    When the page size is at least the number of rows asked for, page 1
    lists them all: every live row of the requester that carries the
    project name and the file type of the request is shown. *)
Theorem list_pages_partition (E : Env) (request : ListRequest.t) (w : World) :
  1 <= asked_page_size request ->
  let all_rows := matching_rows request w in
  let total := Z.of_nat (length all_rows) in
  let total_pages := num_pages total (asked_page_size request) in
  (total_pages - 1) * asked_page_size request < Z.max 1 total
    <= total_pages * asked_page_size request /\
  (forall i,
     Forall2 (renders E) (page_slice all_rows (asked_page_size request) i)
       (listed (snd (UserFileListView_get E (with_page i request) w)))) /\
  pages_upto all_rows (asked_page_size request) (Z.to_nat total_pages) = all_rows /\
  (total <= asked_page_size request ->
   page_slice all_rows (asked_page_size request) 1 = all_rows /\
   forall r, r ∈ rows w -> matches request r ->
     exists item,
       item ∈ listed (snd (UserFileListView_get E (with_page 1 request) w)) /\
       renders E r item).
Proof.
  intros Hsize all_rows total total_pages.
  pose proof (num_pages_bounds total (asked_page_size request) Hsize)
    as (Hge & Hlt & Hle).
  fold total_pages in Hge, Hlt, Hle.
  assert (Hpage : forall i,
            Forall2 (renders E) (page_slice all_rows (asked_page_size request) i)
              (listed (snd (UserFileListView_get E (with_page i request) w)))).
  { intros i. rewrite (list_view_page E (with_page i request) w Hsize).
    change (matching_rows (with_page i request) w) with all_rows.
    change (asked_page_size (with_page i request)) with (asked_page_size request).
    change (asked_page (with_page i request)) with i.
    destruct (serialize_all_renders E
                (page_slice all_rows (asked_page_size request) i) w)
      as (w' & items & -> & _ & Hrender & _).
    exact Hrender. }
  split_and!; [lia | lia | exact Hpage | |].
  - rewrite pages_upto_take; [| lia |].
    + apply take_ge.
      assert (Htotal : total = Z.of_nat (length all_rows)) by reflexivity.
      clearbody total_pages total. nia.
    + change (Z.of_nat (Z.to_nat total_pages) <= total_pages). lia.
  - intros Hall.
    assert (Hwhole : page_slice all_rows (asked_page_size request) 1 = all_rows).
    { rewrite page_slice_chunk; [| lia |].
      - simpl. apply take_ge. unfold total in Hall. lia.
      - fold total. rewrite num_pages_one; lia. }
    split; [exact Hwhole |].
    intros r Hin Hmatch.
    assert (Hr : r ∈ all_rows) by now apply matching_rows_spec.
    specialize (Hpage 1). rewrite Hwhole in Hpage.
    apply list_elem_of_lookup in Hr as [i Hi].
    destruct (Forall2_lookup_l _ _ _ _ _ Hpage Hi) as (item & Hitem & Hshow).
    exists item. split; [| exact Hshow]. eapply list_elem_of_lookup_2. exact Hitem.
Qed.

Lemma list_pages_partition_witness :
  let all_rows := matching_rows (Sample.list_page 7 1 1) Sample.three_files in
  let total := Z.of_nat (length all_rows) in
  let total_pages := num_pages total (asked_page_size (Sample.list_page 7 1 1)) in
  (total_pages - 1) * asked_page_size (Sample.list_page 7 1 1) < Z.max 1 total
    <= total_pages * asked_page_size (Sample.list_page 7 1 1) /\
  (forall i,
     Forall2 (renders Sample.env_ticking)
       (page_slice all_rows (asked_page_size (Sample.list_page 7 1 1)) i)
       (listed (snd (UserFileListView_get Sample.env_ticking
                       (with_page i (Sample.list_page 7 1 1)) Sample.three_files)))) /\
  pages_upto all_rows (asked_page_size (Sample.list_page 7 1 1)) (Z.to_nat total_pages)
    = all_rows /\
  (total <= asked_page_size (Sample.list_page 7 1 1) ->
   page_slice all_rows (asked_page_size (Sample.list_page 7 1 1)) 1 = all_rows /\
   forall r, r ∈ rows Sample.three_files -> matches (Sample.list_page 7 1 1) r ->
     exists item,
       item ∈ listed (snd (UserFileListView_get Sample.env_ticking
                             (with_page 1 (Sample.list_page 7 1 1))
                             Sample.three_files)) /\
       renders Sample.env_ticking r item).
Proof.
  apply (list_pages_partition Sample.env_ticking (Sample.list_page 7 1 1)
           Sample.three_files).
  vm_compute. discriminate.
Defined.

(** ** What every row of a reachable ledger satisfies *)

Section RowInvariant.

Variable config : FILE_UPLOAD_CONFIG.
Variable E : Env.
Variable P : UserFileRecord.t -> Prop.

Hypothesis P_new :
  forall u fn fp fu fs ct pn ft d w, P (new_record E u fn fp fu fs ct pn ft d w).
Hypothesis P_deleted : forall r w, P r -> P (soft_deleted E r w).

Lemma objects_create_keeps (u : Z) (fn fp fu : string) (fs : N)
    (ct pn ft d : string) (w : World) :
  Forall P (rows w) ->
  Forall P (rows (fst (objects_create E u fn fp fu fs ct pn ft d w))).
Proof.
  intros H. rewrite objects_create_run.
  destruct (db_fault E (length (trace w))); [exact H |].
  destruct (path_taken fp w); [exact H |].
  destruct (uuid_taken _ w); [exact H |].
  simpl. apply Forall_app. split; [exact H |].
  constructor; [apply P_new | constructor].
Qed.

Lemma upload_view_keeps (request : UploadRequest.t) (w : World) :
  Forall P (rows w) ->
  Forall P (rows (fst (FileUploadView_post config E request w))).
Proof.
  intros H. unfold FileUploadView_post, run_view, FileUploadView_post_body, ret.
  destruct (FILES_get (UploadRequest.FILES_file request)) as [f |]; [| exact H].
  destruct (1 <? length (UploadRequest.FILES_file request))%nat; [exact H |].
  destruct (Py.truthy (UploadRequest.project_name request)); [| exact H].
  destruct (Py.truthy (UploadRequest.file_type request)); [| exact H].
  destruct (validate_file config f) as [[|] error_msg]; [| exact H].
  guards. unfold bind. rewrite upload_file_run.
  destruct (s3_fault E (length (trace w))) as [e |]; [exact H |].
  match goal with
  | |- context [objects_create E ?a ?b ?c ?d0 ?e0 ?f0 ?g ?h ?i ?w0] =>
      pose proof (objects_create_keeps a b c d0 e0 f0 g h i w0 H) as Hk;
      destruct (objects_create E a b c d0 e0 f0 g h i w0) as [w2 [record | e]]
  end; exact Hk.
Qed.

Lemma batch_file_keeps (u : Z) (pn ft d : string)
    (lists : list Uploaded * list Failed) (f : UploadedFile.t) (w : World) :
  Forall P (rows w) ->
  Forall P (rows (fst (batch_file config E u pn ft d lists f w))).
Proof.
  intros H. destruct lists as [success_list failed_list].
  unfold batch_file, try_except.
  destruct (validate_file config f) as [[|] error_msg]; [| exact H].
  guards. unfold bind. rewrite upload_file_run.
  destruct (s3_fault E (length (trace w))) as [e |]; [exact H |].
  match goal with
  | |- context [objects_create E ?a ?b ?c ?d0 ?e0 ?f0 ?g ?h ?i ?w0] =>
      pose proof (objects_create_keeps a b c d0 e0 f0 g h i w0 H) as Hk;
      destruct (objects_create E a b c d0 e0 f0 g h i w0) as [w2 [record | e]]
  end; exact Hk.
Qed.

Lemma batch_loop_keeps (u : Z) (pn ft d : string) (files : list UploadedFile.t) :
  forall (lists : list Uploaded * list Failed) (w : World),
    Forall P (rows w) ->
    Forall P (rows (fst (batch_loop config E u pn ft d files lists w))).
Proof.
  induction files as [| f files IH]; intros lists w H; cbn [batch_loop].
  - exact H.
  - pose proof (batch_file_keeps u pn ft d lists f w H) as H1.
    destruct (batch_file_run config E u pn ft d lists f w)
      as (w1 & lists1 & Hrun & _).
    unfold bind. rewrite Hrun in H1 |- *. apply IH. exact H1.
Qed.

Lemma batch_view_keeps (request : BatchRequest.t) (w : World) :
  Forall P (rows w) ->
  Forall P (rows (fst (FileBatchUploadView_post config E request w))).
Proof.
  intros H.
  destruct (batch_prechecks_or_rejected config request) as [Hpre | Hrej].
  - pose proof (batch_loop_keeps (BatchRequest.user request)
                  (Py.get_default (BatchRequest.project_name request) "")
                  (Py.get_default (BatchRequest.file_type request) "")
                  (Py.get_default (BatchRequest.description request) "")
                  (BatchRequest.FILES_files request) ([], []) w H) as Hk.
    destruct (batch_loop_run config E (BatchRequest.user request)
                (Py.get_default (BatchRequest.project_name request) "")
                (Py.get_default (BatchRequest.file_type request) "")
                (Py.get_default (BatchRequest.description request) "")
                (BatchRequest.FILES_files request) ([], []) w)
      as (w' & [success_list failed_list] & Hrun & _).
    rewrite Hrun in Hk.
    destruct (batch_view_unfold config E request w w' success_list failed_list
                Hpre Hrun) as [-> _].
    exact Hk.
  - destruct (batch_view_rejects config E request w Hrej) as [msg ->]. exact H.
Qed.

Lemma delete_view_keeps (request : DeleteRequest.t) (w : World) :
  Forall P (rows w) ->
  Forall P (rows (fst (FileDeleteView_delete E request w))).
Proof.
  intros H.
  destruct (delete_view_cases E request w)
    as [(_ & _ & ->) | [(v & text & _ & _ & _ & ->)
      | [(rid & _ & _ & ->) | (rid & r0 & Hid & Hfound)]]];
    [exact H | exact H | exact H |].
  rewrite (delete_view_found E request w rid r0 Hid Hfound).
  destruct (s3_fault E (length (trace w))) as [e |]; [exact H |].
  destruct (db_fault E (S (length (trace w)))) as [e |]; [exact H |].
  simpl. apply List.Forall_map.
  apply filter_id_user_first_Some in Hfound as (Hin & _).
  assert (H0 : P r0).
  { rewrite Forall_forall in H. now apply H. }
  eapply Forall_impl; [exact H |].
  intros x Hx. simpl. destruct (UserFileRecord.id x =? UserFileRecord.id r0);
    [now apply P_deleted | exact Hx].
Qed.

Lemma reachable_rows (w : World) : reachable config E w -> Forall P (rows w).
Proof.
  induction 1 as [w Hempty _ | request w _ IH | request w _ IH
                  | request w _ IH | request w _ IH].
  - rewrite Hempty. constructor.
  - now apply upload_view_keeps.
  - now apply batch_view_keeps.
  - now apply delete_view_keeps.
  - destruct (list_view_run E request w) as [(Hrows & _) _]. now rewrite Hrows.
Qed.

End RowInvariant.

(** On a ledger of plain rows the list view reads no clock. *)
Lemma list_view_plain (E : Env) (request : ListRequest.t) (w : World) :
  Forall plain_row (rows w) ->
  fst (UserFileListView_get E request w) = w /\
  Forall (fun item => FileItem.is_expired item = false)
    (listed (snd (UserFileListView_get E request w))).
Proof.
  intros Hplain.
  destruct (Z_lt_le_dec (asked_page_size request) 1) as [Hbad | Hsize].
  - unfold UserFileListView_get, run_view, UserFileListView_get_body, bind, get_page.
    fold (asked_page_size request). apply Z.ltb_lt in Hbad. rewrite Hbad.
    simpl. split; [reflexivity | constructor].
  - rewrite (list_view_page E request w Hsize).
    set (page_obj := page_slice (matching_rows request w) (asked_page_size request)
                       (asked_page request)).
    assert (Hpage : Forall plain_row page_obj).
    { rewrite Forall_forall in Hplain |- *. intros r Hr. apply Hplain.
      apply page_slice_subset in Hr. now apply matching_rows_spec in Hr as [Hr _]. }
    destruct (serialize_all_renders E page_obj w) as (w' & items & Hrun & _ & _ & Hsame).
    destruct (Hsame Hpage) as [-> ->]. rewrite Hrun. simpl.
    split; [reflexivity |]. apply List.Forall_map. now apply Forall_true.
Qed.

(** X18.  No endpoint ever sets an expiry.  In every world that the four
    endpoints can produce from an empty ledger, every row has no expiry,
    is public and has empty metadata; so a list request changes nothing at
    all, not even the clock, and every file it lists has [is_expired]
    false. *)
Theorem reachable_rows_never_expire
    (config : FILE_UPLOAD_CONFIG) (E : Env) (w : World) :
  reachable config E w ->
  Forall plain_row (rows w) /\
  forall request,
    fst (UserFileListView_get E request w) = w /\
    Forall (fun item => FileItem.is_expired item = false)
      (listed (snd (UserFileListView_get E request w))).
Proof.
  intros Hreach.
  assert (Hplain : Forall plain_row (rows w)).
  { apply (reachable_rows config E plain_row); [| | exact Hreach].
    - intros. now split_and!.
    - intros r w0 (H1 & H2 & H3). now split_and!. }
  split; [exact Hplain |]. intros request. now apply list_view_plain.
Qed.

Lemma reachable_rows_never_expire_witness :
  Forall plain_row (rows Sample.three_files) /\
  forall request,
    fst (UserFileListView_get Sample.env_ticking request Sample.three_files)
      = Sample.three_files /\
    Forall (fun item => FileItem.is_expired item = false)
      (listed (snd (UserFileListView_get Sample.env_ticking request
                      Sample.three_files))).
Proof.
  apply (reachable_rows_never_expire Demo.config Sample.env_ticking Sample.three_files).
  unfold Sample.three_files. do 3 apply reach_upload.
  apply reach_empty; reflexivity.
Defined.

(** ** An upload, then a listing *)

Lemma page_slice_first (r : UserFileRecord.t) (l : list UserFileRecord.t)
    (per_page : Z) :
  1 <= per_page ->
  exists rest, page_slice (r :: l) per_page 1 = r :: rest.
Proof.
  intros Hper. rewrite page_slice_chunk; [| exact Hper |].
  - simpl. destruct (Z.to_nat per_page) as [| k] eqn:Hk; [lia |].
    simpl. eauto.
  - pose proof (num_pages_bounds (Z.of_nat (length (r :: l))) per_page Hper). lia.
Qed.

(** The newest of the rows asked for is the first file of page 1. *)
Lemma list_first_item (E : Env) (request : ListRequest.t) (w : World)
    (record : UserFileRecord.t) :
  asked_page request = 1 -> 1 <= asked_page_size request ->
  record ∈ rows w -> matches request record ->
  (forall r, r ∈ rows w ->
     r = record \/ UserFileRecord.uploaded_at r < UserFileRecord.uploaded_at record) ->
  exists item rest,
    listed (snd (UserFileListView_get E request w)) = item :: rest /\
    renders E record item.
Proof.
  intros Hpage Hsize Hin Hmatch Hnewest.
  assert (Hmember : record ∈ matching_rows request w)
    by now apply matching_rows_spec.
  pose proof (matching_rows_sorted request w) as Hsorted.
  rewrite (list_view_page E request w Hsize), Hpage.
  destruct (matching_rows request w) as [| h t] eqn:Hrows;
    [now apply elem_of_nil in Hmember |].
  assert (Hhead : h = record).
  { assert (Hh : h ∈ rows w).
    { assert (Hh' : h ∈ matching_rows request w)
        by (rewrite Hrows; apply list_elem_of_here).
      now apply matching_rows_spec in Hh' as [Hh' _]. }
    destruct (Hnewest h Hh) as [Heq | Holder]; [exact Heq |].
    apply elem_of_cons in Hmember as [Heq | Htail]; [now symmetry |].
    apply StronglySorted_inv in Hsorted as [_ Hall].
    rewrite Forall_forall in Hall. specialize (Hall record Htail).
    unfold newer_first in Hall. lia. }
  subst h.
  destruct (page_slice_first record t (asked_page_size request) Hsize) as [rest ->].
  destruct (serialize_all_renders E (record :: rest) w)
    as (w' & items & -> & _ & Hrender & _).
  simpl. inversion Hrender as [| ? item ? items' Hitem _]; subst.
  now exists item, items'.
Qed.

(** X19.  The file just uploaded heads the listing.  A single upload
    that succeeds reads the clock four times: once for the key, then once
    for each of [created_at], [uploaded_at] and [updated_at] of the new
    row.  When the third of these readings, which becomes the upload time
    of the new row, is later than the upload time of every row of the
    ledger, page 1 of a listing by the uploader, whatever the page size of
    at least one, and with filters (if any) equal to the project name and
    file type of the upload, starts with the new file: its id is the
    record id of the upload answer, with the generated key, its URL, the
    file's name (or the custom name), size and content type, and the
    description. *)
Theorem upload_then_list_first
    (config : FILE_UPLOAD_CONFIG) (E : Env) (request : UploadRequest.t)
    (f : UploadedFile.t) (w : World) (listing : ListRequest.t) :
  upload_admitted config request f ->
  s3_fault E (length (trace w)) = None ->
  db_fault E (S (length (trace w))) = None ->
  path_taken (request_key E request f w) w = false ->
  uuid_taken (uuid4 E (S (uuid_draws w))) w = false ->
  Forall (fun r => UserFileRecord.uploaded_at r < now E (S (S (clock_reads w))))
    (rows w) ->
  ListRequest.user listing = UploadRequest.user request ->
  (Py.truthy (ListRequest.project_name listing) = true ->
   ListRequest.project_name listing = UploadRequest.project_name request) ->
  (Py.truthy (ListRequest.file_type listing) = true ->
   ListRequest.file_type listing = UploadRequest.file_type request) ->
  asked_page listing = 1 ->
  1 <= asked_page_size listing ->
  let key := request_key E request f w in
  let w' := fst (FileUploadView_post config E request w) in
  exists item rest,
    listed (snd (UserFileListView_get E listing w')) = item :: rest /\
    FileItem.id item = next_pk w /\
    FileItem.file_path item = key /\
    FileItem.file_url item = get_file_url E key /\
    FileItem.file_name item
      = Py.or_else (or_None (UploadRequest.custom_name request)) (UploadedFile.name f) /\
    FileItem.file_size item = UploadedFile.size f /\
    FileItem.content_type item = UploadedFile.content_type f /\
    FileItem.description item = Py.get_default (UploadRequest.description request) "".
Proof.
  intros Hadm Hs3 Hdb Hfree Huuid Holder Huser Hpn Hft Hpage Hsize key w'.
  subst key w'.
  rewrite (upload_view_admitted config E request f w Hadm).
  rewrite upload_file_run, Hs3. fold (request_key E request f w).
  rewrite objects_create_run. simpl.
  rewrite length_app. simpl. rewrite Nat.add_1_r, Hdb.
  unfold path_taken, uuid_taken in *. simpl. rewrite Hfree, Huuid. simpl.
  match goal with
  | |- context [UserFileListView_get E listing ?w1] => set (w' := w1)
  end.
  match goal with
  | w' := context [(rows w ++ [?r])%list] |- _ => set (record := r) in *
  end.
  destruct (list_first_item E listing w' record Hpage Hsize)
    as (item & rest & Hlisted & expired & ->).
  - apply elem_of_app. right. apply list_elem_of_here.
  - split_and!; [reflexivity | now symmetry | |].
    + intros Htruthy. simpl. now rewrite (Hpn Htruthy).
    + intros Htruthy. simpl. now rewrite (Hft Htruthy).
  - intros r Hr. change (rows w') with (rows w ++ [record])%list in Hr.
    apply elem_of_app in Hr as [Hr | Hr].
    + right. rewrite Forall_forall in Holder. exact (Holder r Hr).
    + left. now apply list_elem_of_singleton in Hr.
  - exists (item_of E record expired), rest.
    split; [exact Hlisted |]. split_and!; reflexivity.
Qed.

Lemma upload_then_list_first_witness :
  let key := request_key Sample.env_ticking (Sample.upload_by 7 [Demo.cat]) Demo.cat
               Sample.three_files in
  let w' := fst (FileUploadView_post Demo.config Sample.env_ticking
                   (Sample.upload_by 7 [Demo.cat]) Sample.three_files) in
  exists item rest,
    listed (snd (UserFileListView_get Sample.env_ticking (Sample.list_page 7 1 2) w'))
      = item :: rest /\
    FileItem.id item = next_pk Sample.three_files /\
    FileItem.file_path item = key /\
    FileItem.file_url item = get_file_url Sample.env_ticking key /\
    FileItem.file_name item
      = Py.or_else (or_None (UploadRequest.custom_name (Sample.upload_by 7 [Demo.cat])))
          (UploadedFile.name Demo.cat) /\
    FileItem.file_size item = UploadedFile.size Demo.cat /\
    FileItem.content_type item = UploadedFile.content_type Demo.cat /\
    FileItem.description item
      = Py.get_default (UploadRequest.description (Sample.upload_by 7 [Demo.cat])) "".
Proof.
  apply (upload_then_list_first Demo.config Sample.env_ticking
           (Sample.upload_by 7 [Demo.cat]) Demo.cat Sample.three_files
           (Sample.list_page 7 1 2)).
  - unfold upload_admitted. split_and!; vm_compute; reflexivity.
  - vm_compute. reflexivity.
  - vm_compute. reflexivity.
  - vm_compute. reflexivity.
  - vm_compute. reflexivity.
  - apply (bool_decide_eq_true_1 _). vm_compute. reflexivity.
  - reflexivity.
  - intros H. vm_compute in H. discriminate H.
  - intros H. vm_compute in H. discriminate H.
  - reflexivity.
  - vm_compute. discriminate.
Defined.

(** The listing of user 7 after a fourth upload: the new file first. *)
Example upload_then_list_demo :
  map (fun item => (FileItem.id item, FileItem.file_name item))
    (listed (snd (UserFileListView_get Sample.env_ticking (Sample.list_page 7 1 2)
                    (fst (FileUploadView_post Demo.config Sample.env_ticking
                            (Sample.upload_by 7 [Demo.cat]) Sample.three_files)))))
  = [(4, "cat.jpg"); (3, "dog.PNG")].
Proof. vm_compute. reflexivity. Qed.

(** ** The model: [file_size_mb] and the soft-delete methods *)

Lemma hundredths_mono (a b : Z) :
  a <= b -> Float.hundredths a <= Float.hundredths b.
Proof.
  intros Hab. unfold Float.hundredths.
  assert (HM : Float.MiB = 1048576) by reflexivity.
  assert (Hhalf : Float.MiB / 2 = 524288) by reflexivity.
  rewrite Hhalf.
  pose proof (Z.div_mod (100 * a) Float.MiB ltac:(rewrite HM; lia)) as Ha.
  pose proof (Z.mod_pos_bound (100 * a) Float.MiB ltac:(rewrite HM; lia)) as Hra.
  pose proof (Z.div_mod (100 * b) Float.MiB ltac:(rewrite HM; lia)) as Hb.
  pose proof (Z.mod_pos_bound (100 * b) Float.MiB ltac:(rewrite HM; lia)) as Hrb.
  set (qa := 100 * a / Float.MiB) in *. set (ra := (100 * a) mod Float.MiB) in *.
  set (qb := 100 * b / Float.MiB) in *. set (rb := (100 * b) mod Float.MiB) in *.
  clearbody qa ra qb rb. rewrite HM in *.
  destruct (Z.eq_dec qa qb) as [-> | Hne];
    destruct (Z.ltb_spec 524288 ra), (Z.eqb_spec ra 524288),
             (Z.ltb_spec 524288 rb), (Z.eqb_spec rb 524288);
    try destruct (Z.odd qa); destruct (Z.odd qb); simpl; lia.
Qed.

(** X20.  [file_size_mb] is the size in MiB to the nearest hundredth.  For
    sizes below [2^53] bytes: the value is within half a hundredth of
    [file_size / 2^20]; it is monotone in the size; and it is zero exactly
    for the files of at most 5242 bytes, which a listing therefore shows
    with [file_size_mb = 0.0]. *)
Theorem file_size_mb_nearest_hundredth (r r' : UserFileRecord.t) :
  (UserFileRecord.file_size r < 2 ^ 53)%N ->
  (UserFileRecord.file_size r' < 2 ^ 53)%N ->
  2 * Z.abs (file_size_mb r * Float.MiB - 100 * Z.of_N (UserFileRecord.file_size r))
    <= Float.MiB /\
  ((UserFileRecord.file_size r <= UserFileRecord.file_size r')%N ->
   file_size_mb r <= file_size_mb r') /\
  (file_size_mb r = 0 <-> (UserFileRecord.file_size r <= 5242)%N).
Proof.
  intros Hr Hr'. unfold file_size_mb.
  rewrite (div_MiB_exact _ Hr), (div_MiB_exact _ Hr').
  pose proof (hundredths_nearest (Z.of_N (UserFileRecord.file_size r))) as Hnear.
  assert (HM : Float.MiB = 1048576) by reflexivity.
  split_and!.
  - exact Hnear.
  - intros Hle. apply hundredths_mono. lia.
  - rewrite HM in Hnear. split; intros H.
    + rewrite H in Hnear. lia.
    + lia.
Qed.

Lemma file_size_mb_nearest_hundredth_witness :
  2 * Z.abs (file_size_mb Sample.small_row * Float.MiB
             - 100 * Z.of_N (UserFileRecord.file_size Sample.small_row))
    <= Float.MiB /\
  ((UserFileRecord.file_size Sample.small_row
    <= UserFileRecord.file_size Demo.cat_row)%N ->
   file_size_mb Sample.small_row <= file_size_mb Demo.cat_row) /\
  (file_size_mb Sample.small_row = 0
   <-> (UserFileRecord.file_size Sample.small_row <= 5242)%N).
Proof.
  apply (file_size_mb_nearest_hundredth Sample.small_row Demo.cat_row);
    vm_compute; reflexivity.
Defined.

Example file_size_mb_demo :
  map (fun size => Float.hundredths (Float.div_MiB size))
    [0; 5000; 5242; 5243; 2097152; 3145728]%N
  = [0; 0; 0; 1; 200; 300].
Proof. vm_compute. reflexivity. Qed.

Lemma restore_undoes_mark (E : Env) (r : UserFileRecord.t) (w : World) (t : Z) :
  UserFileRecord.is_deleted r = false ->
  UserFileRecord.deleted_at r = None ->
  UserFileRecord.touch (unmark_deleted (soft_deleted E r w)) t = UserFileRecord.touch r t.
Proof.
  destruct r. simpl. intros -> ->. reflexivity.
Qed.

Lemma filter_map_same {A : Type} (p : A -> bool) (f : A -> A) (l : list A) :
  (forall x, In x l -> f x = x \/ (p (f x) = false /\ p x = false)) ->
  List.filter p (map f l) = List.filter p l.
Proof.
  induction l as [| a l IH]; intros H; simpl; [reflexivity |].
  rewrite IH by (intros x Hx; apply H; now right).
  destruct (H a (or_introl eq_refl)) as [-> | [-> ->]]; reflexivity.
Qed.

(** X21.  [restore] undoes [delete].  For a live row [r], with no deletion
    time, of a ledger with unique keys, when neither UPDATE fails: after [r.delete()] no live row
    has the id of [r], and the deleted rows are those of before and the
    marked row; after [restore()] on the same instance the row is [r]
    again but for [updated_at], every other row is untouched, and the
    deleted rows are those of before.  Neither method touches the object
    store. *)
Theorem delete_then_restore (E : Env) (r : UserFileRecord.t) (w : World) :
  ledger_ok w ->
  r ∈ rows w ->
  UserFileRecord.is_deleted r = false ->
  UserFileRecord.deleted_at r = None ->
  db_fault E (length (trace w)) = None ->
  db_fault E (S (length (trace w))) = None ->
  let w1 := fst (SoftDeleteModel_delete E r w) in
  let w2 := fst (SoftDeleteModel_restore E (soft_deleted E r w) w1) in
  snd (SoftDeleteModel_delete E r w) = Returned tt /\
  snd (SoftDeleteModel_restore E (soft_deleted E r w) w1) = Returned tt /\
  (forall x, x ∈ get_queryset w1 -> UserFileRecord.id x <> UserFileRecord.id r) /\
  (forall x, x ∈ deleted_only w1 <-> x = soft_deleted E r w \/ x ∈ deleted_only w) /\
  rows w2 = map (fun x => if UserFileRecord.id x =? UserFileRecord.id r
                          then UserFileRecord.touch r (now E (S (S (clock_reads w))))
                          else x) (rows w) /\
  (forall x, x ∈ rows w -> x <> r -> x ∈ rows w2) /\
  deleted_only w2 = deleted_only w /\
  bucket w2 = bucket w /\
  new_events w w2 = [DbUpdate (UserFileRecord.id r); DbUpdate (UserFileRecord.id r)].
Proof.
  intros Hok Hin Hlive Hnone Hdb1 Hdb2 w1 w2. subst w2 w1.
  unfold SoftDeleteModel_restore, SoftDeleteModel_delete, save, bind, datetime_now.
  simpl. rewrite Hdb1. simpl. rewrite length_app. simpl. rewrite Nat.add_1_r, Hdb2.
  simpl. fold (soft_deleted E r w).
  assert (Hsame : forall x, x ∈ rows w ->
                    UserFileRecord.id x = UserFileRecord.id r -> x = r)
    by (intros x Hx; now apply (ledger_ok_id_inj w r x Hok)).
  split_and!; try reflexivity.
  - intros x Hx Hid. unfold get_queryset in Hx. simpl in Hx.
    apply list_elem_of_In, filter_In in Hx as [Hx Hxlive].
    apply in_map_iff in Hx as (y & Hy & _).
    destruct (UserFileRecord.id y =? UserFileRecord.id r) eqn:Heq.
    + subst x. simpl in Hxlive. discriminate Hxlive.
    + subst x. apply Z.eqb_neq in Heq. contradiction.
  - intros x. unfold deleted_only. simpl.
    rewrite !list_elem_of_In, !filter_In, in_map_iff. split.
    + intros [(y & Hy & Hyin) Hdel].
      destruct (UserFileRecord.id y =? UserFileRecord.id r); [now left |].
      subst y. now right.
    + intros [-> | [Hx Hdel]].
      * split; [| reflexivity]. exists r. rewrite Z.eqb_refl.
        split; [reflexivity | now apply list_elem_of_In].
      * split; [| exact Hdel]. exists x. split; [| exact Hx].
        destruct (UserFileRecord.id x =? UserFileRecord.id r) eqn:Heq; [| reflexivity].
        apply Z.eqb_eq in Heq. apply list_elem_of_In in Hx.
        rewrite (Hsame x Hx Heq), Hlive in Hdel. discriminate Hdel.
  - rewrite map_map. apply map_ext. intros x.
    destruct (UserFileRecord.id x =? UserFileRecord.id r) eqn:Heq.
    + simpl. rewrite Z.eqb_refl. now apply restore_undoes_mark.
    + now rewrite Heq.
  - intros x Hx Hne. apply list_elem_of_In. rewrite map_map. apply in_map_iff.
    exists x. split; [| now apply list_elem_of_In].
    destruct (UserFileRecord.id x =? UserFileRecord.id r) eqn:Heq.
    + apply Z.eqb_eq in Heq. now specialize (Hsame x Hx Heq).
    + now rewrite Heq.
  - unfold deleted_only. simpl. rewrite map_map. apply filter_map_same.
    intros x Hx. destruct (UserFileRecord.id x =? UserFileRecord.id r) eqn:Heq.
    + right. simpl. rewrite Z.eqb_refl. simpl. apply Z.eqb_eq in Heq.
      apply list_elem_of_In in Hx. rewrite (Hsame x Hx Heq). now split.
    + left. now rewrite Heq.
  - unfold new_events. simpl. now rewrite <- app_assoc, drop_app_length.
Qed.

Lemma one_file_rows : rows Demo.one_file = [Demo.cat_row].
Proof. vm_compute. reflexivity. Qed.

Lemma one_file_ledger_ok : ledger_ok Demo.one_file.
Proof.
  apply (reachable_ledger_ok Demo.config Demo.env).
  apply reach_upload, reach_empty; reflexivity.
Qed.

Lemma delete_then_restore_witness :
  let w1 := fst (SoftDeleteModel_delete Demo.env Demo.cat_row Demo.one_file) in
  let w2 := fst (SoftDeleteModel_restore Demo.env
                   (soft_deleted Demo.env Demo.cat_row Demo.one_file) w1) in
  snd (SoftDeleteModel_delete Demo.env Demo.cat_row Demo.one_file) = Returned tt /\
  snd (SoftDeleteModel_restore Demo.env
         (soft_deleted Demo.env Demo.cat_row Demo.one_file) w1) = Returned tt /\
  (forall x, x ∈ get_queryset w1 ->
             UserFileRecord.id x <> UserFileRecord.id Demo.cat_row) /\
  (forall x, x ∈ deleted_only w1 <->
             x = soft_deleted Demo.env Demo.cat_row Demo.one_file \/
             x ∈ deleted_only Demo.one_file) /\
  rows w2 = map (fun x => if UserFileRecord.id x =? UserFileRecord.id Demo.cat_row
                          then UserFileRecord.touch Demo.cat_row
                                 (now Demo.env (S (S (clock_reads Demo.one_file))))
                          else x) (rows Demo.one_file) /\
  (forall x, x ∈ rows Demo.one_file -> x <> Demo.cat_row -> x ∈ rows w2) /\
  deleted_only w2 = deleted_only Demo.one_file /\
  bucket w2 = bucket Demo.one_file /\
  new_events Demo.one_file w2
    = [DbUpdate (UserFileRecord.id Demo.cat_row);
       DbUpdate (UserFileRecord.id Demo.cat_row)].
Proof.
  apply (delete_then_restore Demo.env Demo.cat_row Demo.one_file).
  - exact one_file_ledger_ok.
  - rewrite one_file_rows. apply list_elem_of_here.
  - reflexivity.
  - reflexivity.
  - reflexivity.
  - reflexivity.
Defined.

Lemma filter_sublist {A : Type} (p : A -> bool) (l : list A) :
  List.filter p l `sublist_of` l.
Proof.
  induction l as [| a l IH]; simpl; [constructor |].
  destruct (p a); now constructor.
Qed.

(** X22.  [hard_delete] frees the path, [delete] does not.  For a row [r]
    of a ledger with unique keys and paths, when the DELETE does not fail:
    the table is the one of before without [r], still with unique keys
    and paths; the path of [r] is free for a new insert, whereas after the
    soft delete of [r] it is still taken; and the object store is not
    touched, so the object of [r] stays in the bucket. *)
Theorem hard_delete_frees_path (E : Env) (r : UserFileRecord.t) (w : World) :
  ledger_ok w ->
  r ∈ rows w ->
  db_fault E (length (trace w)) = None ->
  let w' := fst (SoftDeleteModel_hard_delete E r w) in
  snd (SoftDeleteModel_hard_delete E r w) = Returned tt /\
  (forall x, x ∈ rows w' <-> x ∈ rows w /\ x <> r) /\
  ledger_ok w' /\
  path_taken (UserFileRecord.file_path r) w' = false /\
  path_taken (UserFileRecord.file_path r) (fst (SoftDeleteModel_delete E r w)) = true /\
  bucket w' = bucket w.
Proof.
  intros Hok Hin Hdb w'. subst w'.
  unfold SoftDeleteModel_hard_delete. rewrite Hdb. simpl.
  set (keep := fun x => negb (UserFileRecord.id x =? UserFileRecord.id r)).
  assert (Hrows : forall x, x ∈ List.filter keep (rows w) <-> x ∈ rows w /\ x <> r).
  { intros x. rewrite !list_elem_of_In, filter_In. unfold keep.
    rewrite negb_true_iff, Z.eqb_neq, <- list_elem_of_In. split.
    - intros [Hx Hid]. split; [exact Hx | congruence].
    - intros [Hx Hne]. split; [exact Hx |]. intros Hid.
      apply Hne. exact (ledger_ok_id_inj w r x Hok Hin Hx Hid). }
  split_and!; [reflexivity | exact Hrows | | | | reflexivity].
  - destruct Hok as (Hpaths & Hids & Hlt & Hpos). unfold ledger_ok. simpl.
    split_and!; [| | | exact Hpos].
    + eapply sublist_NoDup; [exact Hpaths |].
      apply (fmap_sublist UserFileRecord.file_path), filter_sublist.
    + eapply sublist_NoDup; [exact Hids |].
      apply (fmap_sublist UserFileRecord.id), filter_sublist.
    + rewrite Forall_forall in Hlt |- *. intros x Hx.
      apply Hlt. now apply Hrows in Hx as [Hx _].
  - apply not_true_is_false. intros Htaken.
    apply path_taken_spec, list_elem_of_In, in_map_iff in Htaken
      as (x & Hpath & Hx).
    simpl in Hx. apply list_elem_of_In, Hrows in Hx as [Hx Hne].
    apply Hne. exact (ledger_ok_path_inj w r x Hok Hin Hx Hpath).
  - apply path_taken_spec, list_elem_of_In, in_map_iff.
    unfold SoftDeleteModel_delete, save, bind, datetime_now. simpl.
    rewrite Hdb. simpl. exists (soft_deleted E r w). split; [reflexivity |].
    apply in_map_iff. exists r. rewrite Z.eqb_refl.
    split; [reflexivity | now apply list_elem_of_In].
Qed.

Lemma hard_delete_frees_path_witness :
  let w' := fst (SoftDeleteModel_hard_delete Demo.env Demo.cat_row Demo.one_file) in
  snd (SoftDeleteModel_hard_delete Demo.env Demo.cat_row Demo.one_file) = Returned tt /\
  (forall x, x ∈ rows w' <-> x ∈ rows Demo.one_file /\ x <> Demo.cat_row) /\
  ledger_ok w' /\
  path_taken (UserFileRecord.file_path Demo.cat_row) w' = false /\
  path_taken (UserFileRecord.file_path Demo.cat_row)
    (fst (SoftDeleteModel_delete Demo.env Demo.cat_row Demo.one_file)) = true /\
  bucket w' = bucket Demo.one_file.
Proof.
  apply (hard_delete_frees_path Demo.env Demo.cat_row Demo.one_file).
  - exact one_file_ledger_ok.
  - rewrite one_file_rows. apply list_elem_of_here.
  - reflexivity.
Defined.

(** ** More on the batch *)

(** One turn of the loop does the same to the world and to the success
    list whatever the failures collected so far. *)
Lemma batch_file_failed_indep (config : FILE_UPLOAD_CONFIG) (E : Env) (u : Z)
    (pn ft d : string) (success_list : list Uploaded) (fl1 fl2 : list Failed)
    (f : UploadedFile.t) (w : World) :
  exists w' news newf,
    batch_file config E u pn ft d (success_list, fl1) f w
      = (w', Returned ((success_list ++ news)%list, (fl1 ++ newf)%list)) /\
    batch_file config E u pn ft d (success_list, fl2) f w
      = (w', Returned ((success_list ++ news)%list, (fl2 ++ newf)%list)) /\
    (length news + length newf = 1)%nat /\
    Forall (fun entry => UploadResult.original_name (upload_result entry)
                         = UploadedFile.name f) news /\
    Forall (fun entry => failed_name entry = UploadedFile.name f) newf /\
    (fst (validate_file config f) = false -> w' = w /\ news = []).
Proof.
  unfold batch_file, try_except.
  destruct (validate_file config f) as [[|] error_msg]; simpl.
  2:{ exists w, [], [{| failed_name := UploadedFile.name f; error := error_msg |}].
      rewrite app_nil_r. split_and!; try reflexivity; [constructor | | done].
      now repeat constructor. }
  unfold bind. rewrite upload_file_run.
  destruct (s3_fault E (length (trace w))) as [e |].
  { eexists _, [], [_]. rewrite app_nil_r.
    split_and!; try reflexivity; [constructor | | discriminate].
    now repeat constructor. }
  rewrite objects_create_run. simpl.
  destruct (db_fault E _) as [e |];
    [| destruct (path_taken _ _); [| destruct (uuid_taken _ _)]].
  1-3: eexists _, [], [_]; rewrite app_nil_r;
    (split_and!; try reflexivity; [constructor | | discriminate]);
    now repeat constructor.
  eexists _, [_], []. rewrite !app_nil_r.
  split_and!; try reflexivity; [| constructor | discriminate].
  now repeat constructor.
Qed.

Lemma batch_loop_valid (config : FILE_UPLOAD_CONFIG) (E : Env) (u : Z)
    (pn ft d : string) (files : list UploadedFile.t) :
  forall (success_list : list Uploaded) (fl1 fl2 : list Failed) (w : World),
  exists w' news newf1 newf2,
    batch_loop config E u pn ft d files (success_list, fl1) w
      = (w', Returned ((success_list ++ news)%list, (fl1 ++ newf1)%list)) /\
    batch_loop config E u pn ft d (valid_files config files) (success_list, fl2) w
      = (w', Returned ((success_list ++ news)%list, (fl2 ++ newf2)%list)) /\
    (length newf1 + length (valid_files config files)
     = length newf2 + length files)%nat /\
    map (fun entry => UploadResult.original_name (upload_result entry)) news
      `sublist_of` map UploadedFile.name files /\
    map failed_name newf1 `sublist_of` map UploadedFile.name files.
Proof.
  induction files as [| f files IH]; intros success_list fl1 fl2 w.
  - exists w, [], [], []. rewrite !app_nil_r. simpl.
    split_and!; try reflexivity; constructor.
  - destruct (batch_file_failed_indep config E u pn ft d success_list fl1 fl2 f w)
      as (w1 & news & newf & Hrun1 & Hrun2 & Hone & Hnames & Hnamef & Hinvalid).
    unfold valid_files. cbn [batch_loop List.filter length map].
    unfold bind at 1. rewrite Hrun1.
    destruct (fst (validate_file config f)) eqn:Hvalid.
    + destruct (IH (success_list ++ news)%list (fl1 ++ newf)%list (fl2 ++ newf)%list w1)
        as (w2 & news' & newf1 & newf2 & Hloop1 & Hloop2 & Hlen & Hsub1 & Hsub2).
      cbn [batch_loop]. unfold bind. rewrite Hrun2.
      exists w2, (news ++ news')%list, (newf ++ newf1)%list, (newf ++ newf2)%list.
      rewrite !app_assoc. split_and!; [exact Hloop1 | exact Hloop2 | | |].
      * rewrite !length_app. simpl. fold (valid_files config files). lia.
      * rewrite map_app. destruct news as [| entry [| ? ?]]; simpl in Hone |- *.
        -- now apply sublist_cons.
        -- apply Forall_cons in Hnames as [-> _]. now apply sublist_skip.
        -- lia.
      * rewrite map_app. destruct newf as [| entry [| ? ?]]; simpl in Hone |- *.
        -- now apply sublist_cons.
        -- apply Forall_cons in Hnamef as [-> _]. now apply sublist_skip.
        -- destruct news; simpl in Hone; lia.
    + destruct (Hinvalid eq_refl) as [-> ->]. rewrite app_nil_r in *.
      destruct (IH success_list (fl1 ++ newf)%list fl2 w)
        as (w2 & news' & newf1 & newf2 & Hloop1 & Hloop2 & Hlen & Hsub1 & Hsub2).
      exists w2, news', (newf ++ newf1)%list, newf2.
      rewrite !app_assoc. split_and!; [exact Hloop1 | exact Hloop2 | | |].
      * rewrite !length_app. simpl in Hone |- *. fold (valid_files config files). lia.
      * now apply sublist_cons.
      * rewrite map_app. destruct newf as [| entry [| ? ?]]; simpl in Hone |- *.
        -- lia.
        -- apply Forall_cons in Hnamef as [-> _]. now apply sublist_skip.
        -- lia.
Qed.

Lemma batch_view_lists (config : FILE_UPLOAD_CONFIG) (E : Env)
    (request : BatchRequest.t) (w w' : World)
    (success_list : list Uploaded) (failed_list : list Failed) :
  batch_prechecks config request ->
  batch_loop config E (BatchRequest.user request)
    (Py.get_default (BatchRequest.project_name request) "")
    (Py.get_default (BatchRequest.file_type request) "")
    (Py.get_default (BatchRequest.description request) "")
    (BatchRequest.FILES_files request) ([], []) w
    = (w', Returned (success_list, failed_list)) ->
  fst (FileBatchUploadView_post config E request w) = w' /\
  batch_success_files (snd (FileBatchUploadView_post config E request w))
    = success_list /\
  batch_failed_files (snd (FileBatchUploadView_post config E request w))
    = failed_list.
Proof.
  intros Hpre Hrun.
  destruct (batch_view_unfold config E request w w' success_list failed_list Hpre Hrun)
    as [Hw Hdata].
  unfold batch_success_files, batch_failed_files. rewrite Hdata. now split_and!.
Qed.

(** X23.  The files that fail validation are transparent.  For a batch
    that passes the pre-checks and has at least one valid file, the same
    batch without its invalid files leaves the same world and answers with
    the same success list; the failure list of the full batch is longer
    by the number of invalid files. *)
Theorem batch_invalid_files_transparent
    (config : FILE_UPLOAD_CONFIG) (E : Env) (request : BatchRequest.t) (w : World) :
  batch_prechecks config request ->
  valid_files config (BatchRequest.FILES_files request) <> [] ->
  let files := BatchRequest.FILES_files request in
  let request' := with_files (valid_files config files) request in
  fst (FileBatchUploadView_post config E request w)
    = fst (FileBatchUploadView_post config E request' w) /\
  batch_success_files (snd (FileBatchUploadView_post config E request w))
    = batch_success_files (snd (FileBatchUploadView_post config E request' w)) /\
  (length (batch_failed_files (snd (FileBatchUploadView_post config E request w)))
   = length (batch_failed_files (snd (FileBatchUploadView_post config E request' w)))
     + (length files - length (valid_files config files)))%nat.
Proof.
  intros Hpre Hvalid files request'.
  assert (Hshorter : (length (valid_files config files) <= length files)%nat)
    by apply List.filter_length_le.
  assert (Hpre' : batch_prechecks config request').
  { destruct Hpre as (_ & Hpn & Hft & Hcount).
    unfold batch_prechecks, request'. simpl. fold files in Hcount.
    split_and!; [exact Hvalid | exact Hpn | exact Hft | lia]. }
  destruct (batch_loop_valid config E (BatchRequest.user request)
              (Py.get_default (BatchRequest.project_name request) "")
              (Py.get_default (BatchRequest.file_type request) "")
              (Py.get_default (BatchRequest.description request) "")
              files [] [] [] w)
    as (w' & news & newf1 & newf2 & Hrun1 & Hrun2 & Hlen & _).
  destruct (batch_view_lists config E request w w' _ _ Hpre Hrun1)
    as (-> & -> & ->).
  destruct (batch_view_lists config E request' w w' _ _ Hpre' Hrun2)
    as (-> & -> & ->).
  split_and!; [reflexivity | reflexivity |]. simpl. lia.
Qed.

Lemma batch_invalid_files_transparent_witness :
  let files := BatchRequest.FILES_files (Demo.batch [Demo.big; Demo.cat; Demo.notes]) in
  let request' :=
    with_files (valid_files Demo.config files)
      (Demo.batch [Demo.big; Demo.cat; Demo.notes]) in
  fst (FileBatchUploadView_post Demo.config Demo.env
         (Demo.batch [Demo.big; Demo.cat; Demo.notes]) Demo.empty)
    = fst (FileBatchUploadView_post Demo.config Demo.env request' Demo.empty) /\
  batch_success_files
    (snd (FileBatchUploadView_post Demo.config Demo.env
            (Demo.batch [Demo.big; Demo.cat; Demo.notes]) Demo.empty))
    = batch_success_files
        (snd (FileBatchUploadView_post Demo.config Demo.env request' Demo.empty)) /\
  (length (batch_failed_files
             (snd (FileBatchUploadView_post Demo.config Demo.env
                     (Demo.batch [Demo.big; Demo.cat; Demo.notes]) Demo.empty)))
   = length (batch_failed_files
               (snd (FileBatchUploadView_post Demo.config Demo.env request'
                       Demo.empty)))
     + (length files - length (valid_files Demo.config files)))%nat.
Proof.
  apply (batch_invalid_files_transparent Demo.config Demo.env
           (Demo.batch [Demo.big; Demo.cat; Demo.notes]) Demo.empty).
  - unfold batch_prechecks. split_and!; [discriminate | reflexivity | reflexivity |].
    vm_compute. discriminate.
  - vm_compute. discriminate.
Defined.

(** X9.  A batch that passes the pre-checks reports every submitted file
    under its own name, once, and in the order of submission: the names of
    the success entries together with the names of the failure entries are
    the names of the submitted files, up to order; the names of the success
    entries, in their order, and those of the failure entries, in theirs,
    are each a subsequence of the names of the submitted files; and every
    success entry carries the id and the path of a live row of the
    ledger. *)
Theorem batch_reports_every_file
    (config : FILE_UPLOAD_CONFIG) (E : Env) (request : BatchRequest.t) (w : World) :
  batch_prechecks config request ->
  exists b,
    data (snd (FileBatchUploadView_post config E request w)) = Some (BatchData b) /\
    reported_names (success_files b) (failed_files b)
      ≡ₚ map UploadedFile.name (BatchRequest.FILES_files request) /\
    map (fun entry => UploadResult.original_name (upload_result entry)) (success_files b)
      `sublist_of` map UploadedFile.name (BatchRequest.FILES_files request) /\
    map failed_name (failed_files b)
      `sublist_of` map UploadedFile.name (BatchRequest.FILES_files request) /\
    Forall (recorded (fst (FileBatchUploadView_post config E request w)))
      (success_files b).
Proof.
  intros Hpre.
  destruct (batch_loop_report config E (BatchRequest.user request)
              (Py.get_default (BatchRequest.project_name request) "")
              (Py.get_default (BatchRequest.file_type request) "")
              (Py.get_default (BatchRequest.description request) "")
              (BatchRequest.FILES_files request) [] [] w (List.Forall_nil _))
    as (w' & sl & fl & Hrun & Hperm & Hrec & _).
  destruct (batch_loop_valid config E (BatchRequest.user request)
              (Py.get_default (BatchRequest.project_name request) "")
              (Py.get_default (BatchRequest.file_type request) "")
              (Py.get_default (BatchRequest.description request) "")
              (BatchRequest.FILES_files request) [] [] [] w)
    as (w2 & news & newf1 & newf2 & Hrun' & _ & _ & Hsub1 & Hsub2).
  rewrite Hrun in Hrun'. injection Hrun' as _ Hsl Hfl.
  simpl in Hsl, Hfl. subst news newf1.
  destruct (batch_view_unfold config E request w w' sl fl Hpre Hrun) as [Hw Hdata].
  rewrite Hw, Hdata. eexists. split; [reflexivity |]. simpl. now split_and!.
Qed.

Lemma batch_reports_every_file_witness :
  exists b,
    data (snd (FileBatchUploadView_post Demo.config Demo.env
                 (Demo.batch [Demo.cat; Demo.big; Sample.dog]) Demo.empty))
      = Some (BatchData b) /\
    reported_names (success_files b) (failed_files b)
      ≡ₚ map UploadedFile.name
           (BatchRequest.FILES_files (Demo.batch [Demo.cat; Demo.big; Sample.dog])) /\
    map (fun entry => UploadResult.original_name (upload_result entry)) (success_files b)
      `sublist_of` map UploadedFile.name
                     (BatchRequest.FILES_files
                        (Demo.batch [Demo.cat; Demo.big; Sample.dog])) /\
    map failed_name (failed_files b)
      `sublist_of` map UploadedFile.name
                     (BatchRequest.FILES_files
                        (Demo.batch [Demo.cat; Demo.big; Sample.dog])) /\
    Forall (recorded (fst (FileBatchUploadView_post Demo.config Demo.env
                             (Demo.batch [Demo.cat; Demo.big; Sample.dog]) Demo.empty)))
      (success_files b).
Proof.
  apply (batch_reports_every_file Demo.config Demo.env
           (Demo.batch [Demo.cat; Demo.big; Sample.dog]) Demo.empty).
  unfold batch_prechecks. split_and!; [discriminate | reflexivity .. |].
  vm_compute. discriminate.
Defined.

(** X24.  A single upload is a batch of one.  For a request with exactly
    one file and no custom name, and a batch limit of at least one, the
    single upload endpoint and the batch endpoint given the same file and
    fields leave the same world; and the single upload answers with an
    upload entry exactly when that entry is the one success of the batch. *)
Theorem single_upload_as_batch
    (config : FILE_UPLOAD_CONFIG) (E : Env) (request : UploadRequest.t)
    (f : UploadedFile.t) (w : World) :
  UploadRequest.FILES_file request = [f] ->
  or_None (UploadRequest.custom_name request) = None ->
  1 <= MAX_BATCH_COUNT config ->
  fst (FileUploadView_post config E request w)
    = fst (FileBatchUploadView_post config E (as_batch request) w) /\
  forall u,
    data (snd (FileUploadView_post config E request w)) = Some (UploadData u) <->
    batch_success_files (snd (FileBatchUploadView_post config E (as_batch request) w))
      = [u].
Proof.
  intros Hfiles Hcustom Hlimit.
  unfold FileUploadView_post, FileBatchUploadView_post, run_view,
    FileUploadView_post_body, FileBatchUploadView_post_body, batch_success_files,
    as_batch.
  cbn [BatchRequest.FILES_files BatchRequest.project_name BatchRequest.file_type
       BatchRequest.description BatchRequest.user].
  rewrite Hfiles, Hcustom.
  change (FILES_get [f]) with (Some f).
  change (1 <? length [f])%nat with false.
  assert (Hcount : (MAX_BATCH_COUNT config <? Z.of_nat (length [f])) = false)
    by (apply Z.ltb_ge; simpl; lia).
  rewrite Hcount. cbv beta iota.
  destruct (Py.truthy (UploadRequest.project_name request)); guards;
    [| split; [reflexivity | intros u; split; intros H; discriminate H]].
  destruct (Py.truthy (UploadRequest.file_type request)); guards;
    [| split; [reflexivity | intros u; split; intros H; discriminate H]].
  cbn [batch_loop]. unfold batch_file, try_except, bind.
  destruct (validate_file config f) as [[|] error_msg]; guards;
    [| split; [reflexivity | intros u; split; intros H; discriminate H]].
  rewrite upload_file_run.
  destruct (s3_fault E (length (trace w))) as [e |];
    [split; [reflexivity | intros u; split; intros H; discriminate H] |].
  rewrite objects_create_run. simpl.
  destruct (db_fault E _) as [e |];
    [| destruct (path_taken _ _); [| destruct (uuid_taken _ _)]];
    simpl; (split; [reflexivity | intros u; split; intros H]);
    first [discriminate H | congruence].
Qed.

Lemma single_upload_as_batch_witness :
  fst (FileUploadView_post Demo.config Demo.env (Demo.upload [Demo.cat]) Demo.one_file)
    = fst (FileBatchUploadView_post Demo.config Demo.env
             (as_batch (Demo.upload [Demo.cat])) Demo.one_file) /\
  forall u,
    data (snd (FileUploadView_post Demo.config Demo.env (Demo.upload [Demo.cat])
                 Demo.one_file)) = Some (UploadData u) <->
    batch_success_files
      (snd (FileBatchUploadView_post Demo.config Demo.env
              (as_batch (Demo.upload [Demo.cat])) Demo.one_file))
      = [u].
Proof.
  apply (single_upload_as_batch Demo.config Demo.env (Demo.upload [Demo.cat])
           Demo.cat Demo.one_file).
  - reflexivity.
  - reflexivity.
  - vm_compute. discriminate.
Defined.

(** ** An upload, then its deletion *)

(** The lookup of the delete view finds the row that was just inserted. *)
Lemma filter_id_user_first_new (w w1 : World) (record : UserFileRecord.t) :
  rows w1 = (rows w ++ [record])%list ->
  Forall (fun r => UserFileRecord.id r < UserFileRecord.id record) (rows w) ->
  UserFileRecord.is_deleted record = false ->
  filter_id_user_first (UserFileRecord.id record) (UserFileRecord.user record) w1
    = Some record.
Proof.
  intros Hrows Hbelow Hlive. unfold filter_id_user_first, get_queryset.
  rewrite Hrows, !List.filter_app. simpl. rewrite Hlive. simpl.
  rewrite !Z.eqb_refl. simpl.
  rewrite filter_nil; [reflexivity |].
  intros x Hx. apply filter_In in Hx as [Hx _].
  rewrite Forall_forall in Hbelow. apply list_elem_of_In, Hbelow in Hx.
  assert (Hne : (UserFileRecord.id x =? UserFileRecord.id record) = false)
    by (apply Z.eqb_neq; lia).
  now rewrite Hne.
Qed.

(** X25.  An upload and then the deletion of the record that it reports,
    by the same user, all four calls succeeding, in a ledger with keys as
    the database assigns them: the deletion is answered 200; the bucket is
    the one of before the upload without the generated key, hence exactly
    the one of before when the key was free; the live rows are those of
    before; the table has one more row, marked deleted, that still holds
    the key as its path; and the calls are the store write, the insert,
    the store deletion and the update, in this order. *)
Theorem upload_then_delete_round_trip
    (config : FILE_UPLOAD_CONFIG) (E : Env) (request : UploadRequest.t)
    (f : UploadedFile.t) (w : World) :
  ledger_ok w ->
  upload_admitted config request f ->
  s3_fault E (length (trace w)) = None ->
  db_fault E (S (length (trace w))) = None ->
  path_taken (request_key E request f w) w = false ->
  uuid_taken (uuid4 E (S (uuid_draws w))) w = false ->
  s3_fault E (S (S (length (trace w)))) = None ->
  db_fault E (S (S (S (length (trace w))))) = None ->
  let key := request_key E request f w in
  let w1 := fst (FileUploadView_post config E request w) in
  let removal :=
    {| DeleteRequest.user := UploadRequest.user request;
       DeleteRequest.id := Some (DeleteRequest.Number (next_pk w)) |} in
  let w2 := fst (FileDeleteView_delete E removal w1) in
  snd (FileDeleteView_delete E removal w1) = APIResponse.success None "删除成功" /\
  bucket w2 = delete key (bucket w) /\
  (bucket w !! key = None -> bucket w2 = bucket w) /\
  get_queryset w2 = get_queryset w /\
  (exists record,
     rows w2 = (rows w ++ [record])%list /\
     UserFileRecord.id record = next_pk w /\
     UserFileRecord.file_path record = key /\
     UserFileRecord.is_deleted record = true) /\
  new_events w w2 = [S3Put key; DbInsert key; S3Delete key; DbUpdate (next_pk w)].
Proof.
  intros Hok Hadm Hs3 Hdb Hfree Huuid Hs3' Hdb' key w1 removal w2.
  subst w2 w1 key.
  rewrite (upload_view_admitted config E request f w Hadm).
  rewrite upload_file_run, Hs3. fold (request_key E request f w).
  set (key := request_key E request f w) in *.
  rewrite objects_create_run. simpl.
  rewrite length_app. simpl. rewrite Nat.add_1_r, Hdb.
  unfold path_taken, uuid_taken in *. simpl. rewrite Hfree, Huuid. simpl.
  match goal with
  | |- context [FileDeleteView_delete E removal ?w0] => set (w1 := w0)
  end.
  match goal with
  | w1 := context [(rows w ++ [?r])%list] |- _ => set (record := r) in *
  end.
  assert (Hbelow : Forall (fun r => UserFileRecord.id r < next_pk w) (rows w)).
  { destruct Hok as (_ & _ & Hlt & _). eapply Forall_impl; [exact Hlt |].
    simpl. intros; lia. }
  assert (Hnz : next_pk w <> 0) by (destruct Hok as (_ & _ & _ & Hpos); lia).
  assert (Hfound : filter_id_user_first (next_pk w) (DeleteRequest.user removal) w1
                   = Some record)
    by (apply (filter_id_user_first_new w w1 record); [reflexivity | exact Hbelow
                                                       | reflexivity]).
  rewrite (delete_view_found E removal w1 (next_pk w) record
             (named_id_Number E removal (next_pk w) eq_refl Hnz) Hfound).
  assert (Hlen : length (trace w1) = S (S (length (trace w)))).
  { unfold w1. simpl. rewrite !length_app. simpl. lia. }
  rewrite Hlen, Hs3', Hdb'. simpl.
  assert (Hmap : map (fun x => if UserFileRecord.id x =? next_pk w
                               then soft_deleted E record w1 else x) (rows w)
                 = rows w).
  { rewrite <- (map_id (rows w)) at 2. apply map_ext_in. intros x Hx.
    rewrite Forall_forall in Hbelow. apply list_elem_of_In, Hbelow in Hx.
    assert (Hne : (UserFileRecord.id x =? next_pk w) = false)
      by (apply Z.eqb_neq; lia).
    now rewrite Hne. }
  rewrite map_app, Hmap. simpl. rewrite Z.eqb_refl.
  split_and!.
  - reflexivity.
  - apply delete_insert_eq.
  - intros Hnone. rewrite delete_insert_eq. now apply delete_id.
  - unfold get_queryset. simpl. rewrite List.filter_app. simpl.
    now rewrite app_nil_r.
  - eexists. split_and!; reflexivity.
  - unfold new_events. simpl.
    rewrite <- !app_assoc. simpl. now rewrite drop_app_length.
Qed.

Lemma upload_then_delete_round_trip_witness :
  let key := request_key Sample.env_ticking (Sample.upload_by 7 [Demo.cat]) Demo.cat
               Sample.three_files in
  let w1 := fst (FileUploadView_post Demo.config Sample.env_ticking
                   (Sample.upload_by 7 [Demo.cat]) Sample.three_files) in
  let removal :=
    {| DeleteRequest.user := UploadRequest.user (Sample.upload_by 7 [Demo.cat]);
       DeleteRequest.id :=
         Some (DeleteRequest.Number (next_pk Sample.three_files)) |} in
  let w2 := fst (FileDeleteView_delete Sample.env_ticking removal w1) in
  snd (FileDeleteView_delete Sample.env_ticking removal w1)
    = APIResponse.success None "删除成功" /\
  bucket w2 = delete key (bucket Sample.three_files) /\
  (bucket Sample.three_files !! key = None -> bucket w2 = bucket Sample.three_files) /\
  get_queryset w2 = get_queryset Sample.three_files /\
  (exists record,
     rows w2 = (rows Sample.three_files ++ [record])%list /\
     UserFileRecord.id record = next_pk Sample.three_files /\
     UserFileRecord.file_path record = key /\
     UserFileRecord.is_deleted record = true) /\
  new_events Sample.three_files w2
    = [S3Put key; DbInsert key; S3Delete key; DbUpdate (next_pk Sample.three_files)].
Proof.
  apply (upload_then_delete_round_trip Demo.config Sample.env_ticking
           (Sample.upload_by 7 [Demo.cat]) Demo.cat Sample.three_files).
  - exact three_files_ledger_ok.
  - unfold upload_admitted. split_and!; vm_compute; reflexivity.
  - vm_compute. reflexivity.
  - vm_compute. reflexivity.
  - vm_compute. reflexivity.
  - vm_compute. reflexivity.
  - vm_compute. reflexivity.
  - vm_compute. reflexivity.
Defined.

(** X26.  A deletion whose update fails can be sent again.  When the store
    deletion succeeds and the update of the row fails, the answer is 500,
    the object is gone from the bucket and the row is as before: still
    live, and still found by the same request.  Sent again, with both
    calls succeeding, the request is answered 200: the store deletion is
    made a second time, for a key that the bucket no longer has, and the
    row is marked deleted. *)
Theorem delete_retry_after_update_failure
    (E : Env) (request : DeleteRequest.t) (w : World)
    (record_id : Z) (r : UserFileRecord.t) (e : Exc) :
  named_id E request = Some record_id ->
  filter_id_user_first record_id (DeleteRequest.user request) w = Some r ->
  s3_fault E (length (trace w)) = None ->
  db_fault E (S (length (trace w))) = Some e ->
  s3_fault E (S (S (length (trace w)))) = None ->
  db_fault E (S (S (S (length (trace w))))) = None ->
  let path := UserFileRecord.file_path r in
  let w1 := fst (FileDeleteView_delete E request w) in
  let w2 := fst (FileDeleteView_delete E request w1) in
  snd (FileDeleteView_delete E request w)
    = APIResponse.error ("删除失败: " +:+ str e) 500 500 /\
  rows w1 = rows w /\
  bucket w1 = delete path (bucket w) /\
  filter_id_user_first record_id (DeleteRequest.user request) w1 = Some r /\
  snd (FileDeleteView_delete E request w1) = APIResponse.success None "删除成功" /\
  bucket w2 = delete path (bucket w) /\
  rows w2 = map (fun x => if UserFileRecord.id x =? UserFileRecord.id r
                          then soft_deleted E r w1 else x) (rows w) /\
  new_events w w2
    = [S3Delete path; DbUpdate (UserFileRecord.id r);
       S3Delete path; DbUpdate (UserFileRecord.id r)].
Proof.
  intros Hid Hfound Hs3 Hdb Hs3' Hdb' path w1 w2. subst w2 w1.
  rewrite (delete_view_found E request w record_id r Hid Hfound).
  rewrite Hs3, Hdb. fold path. simpl.
  match goal with
  | |- context [FileDeleteView_delete E request ?w0] => set (w1 := w0)
  end.
  assert (Hfound1 : filter_id_user_first record_id (DeleteRequest.user request) w1
                    = Some r) by exact Hfound.
  rewrite (delete_view_found E request w1 record_id r Hid Hfound1).
  assert (Hlen : length (trace w1) = S (S (length (trace w)))).
  { unfold w1. simpl. rewrite !length_app. simpl. lia. }
  rewrite Hlen, Hs3', Hdb'. fold path. simpl.
  split_and!; try reflexivity.
  - exact Hfound1.
  - apply delete_delete_eq.
  - unfold new_events. simpl.
    rewrite <- !app_assoc. simpl. now rewrite drop_app_length.
Qed.

Lemma delete_retry_after_update_failure_witness :
  let path := UserFileRecord.file_path Demo.cat_row in
  let w1 := fst (FileDeleteView_delete Sample.env_db_hiccup (Demo.delete_by 7 1)
                   Demo.one_file) in
  let w2 := fst (FileDeleteView_delete Sample.env_db_hiccup (Demo.delete_by 7 1) w1) in
  snd (FileDeleteView_delete Sample.env_db_hiccup (Demo.delete_by 7 1) Demo.one_file)
    = APIResponse.error ("删除失败: " +:+ str (OtherError "database is locked"))
        500 500 /\
  rows w1 = rows Demo.one_file /\
  bucket w1 = delete path (bucket Demo.one_file) /\
  filter_id_user_first 1 (DeleteRequest.user (Demo.delete_by 7 1)) w1
    = Some Demo.cat_row /\
  snd (FileDeleteView_delete Sample.env_db_hiccup (Demo.delete_by 7 1) w1)
    = APIResponse.success None "删除成功" /\
  bucket w2 = delete path (bucket Demo.one_file) /\
  rows w2 = map (fun x => if UserFileRecord.id x =? UserFileRecord.id Demo.cat_row
                          then soft_deleted Sample.env_db_hiccup Demo.cat_row w1
                          else x) (rows Demo.one_file) /\
  new_events Demo.one_file w2
    = [S3Delete path; DbUpdate (UserFileRecord.id Demo.cat_row);
       S3Delete path; DbUpdate (UserFileRecord.id Demo.cat_row)].
Proof.
  apply (delete_retry_after_update_failure Sample.env_db_hiccup (Demo.delete_by 7 1)
           Demo.one_file 1 Demo.cat_row (OtherError "database is locked")).
  - reflexivity.
  - vm_compute. reflexivity.
  - reflexivity.
  - vm_compute. reflexivity.
  - reflexivity.
  - vm_compute. reflexivity.
Defined.

(** ** The host of the Redis connection *)

Lemma prefix_app (s1 s2 : string) :
  String.prefix s1 s2 = true -> exists t, s2 = s1 +:+ t.
Proof.
  revert s2. induction s1 as [| a s1 IH]; intros s2 H.
  - now exists s2.
  - destruct s2 as [| b s2]; simpl in H; [discriminate H |].
    destruct (ascii_dec a b) as [-> | _]; [| discriminate H].
    destruct (IH s2 H) as [t ->]. now exists t.
Qed.

Lemma has_char_app (c : ascii) (a b : string) :
  Redis.has_char c (a +:+ b) = Redis.has_char c a || Redis.has_char c b.
Proof.
  induction a as [| x a IH]; [reflexivity |].
  change (String x a +:+ b) with (String x (a +:+ b)). cbn [Redis.has_char].
  now rewrite IH, orb_assoc.
Qed.

Lemma has_char_slashes (c : ascii) (n : nat) :
  c <> "/"%char -> Redis.has_char c (Redis.slashes n) = false.
Proof.
  intros Hne. induction n as [| n IH]; cbn [Redis.slashes Redis.has_char];
    [reflexivity |].
  rewrite IH, orb_false_r. apply Ascii.eqb_neq. congruence.
Qed.

(** A text without the character [c] has no occurrence of a word that
    contains [c]. *)
Lemma replace_by_empty_absent (c : ascii) (old s : string) :
  Redis.has_char c old = true -> Redis.has_char c s = false ->
  Redis.replace_by_empty old s = s.
Proof.
  intros Hold. unfold Redis.replace_by_empty.
  induction s as [| a s IH]; intros Hs; [reflexivity |].
  cbn [Redis.remove_from].
  destruct (String.prefix old (String a s)) eqn:Hprefix.
  - apply prefix_app in Hprefix as [t Ht].
    rewrite Ht, has_char_app, Hold in Hs. discriminate Hs.
  - cbn [Redis.has_char] in Hs. apply orb_false_iff in Hs as [_ Hs]. now rewrite IH.
Qed.

Lemma rstrip_slashes (n : nat) : Redis.rstrip "/" (Redis.slashes n) = "".
Proof.
  induction n as [| n IH]; cbn [Redis.slashes Redis.rstrip]; [reflexivity |].
  now rewrite IH.
Qed.

Lemma rstrip_trailing (h : string) (n : nat) :
  Redis.has_char "/" h = false -> Redis.rstrip "/" (h +:+ Redis.slashes n) = h.
Proof.
  induction h as [| a h IH]; intros Hh.
  - apply rstrip_slashes.
  - cbn [Redis.has_char] in Hh. apply orb_false_iff in Hh as [Ha Hh].
    change (String a h +:+ Redis.slashes n) with (String a (h +:+ Redis.slashes n)).
    cbn [Redis.rstrip]. rewrite (IH Hh), Ha. now destruct h.
Qed.

Lemma rstrip_no_trailing (c : ascii) (s : string) :
  forall s', Redis.rstrip c s <> s' +:+ String c "".
Proof.
  induction s as [| a s IH]; intros s'; cbn [Redis.rstrip].
  - destruct s'; simpl; discriminate.
  - destruct (Redis.rstrip c s) as [| b r] eqn:Hr.
    + destruct (Ascii.eqb a c) eqn:Ha; [destruct s'; simpl; discriminate |].
      apply Ascii.eqb_neq in Ha.
      destruct s' as [| x s']; simpl; [intros Heq; injection Heq as Heq; contradiction |].
      destruct s'; simpl; discriminate.
    + destruct s' as [| x s']; simpl; [discriminate |].
      intros Heq. injection Heq as _ Heq. exact (IH s' Heq).
Qed.

Lemma prefix_head (s t : string) : String.prefix s (s +:+ t) = true.
Proof.
  induction s as [| a s IH]; [now destruct t |].
  simpl. destruct (ascii_dec a a) as [_ | Hne]; [exact IH | contradiction].
Qed.

Lemma remove_from_skip (old pre t : string) :
  Redis.remove_from old (String.length pre) (pre +:+ t) = Redis.remove_from old 0 t.
Proof. induction pre as [| a pre IH]; [reflexivity | exact IH]. Qed.

(** An occurrence at the start is removed. *)
Lemma replace_by_empty_head (a : ascii) (old t : string) :
  Redis.replace_by_empty (String a old) (String a old +:+ t)
  = Redis.replace_by_empty (String a old) t.
Proof.
  unfold Redis.replace_by_empty.
  change (String a old +:+ t) with (String a (old +:+ t)).
  cbn [Redis.remove_from].
  change (String a (old +:+ t)) with (String a old +:+ t).
  rewrite prefix_head.
  replace (String.length (String a old) - 1)%nat with (String.length old)
    by (simpl; lia).
  apply remove_from_skip.
Qed.

(** X27.  The host that [RedisClient] connects to.  Whatever the
    configured value, the host never ends with a slash.  For a name [h]
    without slash and colon, the configured values [h], [http://h] and
    [https://h], each followed by any number of slashes, all give the host
    [h]. *)
Theorem redis_host_strips_scheme (h : string) (n : nat) :
  Redis.has_char "/" h = false ->
  Redis.has_char ":" h = false ->
  Redis.host (h +:+ Redis.slashes n) = h /\
  Redis.host ("http://" +:+ h +:+ Redis.slashes n) = h /\
  Redis.host ("https://" +:+ h +:+ Redis.slashes n) = h /\
  forall raw_host s', Redis.host raw_host <> s' +:+ "/".
Proof.
  intros Hslash Hcolon.
  assert (Hrest : Redis.has_char ":" (h +:+ Redis.slashes n) = false).
  { rewrite has_char_app, Hcolon. apply has_char_slashes. discriminate. }
  assert (Hplain : Redis.host (h +:+ Redis.slashes n) = h).
  { unfold Redis.host.
    rewrite (replace_by_empty_absent ":" "http://") by (reflexivity || exact Hrest).
    rewrite (replace_by_empty_absent ":" "https://") by (reflexivity || exact Hrest).
    now apply rstrip_trailing. }
  split_and!.
  - exact Hplain.
  - unfold Redis.host in *.
    rewrite (replace_by_empty_head "h" "ttp://" (h +:+ Redis.slashes n)).
    exact Hplain.
  - unfold Redis.host in *.
    change (Redis.replace_by_empty "http://" ("https://" +:+ h +:+ Redis.slashes n))
      with ("https://" +:+ Redis.replace_by_empty "http://" (h +:+ Redis.slashes n)).
    rewrite (replace_by_empty_absent ":" "http://") by (reflexivity || exact Hrest).
    rewrite (replace_by_empty_head "h" "ttps://" (h +:+ Redis.slashes n)).
    rewrite (replace_by_empty_absent ":" "https://") by (reflexivity || exact Hrest).
    now apply rstrip_trailing.
  - intros raw_host s'. apply rstrip_no_trailing.
Qed.

Lemma redis_host_strips_scheme_witness :
  Redis.host ("redis.example.com" +:+ Redis.slashes 2) = "redis.example.com" /\
  Redis.host ("http://" +:+ "redis.example.com" +:+ Redis.slashes 2)
    = "redis.example.com" /\
  Redis.host ("https://" +:+ "redis.example.com" +:+ Redis.slashes 2)
    = "redis.example.com" /\
  forall raw_host s', Redis.host raw_host <> s' +:+ "/".
Proof.
  apply (redis_host_strips_scheme "redis.example.com" 2); reflexivity.
Defined.

(** The scheme is removed wherever it stands, and a removal can bring a
    scheme together that is then left in the host. *)
Example redis_host_demo :
  map Redis.host
    ["127.0.0.1"; "https://cache.internal/"; "cachehttp://01"; "hthttp://tp://h"]
  = ["127.0.0.1"; "cache.internal"; "cache01"; "http://h"].
Proof. vm_compute. reflexivity. Qed.

(** ** The Qwen client *)

Lemma stream_loop_goes_on (chunk : Qwen.Obj) (rest : list Qwen.Obj)
    (broken : option Qwen.Err) :
  Qwen.goes_on chunk = true ->
  exists item,
    Qwen.dict_get item "success" Qwen.ONone = Qwen.OBool true /\
    Qwen.stream_loop (chunk :: rest) broken
    = {| Qwen.yielded := item :: Qwen.yielded (Qwen.stream_loop rest broken);
         Qwen.pulled := S (Qwen.pulled (Qwen.stream_loop rest broken));
         Qwen.raised := Qwen.raised (Qwen.stream_loop rest broken) |}.
Proof.
  unfold Qwen.goes_on. cbn [Qwen.stream_loop].
  destruct (Qwen.getattr chunk "status_code") as [e | status_code];
    [discriminate |].
  destruct (Qwen.is_200 status_code); [| discriminate].
  destruct (Qwen.success_item chunk) as [e | item] eqn:Hitem; [discriminate |].
  intros _. exists item. split; [| reflexivity].
  unfold Qwen.success_item, Qwen.and_then in Hitem.
  destruct (Qwen.message_field chunk "content"); [discriminate Hitem |].
  destruct (Qwen.choice_field chunk "finish_reason"); [discriminate Hitem |].
  injection Hitem as <-. reflexivity.
Qed.

Lemma stream_loop_stops (chunk : Qwen.Obj) (rest : list Qwen.Obj)
    (broken : option Qwen.Err) :
  Qwen.goes_on chunk = false ->
  Qwen.stream_loop (chunk :: rest) broken = Qwen.stream_loop [chunk] None /\
  Qwen.pulled (Qwen.stream_loop [chunk] None) = 1%nat /\
  ((Qwen.yielded (Qwen.stream_loop [chunk] None) = [] /\
    is_Some (Qwen.raised (Qwen.stream_loop [chunk] None))) \/
   (exists item,
      Qwen.yielded (Qwen.stream_loop [chunk] None) = [item] /\
      Qwen.dict_get item "success" Qwen.ONone = Qwen.OBool false /\
      Qwen.raised (Qwen.stream_loop [chunk] None) = None)).
Proof.
  unfold Qwen.goes_on. cbn [Qwen.stream_loop].
  destruct (Qwen.getattr chunk "status_code") as [e | status_code] eqn:Hstatus.
  { intros _. split_and!; [reflexivity | reflexivity | left; split; eauto]. }
  destruct (Qwen.is_200 status_code).
  - destruct (Qwen.success_item chunk) as [e | item]; [| discriminate].
    intros _. split_and!; [reflexivity | reflexivity | left; split; eauto].
  - intros _. destruct (Qwen.failure_item chunk) as [e | item] eqn:Hitem.
    + split_and!; [reflexivity | reflexivity | left; split; eauto].
    + split_and!; [reflexivity | reflexivity |]. right. exists item.
      split_and!; [reflexivity | | reflexivity].
      unfold Qwen.failure_item, Qwen.and_then in Hitem. rewrite Hstatus in Hitem.
      destruct (Qwen.getattr chunk "code"); [discriminate Hitem |].
      destruct (Qwen.getattr chunk "message"); [discriminate Hitem |].
      injection Hitem as <-. reflexivity.
Qed.

(** X28.  The stream generator ends at the first chunk that is not a
    success.  When the chunks [pre] all have status 200 and a readable
    item, and the next chunk does not, the generator takes exactly
    [length pre + 1] chunks from the stream of the library, whatever
    follows: it yields one success item per chunk of [pre] and then either
    one failure item, after which it ends normally, or nothing, ending in
    the exception of the failed read.  When every chunk is a success, it
    yields one success item per chunk and ends as the stream of the library
    ends. *)
Theorem stream_ends_at_first_failure
    (pre : list Qwen.Obj) (chunk : Qwen.Obj) (rest : list Qwen.Obj)
    (broken : option Qwen.Err) :
  Forall (fun c => Qwen.goes_on c = true) pre ->
  Qwen.goes_on chunk = false ->
  let g := Qwen._handle_stream_response
             {| Qwen.chunks := (pre ++ chunk :: rest)%list; Qwen.broken := broken |} in
  g = Qwen._handle_stream_response
        {| Qwen.chunks := (pre ++ [chunk])%list; Qwen.broken := None |} /\
  Qwen.pulled g = S (length pre) /\
  (exists items last,
     Qwen.yielded g = (items ++ last)%list /\
     length items = length pre /\
     Forall (fun item => Qwen.dict_get item "success" Qwen.ONone = Qwen.OBool true)
       items /\
     ((last = [] /\ is_Some (Qwen.raised g)) \/
      (exists item, last = [item] /\
                    Qwen.dict_get item "success" Qwen.ONone = Qwen.OBool false /\
                    Qwen.raised g = None))) /\
  (forall all ending,
     Forall (fun c => Qwen.goes_on c = true) all ->
     let g' := Qwen._handle_stream_response
                 {| Qwen.chunks := all; Qwen.broken := ending |} in
     length (Qwen.yielded g') = length all /\
     Forall (fun item => Qwen.dict_get item "success" Qwen.ONone = Qwen.OBool true)
       (Qwen.yielded g') /\
     Qwen.pulled g' = length all /\
     Qwen.raised g' = ending).
Proof.
  intros Hpre Hchunk g. subst g. unfold Qwen._handle_stream_response.
  cbn [Qwen.chunks Qwen.broken].
  split_and!.
  - induction Hpre as [| c pre Hc _ IH]; [now apply stream_loop_stops |].
    rewrite <- !app_comm_cons. cbn [Qwen.stream_loop]. now rewrite IH.
  - induction Hpre as [| c pre Hc _ IH]; cbn [app length].
    + destruct (stream_loop_stops chunk rest broken Hchunk) as (-> & Hpulled & _).
      exact Hpulled.
    + destruct (stream_loop_goes_on c (pre ++ chunk :: rest) broken Hc) as (item & _ & Heq).
      rewrite Heq. cbn [Qwen.pulled]. now rewrite IH.
  - induction Hpre as [| c pre Hc _ IH]; cbn [app length].
    + destruct (stream_loop_stops chunk rest broken Hchunk) as (-> & _ & Hlast).
      destruct Hlast as [[Hnone Hraised] | (item & Hitem & Hfalse & Hraised)].
      * exists [], []. rewrite Hnone. split_and!; [reflexivity | reflexivity | constructor |].
        now left.
      * exists [], [item]. rewrite Hitem.
        split_and!; [reflexivity | reflexivity | constructor |].
        right. now exists item.
    + destruct (stream_loop_goes_on c (pre ++ chunk :: rest) broken Hc)
        as (item & Htrue & Heq).
      rewrite Heq. cbn [Qwen.yielded Qwen.raised].
      destruct IH as (items & last & Hyield & Hlen & Hall & Hlast).
      exists (item :: items), last. rewrite Hyield.
      split_and!; [reflexivity | simpl; now rewrite Hlen | now constructor | exact Hlast].
  - intros all ending Hall.
    induction Hall as [| c all Hc _ IH]; [now split_and! |].
    destruct (stream_loop_goes_on c all ending Hc) as (item & Htrue & ->).
    cbn [Qwen.yielded Qwen.pulled Qwen.raised].
    destruct IH as (Hlen & Hitems & Hpulled & Hraised).
    split_and!; [simpl; now rewrite Hlen | now constructor | now rewrite Hpulled
                 | exact Hraised].
Qed.

Lemma stream_ends_at_first_failure_witness :
  let g := Qwen._handle_stream_response
             {| Qwen.chunks := ([Qwen.chunk_ok "Hel"] ++
                                Qwen.chunk_failed :: [Qwen.chunk_ok "lo"])%list;
                Qwen.broken := None |} in
  g = Qwen._handle_stream_response
        {| Qwen.chunks := ([Qwen.chunk_ok "Hel"] ++ [Qwen.chunk_failed])%list;
           Qwen.broken := None |} /\
  Qwen.pulled g = S (length [Qwen.chunk_ok "Hel"]) /\
  (exists items last,
     Qwen.yielded g = (items ++ last)%list /\
     length items = length [Qwen.chunk_ok "Hel"] /\
     Forall (fun item => Qwen.dict_get item "success" Qwen.ONone = Qwen.OBool true)
       items /\
     ((last = [] /\ is_Some (Qwen.raised g)) \/
      (exists item, last = [item] /\
                    Qwen.dict_get item "success" Qwen.ONone = Qwen.OBool false /\
                    Qwen.raised g = None))) /\
  (forall all ending,
     Forall (fun c => Qwen.goes_on c = true) all ->
     let g' := Qwen._handle_stream_response
                 {| Qwen.chunks := all; Qwen.broken := ending |} in
     length (Qwen.yielded g') = length all /\
     Forall (fun item => Qwen.dict_get item "success" Qwen.ONone = Qwen.OBool true)
       (Qwen.yielded g') /\
     Qwen.pulled g' = length all /\
     Qwen.raised g' = ending).
Proof.
  apply (stream_ends_at_first_failure [Qwen.chunk_ok "Hel"] Qwen.chunk_failed
           [Qwen.chunk_ok "lo"] None).
  - constructor; [reflexivity | constructor].
  - reflexivity.
Defined.

Example stream_demo :
  Qwen._handle_stream_response
    {| Qwen.chunks := [Qwen.chunk_ok "Hel"; Qwen.chunk_failed; Qwen.chunk_ok "lo"];
       Qwen.broken := None |}
  = {| Qwen.yielded :=
         [[("success", Qwen.OBool true); ("content", Qwen.OStr "Hel");
           ("finish_reason", Qwen.OStr "null")];
          [("success", Qwen.OBool false); ("status_code", Qwen.OInt 429);
           ("error_code", Qwen.OStr "Throttling");
           ("error_message", Qwen.OStr "Requests rate limit exceeded")]];
       Qwen.pulled := 2;
       Qwen.raised := None |}.
Proof. reflexivity. Qed.

Lemma collides_false (names : list string) (kwargs : gmap string Qwen.Obj) :
  Qwen.collides names kwargs = false <->
  forall name, In name names -> kwargs !! name = None.
Proof.
  unfold Qwen.collides. induction names as [| n names IH]; simpl.
  - split; [intros _ name [] | reflexivity].
  - rewrite orb_false_iff, IH, bool_decide_eq_false. split.
    + intros [Hn Hrest] name [<- | Hin]; [| now apply Hrest].
      destruct (kwargs !! n) eqn:Hlookup; [| reflexivity].
      exfalso. apply Hn. eauto.
    + intros H. split.
      * rewrite (H n (or_introl eq_refl)). now intros [x Hx].
      * intros name Hin. apply H. now right.
Qed.

(** X29.  [simple_chat] answers with text or raises, and hides a failure
    of the service.  For keywords that do not clash with the arguments
    that the client passes itself: a model outside [SUPPORTED_MODELS] is a
    [ValueError] before any call of the library; for a supported model the
    library is called exactly once, at the text endpoint, with the key of
    the client, the two messages and [result_format = "message"].  When
    the reply reports a failure, the result is the empty text, as for an
    empty answer of the model.  With a true [stream] among the keywords
    the call is made and the result is an [AttributeError], whatever the
    library returns. *)
Theorem simple_chat_outcomes
    (A : Qwen.Api) (self : Qwen.QwenClient)
    (user_message system_message model : string)
    (kwargs : gmap string Qwen.Obj) (w : Qwen.World) :
  Qwen.collides ["messages"; "model"; "api_key"; "result_format"] kwargs = false ->
  let c := {| Qwen.endpoint := Qwen.Generation;
              Qwen.call_api_key := Qwen.api_key self;
              Qwen.call_model := model;
              Qwen.call_messages := Qwen.single_turn system_message user_message;
              Qwen.call_result_format := Some "message";
              Qwen.call_stream := default (Qwen.OBool false) (kwargs !! "stream");
              Qwen.call_kwargs := delete "stream" kwargs |} in
  let result := Qwen.simple_chat A self user_message system_message model kwargs w in
  (model ∉ Qwen.SUPPORTED_MODELS ->
   fst result = w /\ exists msg, snd result = inl (Qwen.ValueError msg)) /\
  (model ∈ Qwen.SUPPORTED_MODELS ->
   fst result = Qwen.record_call c w /\
   (Qwen.truthy (Qwen.call_stream c) = true ->
    forall s, Qwen.reply_stream A (length (Qwen.calls w)) c = inr s ->
              snd result = inl Qwen.AttributeError) /\
   (Qwen.truthy (Qwen.call_stream c) = false ->
    forall r, Qwen.reply A (length (Qwen.calls w)) c = inr r ->
              Qwen.reports_failure r ->
              snd result = inr (Qwen.OStr ""))).
Proof.
  intros Hfree c result. subst result.
  pose proof (proj1 (collides_false _ _) Hfree) as Hnone.
  assert (Hown : Qwen.collides ["messages"; "model"] kwargs = false).
  { apply collides_false. intros name Hin. apply Hnone. simpl in Hin |- *. tauto. }
  assert (Hchat : Qwen.collides ["api_key"; "model"; "messages"; "result_format"; "stream"]
                    (delete "stream" kwargs) = false).
  { apply collides_false. intros name Hin.
    destruct (decide ("stream" = name)) as [<- | Hne]; [apply lookup_delete_eq |].
    rewrite lookup_delete_ne by exact Hne. apply Hnone.
    simpl in Hin |- *. destruct Hin as [<- | [<- | [<- | [<- | [<- | []]]]]];
      tauto. }
  unfold Qwen.simple_chat, Qwen.chat, Qwen._validate_model.
  rewrite Hown, Hchat.
  split.
  - intros Hout. rewrite bool_decide_eq_false_2 by exact Hout.
    split; [reflexivity | eauto].
  - intros Hin. rewrite bool_decide_eq_true_2 by exact Hin.
    fold c. unfold Qwen.call_and_handle.
    destruct (Qwen.truthy (Qwen.call_stream c)) eqn:Hstream.
    + split_and!.
      * now destruct (Qwen.reply_stream A (length (Qwen.calls w)) c).
      * intros _ s ->. reflexivity.
      * discriminate.
    + split_and!.
      * destruct (Qwen.reply A (length (Qwen.calls w)) c) as [e | r]; [reflexivity |].
        now destruct (Qwen._handle_response r).
      * discriminate.
      * intros _ r -> (status_code & code & message & Hstatus & Hnot & Hcode & Hmessage).
        unfold Qwen._handle_response, Qwen.and_then.
        rewrite Hstatus, Hnot, Hcode, Hmessage. reflexivity.
Qed.

Lemma simple_chat_outcomes_witness :
  let c := {| Qwen.endpoint := Qwen.Generation;
              Qwen.call_api_key := Qwen.api_key Qwen.client;
              Qwen.call_model := "qwen-plus";
              Qwen.call_messages :=
                Qwen.single_turn "You are a helpful assistant." "Who are you?";
              Qwen.call_result_format := Some "message";
              Qwen.call_stream :=
                default (Qwen.OBool false)
                  (({["stream" := Qwen.OBool true]} : gmap string Qwen.Obj) !! "stream");
              Qwen.call_kwargs :=
                delete "stream" ({["stream" := Qwen.OBool true]} : gmap string Qwen.Obj) |} in
  let result := Qwen.simple_chat Qwen.api Qwen.client "Who are you?"
                  "You are a helpful assistant." "qwen-plus"
                  ({["stream" := Qwen.OBool true]} : gmap string Qwen.Obj) Qwen.fresh in
  ("qwen-plus" ∉ Qwen.SUPPORTED_MODELS ->
   fst result = Qwen.fresh /\ exists msg, snd result = inl (Qwen.ValueError msg)) /\
  ("qwen-plus" ∈ Qwen.SUPPORTED_MODELS ->
   fst result = Qwen.record_call c Qwen.fresh /\
   (Qwen.truthy (Qwen.call_stream c) = true ->
    forall s, Qwen.reply_stream Qwen.api (length (Qwen.calls Qwen.fresh)) c = inr s ->
              snd result = inl Qwen.AttributeError) /\
   (Qwen.truthy (Qwen.call_stream c) = false ->
    forall r, Qwen.reply Qwen.api (length (Qwen.calls Qwen.fresh)) c = inr r ->
              Qwen.reports_failure r ->
              snd result = inr (Qwen.OStr ""))).
Proof.
  apply (simple_chat_outcomes Qwen.api Qwen.client "Who are you?"
           "You are a helpful assistant." "qwen-plus"
           ({["stream" := Qwen.OBool true]} : gmap string Qwen.Obj) Qwen.fresh).
  vm_compute. reflexivity.
Defined.

(** The sample service answers every plain call with a failure: the
    caller of [simple_chat] gets the empty text; with [stream] it gets an
    [AttributeError]; an unknown model does not reach the service. *)
Example simple_chat_demo :
  snd (Qwen.simple_chat Qwen.api Qwen.client "Who are you?" "Be brief." "qwen-plus"
         ∅ Qwen.fresh) = inr (Qwen.OStr "") /\
  snd (Qwen.simple_chat Qwen.api Qwen.client "Who are you?" "Be brief." "qwen-plus"
         {["stream" := Qwen.OBool true]} Qwen.fresh) = inl Qwen.AttributeError /\
  Qwen.simple_chat Qwen.api Qwen.client "Who are you?" "Be brief." "qwen3"
    ∅ Qwen.fresh
  = (Qwen.fresh,
     inl (Qwen.ValueError
            "不支持的模型: qwen3，支持的模型: ['qwen-plus', 'qwen-max']")).
Proof. split_and!; vm_compute; reflexivity. Qed.

Lemma construct_all_keeps_intl (A : Qwen.Api)
    (later : list (option string * string)) :
  forall w, Qwen.base_http_api_url w = Some Qwen.intl_url ->
            Qwen.base_http_api_url (Qwen.construct_all A later w) = Some Qwen.intl_url.
Proof.
  induction later as [| [key region] later IH]; intros w Hw; [exact Hw |].
  cbn [Qwen.construct_all]. apply IH. unfold Qwen.__init__.
  destruct (negb _); [exact Hw |].
  destruct (String.eqb region "intl"); [reflexivity | exact Hw].
Qed.

(** X30.  The key and the region of a client.  The constructor raises
    [ValueError] exactly when the argument, the setting and the
    environment variable are all missing or empty, and then changes
    nothing; otherwise the key of the client is not empty and is the first
    of the three that is not missing or empty.  The region [intl] sets the
    address of the library; every other region leaves it as it is: once a
    client for [intl] was built, the address stays the international one
    whatever clients are built afterwards, for whatever region. *)
Theorem client_key_and_region
    (A : Qwen.Api) (key : option string) (region : string) (w : Qwen.World) :
  let result := Qwen.__init__ A key region w in
  ((exists msg, snd result = inl (Qwen.ValueError msg)) <->
   Py.truthy key = false /\
   Py.truthy (Qwen.settings_DASHSCOPE_API_KEY A) = false /\
   Py.truthy (Qwen.environ_DASHSCOPE_API_KEY A) = false) /\
  (forall e, snd result = inl e -> fst result = w) /\
  (forall client,
     snd result = inr client ->
     Qwen.api_key client <> "" /\
     (Py.truthy key = true -> Some (Qwen.api_key client) = key) /\
     (Py.truthy key = false ->
      Py.truthy (Qwen.settings_DASHSCOPE_API_KEY A) = true ->
      Some (Qwen.api_key client) = Qwen.settings_DASHSCOPE_API_KEY A) /\
     (Py.truthy key = false ->
      Py.truthy (Qwen.settings_DASHSCOPE_API_KEY A) = false ->
      Some (Qwen.api_key client) = Qwen.environ_DASHSCOPE_API_KEY A) /\
     Qwen.base_http_api_url (fst result)
       = (if String.eqb region "intl" then Some Qwen.intl_url
          else Qwen.base_http_api_url w)) /\
  Qwen.calls (fst result) = Qwen.calls w /\
  (forall later,
     Qwen.base_http_api_url (fst result) = Some Qwen.intl_url ->
     Qwen.base_http_api_url (Qwen.construct_all A later (fst result))
       = Some Qwen.intl_url).
Proof.
  intros result. subst result. unfold Qwen.__init__, Qwen.or_.
  split_and!.
  - destruct key as [[| c k] |];
      destruct (Qwen.settings_DASHSCOPE_API_KEY A) as [[| c' k'] |];
      destruct (Qwen.environ_DASHSCOPE_API_KEY A) as [[| c'' k''] |]; simpl;
      try (destruct (String.eqb region "intl"));
      split;
      first [ now intros [msg Hmsg] | now intros (H1 & H2 & H3) | eauto ].
  - intros e. destruct (negb _); [reflexivity |].
    destruct (String.eqb region "intl"); discriminate.
  - intros client.
    destruct key as [[| c k] |];
      destruct (Qwen.settings_DASHSCOPE_API_KEY A) as [[| c' k'] |];
      destruct (Qwen.environ_DASHSCOPE_API_KEY A) as [[| c'' k''] |]; simpl;
      try discriminate;
      destruct (String.eqb region "intl"); simpl;
      intros [= <-]; simpl; split_and!; try reflexivity; try discriminate.
  - destruct (negb _); [reflexivity |].
    now destruct (String.eqb region "intl").
  - intros later. apply construct_all_keeps_intl.
Qed.

Example construct_demo :
  map (fun arguments =>
         Qwen.base_http_api_url (Qwen.construct_all Qwen.api arguments Qwen.fresh))
    [[(None, "cn")]; [(None, "intl")]; [(None, "intl"); (Some "sk-other", "cn")]]
  = [None; Some Qwen.intl_url; Some Qwen.intl_url].
Proof. reflexivity. Qed.
